(** * Request dispatch of the multi-provider AI gateway

    A shallow embedding of the instance registry
    ([internal/instance/config.go]) and of the two request handlers
    ([internal/handlers/transparent_handler.go] and
    [internal/handlers/protocol_handler.go]), followed by the properties
    of instance lookup, configuration loading, passthrough and protocol
    translation that the specification states about them.

    Go strings are byte sequences, modelled by [string]; Go maps are
    [gmap]s, and the order in which a [range] loop visits a map, which Go
    leaves unspecified, is an explicit argument constrained to be a
    permutation of the map's entries. *)

From Stdlib Require Import ZArith String Ascii List Lia DecimalString.
From Stdlib.Strings Require Import Byte.
From stdpp Require Import base gmap strings list fin_maps.

Local Open Scope Z_scope.

(** ** Go values *)

(** A Go result [(v, err)]: either the value or the error's message. *)
Inductive result (A : Type) : Type :=
| Ok (a : A)
| Err (msg : string).
Arguments Ok {A} a.
Arguments Err {A} msg.

(** [s[:n]] for [n <= len(s)]. *)
Definition slice_to (s : string) (n : nat) : string := substring 0 n s.

(** [s[n:]] for [n <= len(s)]. *)
Definition slice_from (s : string) (n : nat) : string :=
  substring n (String.length s - n) s.

(** [strings.HasPrefix]:
    [len(s) >= len(prefix) && s[:len(prefix)] == prefix]. *)
Definition HasPrefix (s prefix : string) : bool :=
  (String.length prefix <=? String.length s)%nat
  && String.eqb (slice_to s (String.length prefix)) prefix.

(** ** Package [os]: environment expansion

    [os.ExpandEnv] is the standard library's; its loop over the byte index
    [j], which jumps by the width [w] of each reference it has read, is
    rendered by the counter [skip]. The environment maps the names that are
    set to their values. *)
Module os.

Definition isShellSpecialVar (c : ascii) : bool :=
  existsb (Ascii.eqb c)
    (list_ascii_of_string "*#$@!?-0123456789").

Definition isAlphaNum (c : ascii) : bool :=
  let n := nat_of_ascii c in
  Ascii.eqb c "_"%char
  || ((48 <=? n) && (n <=? 57))%nat
  || ((97 <=? n) && (n <=? 122))%nat
  || ((65 <=? n) && (n <=? 90))%nat.

(** Position of the first closing brace at or after index [i], the string
    argument being the text from [i] on. *)
Fixpoint closing_brace (s : string) (i : nat) : option nat :=
  match s with
  | EmptyString => None
  | String c s' =>
      if Ascii.eqb c "}"%char then Some i else closing_brace s' (S i)
  end.

(** Length of the longest alphanumeric prefix. *)
Fixpoint scan_alnum (s : string) : nat :=
  match s with
  | EmptyString => 0%nat
  | String c s' => if isAlphaNum c then S (scan_alnum s') else 0%nat
  end.

(** The scan to the closing brace of [getShellName], [s] starting with the
    opening brace and [rest] being [s[1:]]. *)
Definition scan_braces (s rest : string) : string * nat :=
  match closing_brace rest 1 with
  | Some i =>
      if (i =? 1)%nat then (EmptyString, 2%nat)
      else (substring 1 (i - 1) s, S i)
  | None => (EmptyString, 1%nat)
  end.

(** [getShellName s] for a non-empty [s], the text after a dollar sign:
    the name read and the number of bytes it took. *)
Definition getShellName (s : string) : string * nat :=
  match s with
  | EmptyString => (EmptyString, 0%nat)
  | String c0 rest =>
      if Ascii.eqb c0 "{"%char then
        match rest with
        | String c1 (String c2 _) =>
            if isShellSpecialVar c1 && Ascii.eqb c2 "}"%char
            then (substring 1 1 s, 3%nat)
            else scan_braces s rest
        | _ => scan_braces s rest
        end
      else if isShellSpecialVar c0 then (substring 0 1 s, 1%nat)
      else let i := scan_alnum s in (substring 0 i s, i)
  end.

Fixpoint expand_from (mapping : string -> string) (skip : nat) (s : string)
  : string :=
  match s with
  | EmptyString => EmptyString
  | String c rest =>
      match skip with
      | S k => expand_from mapping k rest
      | O =>
          if Ascii.eqb c "$"%char && negb (String.eqb rest EmptyString) then
            let '(name, w) := getShellName rest in
            let out :=
              if String.eqb name EmptyString then
                if (0 <? w)%nat then EmptyString
                else String c EmptyString
              else mapping name in
            out +:+ expand_from mapping w rest
          else String c (expand_from mapping 0 rest)
      end
  end.

Definition Expand (s : string) (mapping : string -> string) : string :=
  expand_from mapping 0 s.

(** [os.Getenv]: the value, or the empty string for a name that is not
    set. *)
Definition Getenv (env : gmap string string) (key : string) : string :=
  default EmptyString (env !! key).

Definition ExpandEnv (env : gmap string string) (s : string) : string :=
  Expand s (Getenv env).

End os.

(** ** Package [instance]: the configuration model *)

Module EndpointConfig.
Record t : Type := mk { Path : string; Methods : list string }.
End EndpointConfig.

Module AuthenticationConfig.
Record t : Type := mk {
  Type_ : string;
  Service : string;
  Region : string;
  Header : string;
  Key : string;
  Token : string
}.
End AuthenticationConfig.

(** The untyped [Options] map is left out: nothing reads it. *)
Module TransformationConfig.
Record t : Type := mk {
  RequestFrom : string;
  RequestTo : string;
  ResponseFrom : string;
  ResponseTo : string
}.
End TransformationConfig.

Module MetricsConfig.
Record t : Type := mk { Enabled : bool; Labels : gmap string string }.
End MetricsConfig.

Module InstanceConfig.
Record t : Type := mk {
  Type_ : string;
  Mode : string;
  Protocol : string;
  Description : string;
  Region : string;
  Endpoint : string;
  BaseURL : string;
  ProjectID : string;
  Location : string;
  APIVersion : string;
  CompartmentID : string;
  Authentication : AuthenticationConfig.t;
  Transformation : option TransformationConfig.t;
  Endpoints : list EndpointConfig.t;
  Metrics : MetricsConfig.t
}.
End InstanceConfig.

Module FeatureConfig.
Record t : Type := mk { Enabled : bool; Description : string }.
End FeatureConfig.

(** The untyped [Authentication] map of the global section is left out. *)
Module GlobalConfig.
Record t : Type := mk {
  MetricsEnabled : bool;
  CaptureRequestBody : bool;
  CaptureResponseBody : bool;
  DefaultTimeout : string
}.
End GlobalConfig.

Module RoutingConfig.
Record t : Type := mk {
  Defaults : gmap string string;
  PathBasedEnabled : bool;
  FallbackEnabled : bool;
  FallbackUseDefault : bool
}.
End RoutingConfig.

Module Config.

Record t : Type := mk {
  Global : GlobalConfig.t;
  Instances : gmap string InstanceConfig.t;
  Routing : RoutingConfig.t;
  Features : gmap string FeatureConfig.t
}.

(** [LoadConfig]. [file] is what [os.ReadFile] returns for the path,
    [env] the process environment, and [Unmarshal] the YAML decoder, an
    external library. *)
Definition LoadConfig (Unmarshal : string -> result t)
    (env : gmap string string) (file : result string) : result t :=
  match file with
  | Err err => Err ("failed to read config file: " +:+ err)
  | Ok data =>
      let expanded := os.ExpandEnv env data in
      match Unmarshal expanded with
      | Err err => Err ("failed to parse config: " +:+ err)
      | Ok config => Ok config
      end
  end.

(** The inner loop of [GetInstanceByPath]: the first endpoint of the
    instance whose path is a prefix of the request path. *)
Definition matching_endpoint (path : string)
    (endpoints : list EndpointConfig.t) : option EndpointConfig.t :=
  List.find (fun endpoint => HasPrefix path (EndpointConfig.Path endpoint))
    endpoints.

(** [GetInstanceByPath] along one iteration order of [c.Instances]. *)
Fixpoint GetInstanceByPath_in (order : list (string * InstanceConfig.t))
    (path : string) : result (InstanceConfig.t * string) :=
  match order with
  | [] => Err ("no instance found for path: " +:+ path)
  | (name, instance) :: order' =>
      match matching_endpoint path (InstanceConfig.Endpoints instance) with
      | Some _ => Ok (instance, name)
      | None => GetInstanceByPath_in order' path
      end
  end.

(** The orders in which a [range] over [c.Instances] may run. *)
Definition range_order (c : t) (order : list (string * InstanceConfig.t))
  : Prop :=
  order ≡ₚ map_to_list (Instances c).

(** [GetInstanceByPath] as the relation between a path and the results the
    lookup may return. *)
Definition GetInstanceByPath (c : t) (path : string)
    (r : result (InstanceConfig.t * string)) : Prop :=
  exists order, range_order c order /\ GetInstanceByPath_in order path = r.

Definition GetInstanceByName (c : t) (name : string)
  : result InstanceConfig.t :=
  match Instances c !! name with
  | Some instance => Ok instance
  | None => Err ("instance not found: " +:+ name)
  end.

Definition IsFeatureEnabled (c : t) (featureName : string) : bool :=
  match Features c !! featureName with
  | Some feature => FeatureConfig.Enabled feature
  | None => false
  end.

(** [GetDefaultInstance]. *)
Definition GetDefaultInstance (c : t) (providerType : string)
  : result (InstanceConfig.t * string) :=
  match RoutingConfig.Defaults (Routing c) !! providerType with
  | None =>
      Err ("no default instance for provider type: " +:+ providerType)
  | Some defaultName =>
      match GetInstanceByName c defaultName with
      | Err err => Err err
      | Ok instance => Ok (instance, defaultName)
      end
  end.

(** [ListInstances] along one iteration order: each name is appended in
    turn. *)
Definition ListInstances_in (order : list (string * InstanceConfig.t))
  : list string :=
  fold_left (fun names entry => names ++ [fst entry]) order [].

(** The loop shared by [ListInstancesByMode] and [ListInstancesByType]:
    the entries that pass the test are stored in a fresh map. *)
Definition collect_in (test : InstanceConfig.t -> bool)
    (order : list (string * InstanceConfig.t))
  : gmap string InstanceConfig.t :=
  fold_left
    (fun instances entry =>
       if test (snd entry) then <[fst entry := snd entry]> instances
       else instances)
    order ∅.

(** [ListInstancesByMode] along one iteration order. *)
Definition ListInstancesByMode_in (order : list (string * InstanceConfig.t))
    (mode : string) : gmap string InstanceConfig.t :=
  collect_in (fun instance => String.eqb (InstanceConfig.Mode instance) mode)
    order.

(** [ListInstancesByType] along one iteration order. *)
Definition ListInstancesByType_in (order : list (string * InstanceConfig.t))
    (providerType : string) : gmap string InstanceConfig.t :=
  collect_in
    (fun instance => String.eqb (InstanceConfig.Type_ instance) providerType)
    order.

End Config.

(** ** Packages [net/textproto], [net/http] and [net/url]

    The handlers read the caller's headers from an [http.Header], whose
    keys the server stores in canonical MIME form. *)
Module http.

(** The token bytes of a header field name. *)
Definition validHeaderFieldByte (c : ascii) : bool :=
  let n := nat_of_ascii c in
  ((48 <=? n) && (n <=? 57))%nat
  || ((97 <=? n) && (n <=? 122))%nat
  || ((65 <=? n) && (n <=? 90))%nat
  || existsb (Ascii.eqb c) (list_ascii_of_string "!#$%&'*+-.^_`|~").

Definition isLower (c : ascii) : bool :=
  let n := nat_of_ascii c in ((97 <=? n) && (n <=? 122))%nat.

Definition isUpper (c : ascii) : bool :=
  let n := nat_of_ascii c in ((65 <=? n) && (n <=? 90))%nat.

(** The case pass of [canonicalMIMEHeaderKey]: upper case for the first
    letter and after each dash, lower case elsewhere. *)
Fixpoint canonical_case (upper : bool) (s : string) : string :=
  match s with
  | EmptyString => EmptyString
  | String c s' =>
      let c' :=
        if upper && isLower c then ascii_of_nat (nat_of_ascii c - 32)
        else if negb upper && isUpper c then ascii_of_nat (nat_of_ascii c + 32)
        else c in
      String c' (canonical_case (Ascii.eqb c' "-"%char) s')
  end.

(** [textproto.CanonicalMIMEHeaderKey]: a key with a byte that is not a
    token byte is returned unchanged. *)
Definition CanonicalMIMEHeaderKey (s : string) : string :=
  if forallb validHeaderFieldByte (list_ascii_of_string s)
  then canonical_case true s
  else s.

(** [Header.Get]: the first value stored under the canonical key. *)
Definition Header_Get (h : gmap string (list string)) (key : string)
  : string :=
  match h !! CanonicalMIMEHeaderKey key with
  | Some (v :: _) => v
  | _ => EmptyString
  end.

(** [Header.Add], as the server applies it to each field it reads. *)
Definition Header_Add (h : gmap string (list string)) (key value : string)
  : gmap string (list string) :=
  let k := CanonicalMIMEHeaderKey key in
  <[k := default [] (h !! k) ++ [value]]> h.

(** The header map the server builds from the fields on the wire. The
    server moves the [Host] field to [Request.Host] and removes it from the
    map; the fields of the message framing, which it also removes, do not
    occur in the requests below. *)
Definition read_header (fields : list (string * string))
  : gmap string (list string) :=
  delete "Host"%string
    (fold_left (fun h kv => Header_Add h (fst kv) (snd kv)) fields ∅).

(** [url.Values.Get]: the first value stored under the key as it is. *)
Definition Values_Get (v : gmap string (list string)) (key : string)
  : string :=
  match v !! key with
  | Some (x :: _) => x
  | _ => EmptyString
  end.

End http.

(** The request as the handlers see it through [gin.Context]:
    [GetRawData] is [None] when the body cannot be read. *)
Module Request.
Record t : Type := mk {
  Method : string;
  URLPath : string;
  Query : gmap string (list string);
  Header : gmap string (list string);
  GetRawData : option (list byte)
}.
End Request.

(** ** Package [providers]

    The package is an interface to the handlers: a request, a response, an
    error type and the [Invoke] method. The request's [Context] carries
    cancellation only and is left out. *)
Module ProviderRequest.
Record t : Type := mk {
  Method : string;
  Path : string;
  Headers : gmap string string;
  Body : list byte;
  QueryParams : gmap string string
}.
End ProviderRequest.

Module ProviderResponse.
Record t : Type := mk {
  StatusCode : Z;
  Headers : gmap string string;
  Body : list byte
}.
End ProviderResponse.

Module ProviderError.
Record t : Type := mk {
  StatusCode : Z;
  Message : string;
  Code : string
}.
End ProviderError.

(** What [Invoke] returns: a response, a [*ProviderError], or an error of
    another type. *)
Inductive InvokeResult : Type :=
| Invoked (resp : ProviderResponse.t)
| InvokeProviderError (e : ProviderError.t)
| InvokeError (msg : string).

(** The [Provider] interface, as far as the handlers use it. *)
Class Provider : Type := { Invoke : ProviderRequest.t -> InvokeResult }.

(** ** Package [translator]: the types the handlers use *)

Module ErrorDetail.
Record t : Type := mk { Message : string; Type_ : string; Code : string }.
End ErrorDetail.

Module ErrorResponse.
Record t : Type := mk { Error : ErrorDetail.t }.
End ErrorResponse.

(** Modelled from the spec: the declaration of [ChatCompletionResponse] is
    in the translator package, which is not among the sources; the
    canonical response of the specification has an id, a created
    timestamp, a model, choices and a usage block. The handler assigns
    [ID] and [Created]. *)
Module Usage.
Record t : Type := mk {
  PromptTokens : Z;
  CompletionTokens : Z;
  TotalTokens : Z
}.
End Usage.

Module Choice.
Record t : Type := mk {
  Index : Z;
  Role : string;
  Content : string;
  FinishReason : string
}.
End Choice.

Module ChatCompletionResponse.
Record t : Type := mk {
  ID : string;
  Created : Z;
  Model : string;
  Choices : list Choice.t;
  Usage_ : Usage.t
}.
Definition set_ID (id : string) (r : t) : t :=
  mk id (Created r) (Model r) (Choices r) (Usage_ r).
Definition set_Created (created : Z) (r : t) : t :=
  mk (ID r) created (Model r) (Choices r) (Usage_ r).
End ChatCompletionResponse.

(** ** Package [handlers] *)

(** The calls a handler makes on its [gin.Context] to reply: the status and
    the body it passes to [c.JSON] or [c.Data], and the [c.Header] calls
    made before. What the caller receives for them is [gin.respond],
    below: for a status code or a content type that a handler takes from a
    provider the two differ. *)
Inductive Body : Type :=
| BodyH (fields : list (string * string))
| BodyError (e : ErrorResponse.t)
| BodyChat (r : ChatCompletionResponse.t)
| BodyData (contentType : string) (data : list byte).

Module Reply.
Record t : Type := mk {
  Status : Z;
  HeaderCalls : gmap string string;
  Body_ : Body
}.
End Reply.

(** [c.JSON(status, body)]. *)
Definition JSON (status : Z) (body : Body) : Reply.t :=
  Reply.mk status ∅ body.

(** ** Package [gin]: what the context writes

    The response that gin's context and response writer make of the calls
    in a [Reply]: the status and the bytes the writer hands to [net/http]
    and the header map at that moment. The writer of a request starts with
    status 200; [before] is the header map as the middleware left it.
    Below gin, [net/http] refuses a status outside 100..999 and sends a
    status 1xx as an interim response; the properties are stated for the
    other statuses. *)
Module gin.

Definition defaultStatus : Z := 200.

(** [Context.Header]: an empty value deletes the key, any other value
    replaces what is stored under the key's canonical form. *)
Definition Header (h : gmap string (list string)) (key value : string)
  : gmap string (list string) :=
  if String.eqb value EmptyString
  then delete (http.CanonicalMIMEHeaderKey key) h
  else <[http.CanonicalMIMEHeaderKey key := [value]]> h.

(** The [c.Header] calls of a loop that visits the provider's headers in
    the order [range]. *)
Definition set_headers (before : gmap string (list string))
    (range : list (string * string)) : gmap string (list string) :=
  fold_left (fun h kv => Header h (fst kv) (snd kv)) range before.

(** [responseWriter.WriteHeader], which [Context.Status] calls, on a writer
    that has written nothing yet: a code that is not positive leaves the
    status as it is. *)
Definition WriteHeader (status code : Z) : Z :=
  if (0 <? code) && negb (status =? code) then code else status.

(** [bodyAllowedForStatus]. *)
Definition bodyAllowedForStatus (status : Z) : bool :=
  if (100 <=? status) && (status <=? 199) then false
  else if status =? 204 then false
  else if status =? 304 then false
  else true.

(** [writeContentType] of package [render]: the content type of the render
    is stored only when the header map has none. *)
Definition writeContentType (h : gmap string (list string))
    (value : string) : gmap string (list string) :=
  match h !! "Content-Type"%string with
  | Some (_ :: _) => h
  | _ => <["Content-Type"%string := [value]]> h
  end.

(** The body written: the JSON encoding of a value, or bytes. *)
Inductive Payload : Type :=
| Encoded (value : Body)
| Bytes (data : list byte).

Module Response.
Record t : Type := mk {
  Status : Z;
  Header : gmap string (list string);
  Body_ : Payload
}.
End Response.

(** [Context.Render]: the status is set, the content type is written, and
    the body is written when the code allows one. *)
Definition Render (h : gmap string (list string)) (code : Z)
    (contentType : string) (payload : Payload) : Response.t :=
  Response.mk (WriteHeader defaultStatus code)
    (writeContentType h contentType)
    (if bodyAllowedForStatus code then payload else Bytes []).

(** The response to the calls of [rep]: the [c.Header] calls in the order
    [range], then [c.Data] or [c.JSON]. *)
Definition respond (before : gmap string (list string))
    (range : list (string * string)) (rep : Reply.t) : Response.t :=
  let h := set_headers before range in
  match Reply.Body_ rep with
  | BodyData contentType data =>
      Render h (Reply.Status rep) contentType (Bytes data)
  | value =>
      Render h (Reply.Status rep) "application/json; charset=utf-8"
        (Encoded value)
  end.


End gin.

(** What a handler does besides replying: the calls of [Invoke], with the
    key of the provider in the registry, and the observations recorded on
    the two request metrics, labelled by method and status. *)
Inductive Event : Type :=
| EvInvoke (provider : string) (req : ProviderRequest.t)
| EvMetrics (method : string) (status : Z).

(** The run of a handler on one request: [reply] is [None] when the handler
    panics before it has written a reply. *)
Module Handled.
Record t : Type := mk { events : list Event; reply : option Reply.t }.
End Handled.

Definition StatusOK : Z := 200.
Definition StatusBadRequest : Z := 400.
Definition StatusNotFound : Z := 404.
Definition StatusInternalServerError : Z := 500.
Definition StatusNotImplemented : Z := 501.
Definition StatusServiceUnavailable : Z := 503.

(** *** [transparent_handler.go] *)

(** [extractProviderPath]. *)
Fixpoint extractProviderPath (fullPath : string)
    (endpoints : list EndpointConfig.t) : string :=
  match endpoints with
  | [] => fullPath
  | endpoint :: endpoints' =>
      let p := EndpointConfig.Path endpoint in
      if (String.length p <? String.length fullPath)%nat
         && String.eqb (slice_to fullPath (String.length p)) p
      then slice_from fullPath (String.length p)
      else extractProviderPath fullPath endpoints'
  end.

(** [isAuthHeader]. *)
Definition authHeaders : list string :=
  ["Authorization"; "X-API-Key"; "x-api-key"; "api-key"; "X-Auth-Token"]%string.

Definition isAuthHeader (headerName : string) : bool :=
  existsb (fun authHeader => String.eqb headerName authHeader) authHeaders.

(** [getContentType]. *)
Definition getContentType (headers : gmap string string) : string :=
  match headers !! "Content-Type"%string with
  | Some ct => ct
  | None =>
      match headers !! "content-type"%string with
      | Some ct => ct
      | None => "application/json"%string
      end
  end.

(** The header copy loop of [HandleRequest]: every key of the caller's
    header that is not an authentication header is stored with
    [Header.Get] of that key. Distinct keys write distinct entries, so the
    result does not depend on the order of the loop. *)
Definition copy_headers (header : gmap string (list string))
  : gmap string string :=
  map_imap
    (fun key _ =>
       if isAuthHeader key then None else Some (http.Header_Get header key))
    header.

(** The query copy loop of [HandleRequest]. *)
Definition copy_query (query : gmap string (list string))
  : gmap string string :=
  map_imap (fun key _ => Some (http.Values_Get query key)) query.

Module TransparentHandler.

Record t : Type := mk {
  providers : gmap string Provider;
  config : Config.t
}.

(** The request [HandleRequest] builds for the provider. *)
Definition provider_request (instanceCfg : InstanceConfig.t) (c : Request.t)
    (body : list byte) : ProviderRequest.t :=
  ProviderRequest.mk (Request.Method c)
    (extractProviderPath (Request.URLPath c)
       (InstanceConfig.Endpoints instanceCfg))
    (copy_headers (Request.Header c)) body
    (copy_query (Request.Query c)).

(** [HandleRequest]; [order] is the order in which the lookup ranges over
    the instances of [config h]. The start time serves the duration metric
    and the log only, which are not modelled. The reply holds the
    arguments of the handler's [c.Header], [c.JSON] and [c.Data] calls;
    [gin.respond] gives the response written for them. *)
Definition HandleRequest (h : t) (order : list (string * InstanceConfig.t))
    (c : Request.t) : Handled.t :=
  let path := Request.URLPath c in
  match Config.GetInstanceByPath_in order path with
  | Err _ =>
      Handled.mk []
        (Some (JSON StatusNotFound
           (BodyH [("error", "No provider instance configured for this path")%string])))
  | Ok (instanceCfg, instanceName) =>
      if negb (String.eqb (InstanceConfig.Mode instanceCfg) "transparent") then
        Handled.mk []
          (Some (JSON StatusBadRequest
             (BodyH [("error", "This endpoint requires transparent mode")%string])))
      else
        match providers h !! InstanceConfig.Type_ instanceCfg with
        | None =>
            Handled.mk []
              (Some (JSON StatusServiceUnavailable
                 (BodyH [("error"%string,
                          "Provider " +:+ InstanceConfig.Type_ instanceCfg
                          +:+ " not available")])))
        | Some provider =>
            match Request.GetRawData c with
            | None =>
                Handled.mk []
                  (Some (JSON StatusBadRequest
                     (BodyH [("error", "Failed to read request body")%string])))
            | Some body =>
                let providerReq := provider_request instanceCfg c body in
                let call :=
                  EvInvoke (InstanceConfig.Type_ instanceCfg) providerReq in
                match @Invoke provider providerReq with
                | InvokeProviderError providerErr =>
                    Handled.mk [call]
                      (Some (Reply.mk (ProviderError.StatusCode providerErr) ∅
                         (BodyData "application/json"
                            (list_byte_of_string
                               (ProviderError.Message providerErr)))))
                | InvokeError _ =>
                    Handled.mk [call]
                      (Some (JSON StatusInternalServerError
                         (BodyH [("error", "Provider request failed")%string])))
                | Invoked providerResp =>
                    let status := ProviderResponse.StatusCode providerResp in
                    let recorded :=
                      if MetricsConfig.Enabled
                           (InstanceConfig.Metrics instanceCfg)
                      then [EvMetrics (Request.Method c) status]
                      else [] in
                    Handled.mk (call :: recorded)
                      (Some (Reply.mk status
                         (ProviderResponse.Headers providerResp)
                         (BodyData
                            (getContentType
                               (ProviderResponse.Headers providerResp))
                            (ProviderResponse.Body providerResp))))
                end
            end
        end
  end.

End TransparentHandler.

(** *** [protocol_handler.go] *)

(** Package [uuid]: the textual form of the sixteen bytes, in lower-case
    hexadecimal digits, grouped 8-4-4-4-12. *)
Module uuid.

Definition hextable : string := "0123456789abcdef".

Definition hexdigit (n : N) : ascii :=
  match String.get (N.to_nat n) hextable with
  | Some c => c
  | None => "0"%char
  end.

(** [hex.Encode]: two digits per byte, the high half first. *)
Fixpoint encodeHex (src : list byte) : string :=
  match src with
  | [] => EmptyString
  | v :: src' =>
      let n := Byte.to_N v in
      String (hexdigit (N.shiftr n 4))
        (String (hexdigit (N.land n 15)) (encodeHex src'))
  end.

Definition String_ (u : list byte) : string :=
  encodeHex (take 4 u) +:+ "-"
  +:+ encodeHex (take 2 (drop 4 u)) +:+ "-"
  +:+ encodeHex (take 2 (drop 6 u)) +:+ "-"
  +:+ encodeHex (take 2 (drop 8 u)) +:+ "-"
  +:+ encodeHex (drop 10 u).

End uuid.

(** [time.Time], of which the handler reads the epoch seconds. *)
Module Time.
Record t : Type := mk { Unix : Z }.
End Time.

(** The operations of the translator package and of the JSON codec on its
    types, none of which is among the sources: the request type with its
    model field, the binding of the caller's body, the marshalling of the
    request, the two Bedrock Converse translations and the decoding of the
    upstream body. A pointer result is an [option], [None] being nil. *)
Class Translator : Type := {
  ChatCompletionRequest : Type;
  req_Model : ChatCompletionRequest -> string;
  ShouldBindJSON : Request.t -> option ChatCompletionRequest;
  Marshal : ChatCompletionRequest -> option (list byte);
  TranslateOpenAIToConverseAPI :
    ChatCompletionRequest -> result ProviderRequest.t;
  ConverseResponse : Type;
  Unmarshal_ConverseResponse : list byte -> option ConverseResponse;
  TranslateConverseToOpenAI :
    ConverseResponse -> string -> string -> option ChatCompletionResponse.t;
  Unmarshal_ChatCompletionResponse :
    list byte -> option (option ChatCompletionResponse.t)
}.

Definition error_reply (status : Z) (message type code : string) : Reply.t :=
  JSON status
    (BodyError (ErrorResponse.mk (ErrorDetail.mk message type code))).

Module ProtocolHandler.

Record t : Type := mk {
  providers : gmap string Provider;
  config : Config.t
}.

(** [handleProviderError]. *)
Definition handleProviderError (err : ProviderError.t + string) : Reply.t :=
  match err with
  | inl providerErr =>
      let statusCode :=
        if ProviderError.StatusCode providerErr =? 0
        then StatusInternalServerError
        else ProviderError.StatusCode providerErr in
      error_reply statusCode (ProviderError.Message providerErr)
        "provider_error" (ProviderError.Code providerErr)
  | inr _ =>
      error_reply StatusInternalServerError "Internal server error"
        "internal_error" "unknown_error"
  end.

(** The request built on the three passthrough branches of
    [handleOpenAIProtocol]. *)
Definition passthrough_request (reqBody : list byte) : ProviderRequest.t :=
  ProviderRequest.mk "POST" "/chat/completions"
    {[ "Content-Type"%string := "application/json"%string ]} reqBody ∅.

Definition marshal_failed : Reply.t :=
  error_reply StatusInternalServerError "Failed to marshal request"
    "internal_error" "marshal_failed".

Definition response_parse_error : Reply.t :=
  error_reply StatusInternalServerError "Failed to parse provider response"
    "internal_error" "response_parse_error".

(** The transformation step of [handleOpenAIProtocol]: the reply that ends
    the request, or the request for the provider. *)
Definition transform_request `{Translator}
    (instanceCfg : InstanceConfig.t) (req : ChatCompletionRequest)
  : Reply.t + ProviderRequest.t :=
  let passthrough :=
    match Marshal req with
    | None => inl marshal_failed
    | Some reqBody => inr (passthrough_request reqBody)
    end in
  match InstanceConfig.Transformation instanceCfg with
  | None => passthrough
  | Some transformation =>
      let transformTo := TransformationConfig.RequestTo transformation in
      if String.eqb transformTo "bedrock_converse" then
        match TranslateOpenAIToConverseAPI req with
        | Ok providerReq => inr providerReq
        | Err err =>
            inl (error_reply StatusBadRequest
                   ("Failed to translate request: " +:+ err)
                   "invalid_request_error" "translation_failed")
        end
      else passthrough
  end.

(** The parsing step of [handleOpenAIProtocol]: the reply for a body that
    does not parse, or the response pointer. *)
Definition parse_response `{Translator}
    (instanceCfg : InstanceConfig.t) (req : ChatCompletionRequest)
    (requestID : string) (body : list byte)
  : Reply.t + option ChatCompletionResponse.t :=
  let from_converse :=
    match InstanceConfig.Transformation instanceCfg with
    | Some transformation =>
        String.eqb (TransformationConfig.ResponseFrom transformation)
          "bedrock_converse"
    | None => false
    end in
  if from_converse then
    match Unmarshal_ConverseResponse body with
    | None => inl response_parse_error
    | Some converseResp =>
        inr (TranslateConverseToOpenAI converseResp (req_Model req) requestID)
    end
  else
    match Unmarshal_ChatCompletionResponse body with
    | None => inl response_parse_error
    | Some openaiResp => inr openaiResp
    end.

(** The identifier [handleOpenAIProtocol] generates from [uuid.New()]. *)
Definition requestID (u : list byte) : string :=
  "chatcmpl-" +:+ slice_to (uuid.String_ u) 8.

(** [handleOpenAIProtocol]; [u] is the value of [uuid.New()]. *)
Definition handleOpenAIProtocol `{Translator} (c : Request.t)
    (provider : Provider) (instanceCfg : InstanceConfig.t)
    (startTime : Time.t) (u : list byte) : Handled.t :=
  match ShouldBindJSON c with
  | None =>
      Handled.mk []
        (Some (error_reply StatusBadRequest "Invalid request body"
                 "invalid_request_error" "invalid_json"))
  | Some req =>
      let requestID := requestID u in
      match transform_request instanceCfg req with
      | inl failure => Handled.mk [] (Some failure)
      | inr providerReq =>
          let call :=
            EvInvoke (InstanceConfig.Type_ instanceCfg) providerReq in
          match @Invoke provider providerReq with
          | InvokeProviderError providerErr =>
              Handled.mk [call] (Some (handleProviderError (inl providerErr)))
          | InvokeError err =>
              Handled.mk [call] (Some (handleProviderError (inr err)))
          | Invoked providerResp =>
              match parse_response instanceCfg req requestID
                      (ProviderResponse.Body providerResp) with
              | inl failure => Handled.mk [call] (Some failure)
              | inr None => Handled.mk [call] None
              | inr (Some openaiResp) =>
                  let openaiResp :=
                    ChatCompletionResponse.set_Created (Time.Unix startTime)
                      (ChatCompletionResponse.set_ID requestID openaiResp) in
                  let recorded :=
                    if MetricsConfig.Enabled
                         (InstanceConfig.Metrics instanceCfg)
                    then [EvMetrics "POST" 200]
                    else [] in
                  Handled.mk (call :: recorded)
                    (Some (JSON StatusOK (BodyChat openaiResp)))
              end
          end
      end
  end.

(** [HandleRequest]; [order] is the order in which the lookup ranges over
    the instances of [config h], [startTime] the value of [time.Now()] on
    entry. *)
Definition HandleRequest `{Translator} (h : t)
    (order : list (string * InstanceConfig.t)) (startTime : Time.t)
    (u : list byte) (c : Request.t) : Handled.t :=
  let path := Request.URLPath c in
  match Config.GetInstanceByPath_in order path with
  | Err _ =>
      Handled.mk []
        (Some (error_reply StatusNotFound
                 "No provider instance configured for this path"
                 "invalid_request_error" "instance_not_found"))
  | Ok (instanceCfg, instanceName) =>
      if negb (String.eqb (InstanceConfig.Mode instanceCfg) "protocol") then
        Handled.mk []
          (Some (error_reply StatusBadRequest
                   "This endpoint requires protocol mode"
                   "invalid_request_error" "invalid_mode"))
      else
        match providers h !! InstanceConfig.Type_ instanceCfg with
        | None =>
            Handled.mk []
              (Some (error_reply StatusServiceUnavailable
                       ("Provider " +:+ InstanceConfig.Type_ instanceCfg
                        +:+ " not available")
                       "service_error" "provider_unavailable"))
        | Some provider =>
            if String.eqb (InstanceConfig.Protocol instanceCfg) "openai" then
              handleOpenAIProtocol c provider instanceCfg startTime u
            else
              Handled.mk []
                (Some (error_reply StatusNotImplemented
                         ("Protocol " +:+ InstanceConfig.Protocol instanceCfg
                          +:+ " not yet implemented")
                         "not_implemented_error" "protocol_not_implemented"))
        end
  end.

End ProtocolHandler.

(** ** Notions the properties are stated with *)

(** The requests a run has passed to a provider, in order. *)
Definition forwarded (out : Handled.t) : list ProviderRequest.t :=
  omap (fun e => match e with
                 | EvInvoke _ req => Some req
                 | EvMetrics _ _ => None
                 end)
    (Handled.events out).

(** The bytes of a reply written with [c.Data]. *)
Definition body_bytes (b : Body) : option (list byte) :=
  match b with
  | BodyData _ data => Some data
  | _ => None
  end.

(** [prefix] is a prefix of [path] and shorter than it: the test of
    [extractProviderPath]. *)
Definition strictly_extends (path prefix : string) : bool :=
  (String.length prefix <? String.length path)%nat
  && String.eqb (slice_to path (String.length prefix)) prefix.

(** Instance [name] has an endpoint whose path is a prefix of [path]. *)
Definition owns_prefix (c : Config.t) (path name : string) : Prop :=
  exists instance endpoint,
    Config.Instances c !! name = Some instance /\
    In endpoint (InstanceConfig.Endpoints instance) /\
    HasPrefix path (EndpointConfig.Path endpoint) = true.

(** Instance [name] has an endpoint whose path is a prefix of [path] and
    is as long as any configured endpoint path that is one. *)
Definition owns_longest_prefix (c : Config.t) (path name : string) : Prop :=
  exists instance endpoint,
    Config.Instances c !! name = Some instance /\
    In endpoint (InstanceConfig.Endpoints instance) /\
    HasPrefix path (EndpointConfig.Path endpoint) = true /\
    forall name' instance' endpoint',
      Config.Instances c !! name' = Some instance' ->
      In endpoint' (InstanceConfig.Endpoints instance') ->
      HasPrefix path (EndpointConfig.Path endpoint') = true ->
      (String.length (EndpointConfig.Path endpoint')
       <= String.length (EndpointConfig.Path endpoint))%nat.


(** No byte of [s] is [x]. *)
Definition without_char (x : ascii) (s : string) : bool :=
  forallb (fun c => negb (Ascii.eqb c x)) (list_ascii_of_string s).



(** The shape [^chatcmpl-[0-9a-f]{8}$]. *)
Definition is_lower_hex (c : ascii) : bool :=
  existsb (Ascii.eqb c) (list_ascii_of_string "0123456789abcdef").

Definition matches_chatcmpl_id (s : string) : bool :=
  HasPrefix s "chatcmpl-"
  && (String.length (slice_from s 9) =? 8)%nat
  && forallb is_lower_hex (list_ascii_of_string (slice_from s 9)).

(** The invariants of an instance that the specification lists and that
    can be read off an [InstanceConfig]: a protocol instance has a
    translation pair, a transparent instance has none, and the provider
    kind is a known one. *)
Definition known_kinds : list string :=
  ["bedrock"; "azure"; "openai"; "anthropic"; "vertex"; "ibm"; "oracle"]%string.

Definition instance_invariants (i : InstanceConfig.t) : bool :=
  existsb (String.eqb (InstanceConfig.Type_ i)) known_kinds
  && (if String.eqb (InstanceConfig.Mode i) "protocol"
      then bool_decide (is_Some (InstanceConfig.Transformation i))
      else true)
  && (if String.eqb (InstanceConfig.Mode i) "transparent"
      then bool_decide (InstanceConfig.Transformation i = None)
      else true).

Definition config_invariants (c : Config.t) : Prop :=
  forall name instance,
    Config.Instances c !! name = Some instance ->
    instance_invariants instance = true.

(** ** Sample data *)

Definition no_authentication : AuthenticationConfig.t :=
  AuthenticationConfig.mk "" "" "" "" "" "".

Definition sample_instance (type mode protocol : string)
    (transformation : option TransformationConfig.t)
    (endpoints : list EndpointConfig.t) : InstanceConfig.t :=
  InstanceConfig.mk type mode protocol "" "" "" "" "" "" "" ""
    no_authentication transformation endpoints (MetricsConfig.mk true ∅).

Definition sample_config (instances : gmap string InstanceConfig.t)
  : Config.t :=
  Config.mk (GlobalConfig.mk true false false "")
    instances (RoutingConfig.mk ∅ true false false) ∅.

(** A provider that answers every request with [resp]. *)
Definition answering (resp : ProviderResponse.t) : Provider :=
  {| Invoke := fun _ => Invoked resp |}.

(** Two protocol instances whose prefixes overlap as strings. *)
Definition bedrock_openai : InstanceConfig.t :=
  sample_instance "bedrock" "protocol" "openai" None
    [EndpointConfig.mk "/openai/bedrock" ["POST"%string]].

Definition bedrock_us1_openai : InstanceConfig.t :=
  sample_instance "bedrock" "protocol" "openai"
    (Some (TransformationConfig.mk "openai" "bedrock_converse"
             "bedrock_converse" "openai"))
    [EndpointConfig.mk "/openai/bedrock_us1" ["POST"%string]].

(** One transparent instance. *)
Definition bedrock_transparent : InstanceConfig.t :=
  sample_instance "bedrock" "transparent" "" None
    [EndpointConfig.mk "/transparent/bedrock" ["POST"%string]].

Definition single : Config.t :=
  sample_config {[ "bedrock_transparent"%string := bedrock_transparent ]}.

Definition upstream_ok : ProviderResponse.t :=
  ProviderResponse.mk 200
    {[ "Content-Type"%string := "application/json"%string ]}
    (list_byte_of_string "{}").

Definition bedrock_handler : TransparentHandler.t :=
  TransparentHandler.mk {[ "bedrock"%string := answering upstream_ok ]} single.

(** A caller's request as the server presents it: the header is built from
    the fields on the wire. *)
Definition caller_request (method path : string)
    (fields : list (string * string)) : Request.t :=
  Request.mk method path ∅ (http.read_header fields)
    (Some (list_byte_of_string "{}")).

(** A transparent instance with two endpoints, one path extending the
    other. *)
Definition openai_nested : InstanceConfig.t :=
  sample_instance "openai" "transparent" "" None
    [EndpointConfig.mk "/transparent/openai/v1" ["POST"%string];
     EndpointConfig.mk "/transparent/openai" ["POST"%string]].

Definition nested_handler : TransparentHandler.t :=
  TransparentHandler.mk {[ "openai"%string := answering upstream_ok ]}
    (sample_config {[ "openai_transparent"%string := openai_nested ]}).

(** A stand-in for the translator package and the JSON codec: the request
    is the text of the caller's body, read as the model name, and every
    upstream body decodes to [sample_response]. *)
Definition sample_response : ChatCompletionResponse.t :=
  ChatCompletionResponse.mk "chatcmpl-CXaO5xd7Fdjo9xyNK27dZPqr3C0sK"
    1762120733 "gpt-3.5-turbo-0125"
    [Choice.mk 0 "assistant" "Greetings, hi, hello" "stop"]
    (Usage.mk 13 5 18).

Definition sample_translator : Translator := {|
  ChatCompletionRequest := string;
  req_Model := fun req => req;
  ShouldBindJSON := fun c => string_of_list_byte <$> Request.GetRawData c;
  Marshal := fun req => Some (list_byte_of_string req);
  TranslateOpenAIToConverseAPI := fun req =>
    Ok (ProviderRequest.mk "POST" "/model/converse" ∅
          (list_byte_of_string req) ∅);
  ConverseResponse := list byte;
  Unmarshal_ConverseResponse := fun body => Some body;
  TranslateConverseToOpenAI := fun _ model id =>
    Some (ChatCompletionResponse.mk id 0 model [] (Usage.mk 0 0 0));
  Unmarshal_ChatCompletionResponse := fun _ => Some (Some sample_response)
|}.

Definition openai_openai : InstanceConfig.t :=
  sample_instance "openai" "protocol" "openai"
    (Some (TransformationConfig.mk "openai" "openai" "openai" "openai"))
    [EndpointConfig.mk "/openai/openai" ["POST"%string]].

(** A protocol instance with a protocol tag other than [openai]. *)
Definition anthropic_native : InstanceConfig.t :=
  sample_instance "anthropic" "protocol" "anthropic" None
    [EndpointConfig.mk "/anthropic/claude" ["POST"%string]].

Definition protocol_config : Config.t :=
  sample_config
    (<["openai_openai"%string := openai_openai]>
       (<["anthropic_native"%string := anthropic_native]> ∅)).

(** The registry holds the OpenAI provider only. *)
Definition openai_handler : ProtocolHandler.t :=
  ProtocolHandler.mk {[ "openai"%string := answering upstream_ok ]}
    protocol_config.

Definition sample_uuid : list byte :=
  [x27; x6c; xf8; x78; x1d; x0a; x4b; x52;
   x9c; x3e; x5f; x60; x71; x82; x93; xa4].

(** The chat completion the sample run replies with. *)
Definition sample_completion : ChatCompletionResponse.t :=
  ChatCompletionResponse.mk "chatcmpl-276cf878" 1762120723
    "gpt-3.5-turbo-0125"
    [Choice.mk 0 "assistant" "Greetings, hi, hello" "stop"]
    (Usage.mk 13 5 18).

(** A decoder that reads [text] as [config] and rejects every other
    text: it stands for the YAML decoder on one document. *)
Definition decoding (text : string) (config : Config.t)
  : string -> result Config.t :=
  fun s => if String.eqb s text then Ok config else Err "yaml: not decoded".

(** A document with one protocol instance that has no translation pair,
    and the configuration it spells. *)
Definition pairless_document : string :=
  "instances: {bedrock_openai: {type: bedrock, mode: protocol, protocol: openai, endpoints: [{path: /openai/bedrock, methods: [POST]}]}}".

Definition pairless_instance : InstanceConfig.t :=
  InstanceConfig.mk "bedrock" "protocol" "openai" "" "" "" "" "" "" "" ""
    no_authentication None
    [EndpointConfig.mk "/openai/bedrock" ["POST"%string]]
    (MetricsConfig.mk false ∅).

Definition pairless_config : Config.t :=
  Config.mk (GlobalConfig.mk false false false "")
    {[ "bedrock_openai"%string := pairless_instance ]}
    (RoutingConfig.mk ∅ false false false) ∅.

Definition empty_config : Config.t :=
  Config.mk (GlobalConfig.mk false false false "") ∅
    (RoutingConfig.mk ∅ false false false) ∅.

Definition overlapping : Config.t :=
  sample_config
    (<["bedrock_openai"%string := bedrock_openai]>
       (<["bedrock_us1_openai"%string := bedrock_us1_openai]> ∅)).

(** A provider that fails every request with the provider error [e]. *)
Definition failing (e : ProviderError.t) : Provider :=
  {| Invoke := fun _ => InvokeProviderError e |}.

Definition throttled : ProviderError.t :=
  ProviderError.mk 429 "Too many requests" "rate_limit_exceeded".

Definition unclassified : ProviderError.t :=
  ProviderError.mk 0 "connection reset" "network_error".

(** ** [cmd/server/main.go]: the native provider routes and the helpers *)

(** What the native handler does besides replying: the call of [Invoke]
    and the record it leaves with the health checker. *)
Inductive NativeEvent : Type :=
| NvInvoke (req : ProviderRequest.t)
| NvRecordError
| NvRecordSuccess.

Module NativeHandled.
Record t : Type := mk { events : list NativeEvent; reply : Reply.t }.
End NativeHandled.

(** The double quote, and the body [fmt.Sprintf] builds for a provider
    error, the message being inserted as it is. *)
Definition dquote : string := String "034" EmptyString.

Definition native_error_body (message : string) : string :=
  "{" +:+ dquote +:+ "error" +:+ dquote +:+ ":" +:+ dquote +:+ message
  +:+ dquote +:+ "}".

(** The header copy loop of [createProviderHandler]: every key is stored
    with [Header.Get] of that key. *)
Definition copy_all_headers (header : gmap string (list string))
  : gmap string string :=
  map_imap (fun key _ => Some (http.Header_Get header key)) header.

(** The handler [createProviderHandler] returns; [path] is the value of
    [c.Param("path")] and [body] the bytes [c.GetRawData] returns, whose
    error the handler discards. The reply holds the arguments of the
    handler's [c.Header], [c.JSON] and [c.Data] calls; [gin.respond] gives
    the response written for them. *)
Definition createProviderHandler (provider : Provider) (path : string)
    (body : list byte) (c : Request.t) : NativeHandled.t :=
  let providerReq :=
    ProviderRequest.mk (Request.Method c) path
      (copy_all_headers (Request.Header c)) body
      (copy_query (Request.Query c)) in
  match @Invoke provider providerReq with
  | InvokeProviderError providerErr =>
      NativeHandled.mk [NvInvoke providerReq; NvRecordError]
        (Reply.mk (ProviderError.StatusCode providerErr) ∅
           (BodyData "application/json"
              (list_byte_of_string
                 (native_error_body (ProviderError.Message providerErr)))))
  | InvokeError _ =>
      NativeHandled.mk [NvInvoke providerReq; NvRecordError]
        (JSON 500 (BodyH [("error", "Internal server error")%string]))
  | Invoked resp =>
      NativeHandled.mk [NvInvoke providerReq; NvRecordSuccess]
        (Reply.mk (ProviderResponse.StatusCode resp)
           (ProviderResponse.Headers resp)
           (BodyData "application/json" (ProviderResponse.Body resp)))
  end.

(** [getEnv]. *)
Definition getEnv (env : gmap string string) (key defaultValue : string)
  : string :=
  let value := os.Getenv env key in
  if negb (String.eqb value EmptyString) then value else defaultValue.

(** Package [strings], for a separator of one byte: [Split] cuts at every
    occurrence of the separator, and [SplitN] with a count of two at the
    first one only. *)
Fixpoint Split (s : string) (sep : ascii) : list string :=
  match s with
  | EmptyString => [EmptyString]
  | String c s' =>
      if Ascii.eqb c sep then EmptyString :: Split s' sep
      else
        match Split s' sep with
        | piece :: pieces => String c piece :: pieces
        | [] => [String c EmptyString]
        end
  end.

Fixpoint SplitN2 (s : string) (sep : ascii) : list string :=
  match s with
  | EmptyString => [EmptyString]
  | String c s' =>
      if Ascii.eqb c sep then [EmptyString; s']
      else
        match SplitN2 s' sep with
        | piece :: pieces => String c piece :: pieces
        | [] => [String c EmptyString]
        end
  end.

(** [loadBasicAuthCredentials]. *)
Definition loadBasicAuthCredentials (env : gmap string string)
  : gmap string string :=
  let credsEnv := os.Getenv env "BASIC_AUTH_CREDENTIALS" in
  if negb (String.eqb credsEnv EmptyString) then
    fold_left
      (fun creds pair =>
         match SplitN2 pair ":" with
         | [user; pass] => <[user := pass]> creds
         | _ => creds
         end)
      (Split credsEnv ",") ∅
  else ∅.

(** The text that lists the credentials [l], as the variable expects
    it. *)
Fixpoint credentials_text (l : list (string * string)) : string :=
  match l with
  | [] => EmptyString
  | [(user, pass)] => user +:+ ":" +:+ pass
  | (user, pass) :: l' => user +:+ ":" +:+ pass +:+ "," +:+ credentials_text l'
  end.

(** ** [test/e2e/rag_integration_test.go]: the access check *)

(** [CheckStorageAccess]. *)
Definition CheckStorageAccess (bucket key : string)
    (allowedBuckets deniedPrefixes : list string) : bool :=
  if negb (existsb (fun allowed => String.eqb bucket allowed) allowedBuckets)
  then false
  else negb (existsb (fun denied => HasPrefix ("/" +:+ key) denied)
               deniedPrefixes).

(** An entry of the credentials text that can be read back: no comma or
    colon in the user name, no comma in the password. *)
Definition readable_credential (entry : string * string) : bool :=
  without_char "," (fst entry) && without_char ":" (fst entry)
  && without_char "," (snd entry).

(** The text after an unbraced name ends the name: it is empty or starts
    with a byte that is not alphanumeric. *)
Definition ends_name (post : string) : bool :=
  match post with
  | EmptyString => true
  | String c _ => negb (os.isAlphaNum c)
  end.

(** A name as the unbraced form reads it whole: alphanumeric, and
    starting with a byte that is not one of the special variables. *)
Definition plain_name (name : string) : bool :=
  match name with
  | EmptyString => false
  | String c _ =>
      negb (os.isShellSpecialVar c)
      && forallb os.isAlphaNum (list_ascii_of_string name)
  end.

(** ** The model-routed chat completion handler

    The second handler of [protocol_handler.go] serves a chat completion
    from the provider that a model router chooses. It writes to an
    [http.ResponseWriter] directly. *)

(** What [Invoke] returns to this handler, which also reads the cause
    [Err] wrapped in a provider error. *)
Inductive ChatInvokeResult : Type :=
| ChatInvoked (resp : ProviderResponse.t)
| ChatProviderError (e : ProviderError.t) (cause : option string)
| ChatError (msg : string).

(** What a [Read] of a stream returns beside the bytes read. *)
Inductive ReadError : Type :=
| ReadEOF
| ReadFailed (msg : string).

(** The stream of a provider, as far as the handler reads it: the results
    of its successive [Read] calls, each one the bytes read into the buffer
    and the error. A stream that has answered all of them is read
    further. *)
Definition Stream : Type := list (list byte * option ReadError).

(** What [InvokeStreaming] returns. *)
Inductive ChatStreamResult : Type :=
| StreamOpened (stream : Stream)
| StreamProviderError (e : ProviderError.t) (cause : option string)
| StreamError (msg : string).

(** A provider as the router returns it: its name, its [Invoke] and its
    [InvokeStreaming]. *)
Module RoutedProvider.
Record t : Type := mk {
  Name : string;
  Invoke_ : ProviderRequest.t -> ChatInvokeResult;
  InvokeStreaming_ : ProviderRequest.t -> ChatStreamResult
}.
End RoutedProvider.

(** What this handler uses and the sources do not hold: the decoding of
    the caller's body, the streaming flag of the request, the model
    router, the Bedrock translations and the decoding of upstream bodies,
    and the five error codes of the providers package, which are distinct
    constants since they label the cases of one switch. *)
Class ChatCompletion `{Translator} : Type := {
  Decode : Request.t -> result ChatCompletionRequest;
  req_Stream : ChatCompletionRequest -> bool;
  RouteModel : string -> result RoutedProvider.t;
  json_Marshal : ChatCompletionRequest -> result (list byte);
  TranslateOpenAIToBedrock :
    ChatCompletionRequest -> result ProviderRequest.t;
  BedrockResponse : Type;
  Unmarshal_BedrockResponse : list byte -> result BedrockResponse;
  TranslateBedrockToOpenAI :
    BedrockResponse -> string -> string -> option ChatCompletionResponse.t;
  Unmarshal_Response : list byte -> result ChatCompletionResponse.t;
  ErrCodeInvalidRequest : string;
  ErrCodeAuthenticationFail : string;
  ErrCodeRateLimitExceeded : string;
  ErrCodeModelNotFound : string;
  ErrCodeServiceUnavailable : string;
  ErrCodes_distinct :
    NoDup [ErrCodeInvalidRequest; ErrCodeAuthenticationFail;
           ErrCodeRateLimitExceeded; ErrCodeModelNotFound;
           ErrCodeServiceUnavailable]
}.

(** What the handler writes: a status and, as JSON, the error object or
    the completion, a nil completion being written as [null]. *)
Inductive ChatBody : Type :=
| ChatErrorBody (e : ErrorResponse.t)
| ChatCompletionBody (r : option ChatCompletionResponse.t).

Module ChatReply.
Record t : Type := mk { Status : Z; ContentType : string; Body_ : ChatBody }.
End ChatReply.

(** What the streaming branch writes after the header: the bytes copied
    from the stream so far, with [ended] when the copy loop has ended, or
    the error object that [writeError] encodes when the writer cannot
    flush. *)
Inductive StreamBody : Type :=
| StreamCopied (data : list byte) (ended : bool)
| StreamRefused (e : ErrorResponse.t).

Module StreamReply.
Record t : Type := mk {
  Status : Z;
  Header : gmap string string;
  Body_ : StreamBody
}.
End StreamReply.

(** The end of a run: the reply written at once, or the streamed reply. *)
Inductive ChatOutcome : Type :=
| Replies (reply : ChatReply.t)
| Streams (reply : StreamReply.t).

(** The calls a run makes on the provider and on its stream. *)
Inductive ChatCall : Type :=
| CallInvoke (req : ProviderRequest.t)
| CallInvokeStreaming (req : ProviderRequest.t)
| CallClose.

Module ChatHandled.
Record t : Type := mk {
  calls : list ChatCall;
  outcome : ChatOutcome
}.
End ChatHandled.

Module ChatCompletionHandler.

(** [writeError]; the error object has no code. *)
Definition writeError (statusCode : Z) (errorType message : string)
    (err : option string) : ChatReply.t :=
  let message :=
    match err with
    | Some e => message +:+ ": " +:+ e
    | None => message
    end in
  ChatReply.mk statusCode "application/json"
    (ChatErrorBody
       (ErrorResponse.mk (ErrorDetail.mk message errorType EmptyString))).

(** The request built for the providers that take the OpenAI format. *)
Definition openai_format (path : string) (body : list byte)
    (query : gmap string string) : ProviderRequest.t :=
  ProviderRequest.mk "POST" path
    {[ "Content-Type"%string := "application/json"%string ]} body query.

(** [translateRequest]. *)
Definition translateRequest `{ChatCompletion} (providerName : string)
    (openaiReq : ChatCompletionRequest) : result ProviderRequest.t :=
  if String.eqb providerName "bedrock" then TranslateOpenAIToBedrock openaiReq
  else if String.eqb providerName "openai" then
    match json_Marshal openaiReq with
    | Err err => Err err
    | Ok body => Ok (openai_format "/chat/completions" body ∅)
    end
  else if String.eqb providerName "anthropic" then
    match json_Marshal openaiReq with
    | Err err => Err err
    | Ok body => Ok (openai_format "/messages" body ∅)
    end
  else if String.eqb providerName "azure" then
    match json_Marshal openaiReq with
    | Err err => Err err
    | Ok body =>
        Ok (openai_format
              ("/deployments/" +:+ req_Model openaiReq
               +:+ "/chat/completions")
              body
              {[ "api-version"%string := "2024-02-15-preview"%string ]})
    end
  else Err ("translation not implemented for provider: " +:+ providerName).

(** [translateResponse]; [now] is the value of [time.Now()]. The result is
    a pointer. *)
Definition translateResponse `{ChatCompletion} (providerName : string)
    (respBody : list byte) (model : string) (now : Time.t)
  : result (option ChatCompletionResponse.t) :=
  if String.eqb providerName "bedrock" then
    match Unmarshal_BedrockResponse respBody with
    | Err err => Err ("failed to parse bedrock response: " +:+ err)
    | Ok bedrockResp =>
        let requestID :=
          "chatcmpl-" +:+ NilZero.string_of_int (Z.to_int (Time.Unix now)) in
        Ok (TranslateBedrockToOpenAI bedrockResp model requestID)
    end
  else if String.eqb providerName "openai"
          || String.eqb providerName "azure" then
    match Unmarshal_Response respBody with
    | Err err => Err err
    | Ok openaiResp => Ok (Some openaiResp)
    end
  else if String.eqb providerName "anthropic" then
    match Unmarshal_Response respBody with
    | Err err => Err ("failed to parse anthropic response: " +:+ err)
    | Ok openaiResp => Ok (Some openaiResp)
    end
  else Err ("translation not implemented for provider: " +:+ providerName).

(** The switch of [handleProviderError] on the error's code. *)
Definition error_class `{ChatCompletion} (code : string) : string * Z :=
  if String.eqb code ErrCodeInvalidRequest
  then ("invalid_request_error"%string, 400)
  else if String.eqb code ErrCodeAuthenticationFail
  then ("authentication_error"%string, 401)
  else if String.eqb code ErrCodeRateLimitExceeded
  then ("rate_limit_error"%string, 429)
  else if String.eqb code ErrCodeModelNotFound
  then ("invalid_request_error"%string, 404)
  else if String.eqb code ErrCodeServiceUnavailable
  then ("service_unavailable"%string, 503)
  else ("internal_error"%string, 500).

(** [handleProviderError], for an error of [Invoke]. *)
Definition handleProviderError `{ChatCompletion}
    (err : ProviderError.t * option string + string) : ChatReply.t :=
  match err with
  | inr msg =>
      writeError 500 "internal_error" "Internal server error" (Some msg)
  | inl (provErr, cause) =>
      let '(errorType, mapped) := error_class (ProviderError.Code provErr) in
      let statusCode :=
        if negb (ProviderError.StatusCode provErr =? 0)
        then ProviderError.StatusCode provErr
        else mapped in
      writeError statusCode errorType (ProviderError.Message provErr) cause
  end.

(** [handleNonStreaming]. *)
Definition handleNonStreaming `{ChatCompletion} (provider : RoutedProvider.t)
    (openaiReq : ChatCompletionRequest) (now : Time.t) : ChatHandled.t :=
  match translateRequest (RoutedProvider.Name provider) openaiReq with
  | Err err =>
      ChatHandled.mk []
        (Replies (writeError 400 "invalid_request_error"
                    "Failed to translate request" (Some err)))
  | Ok providerReq =>
      match RoutedProvider.Invoke_ provider providerReq with
      | ChatProviderError e cause =>
          ChatHandled.mk [CallInvoke providerReq]
            (Replies (handleProviderError (inl (e, cause))))
      | ChatError msg =>
          ChatHandled.mk [CallInvoke providerReq]
            (Replies (handleProviderError (inr msg)))
      | ChatInvoked providerResp =>
          match translateResponse (RoutedProvider.Name provider)
                  (ProviderResponse.Body providerResp)
                  (req_Model openaiReq) now with
          | Err err =>
              ChatHandled.mk [CallInvoke providerReq]
                (Replies (writeError 500 "internal_error"
                            "Failed to translate response" (Some err)))
          | Ok openaiResp =>
              ChatHandled.mk [CallInvoke providerReq]
                (Replies (ChatReply.mk 200 "application/json"
                            (ChatCompletionBody openaiResp)))
          end
      end
  end.

(** The copy loop of [handleStreaming]: the bytes of each read are written
    and flushed, and the first read that returns an error, the end of the
    stream or another, ends the loop. The result is the bytes written and
    whether the loop has ended. *)
Fixpoint copy_stream (stream : Stream) : list byte * bool :=
  match stream with
  | [] => ([], false)
  | (data, Some _) :: _ => (data, true)
  | (data, None) :: stream' =>
      let '(written, ended) := copy_stream stream' in
      (data ++ written, ended)
  end.

(** The headers [handleStreaming] sets before it writes the status. *)
Definition stream_headers : gmap string string :=
  <["Content-Type"%string := "text/event-stream"%string]>
    (<["Cache-Control"%string := "no-cache"%string]>
       (<["Connection"%string := "keep-alive"%string]> ∅)).

(** [handleStreaming]; [flusher] tells whether the writer is an
    [http.Flusher]. When it is not, [writeError] runs after the status 200
    and the stream headers have been written, so that only its body
    reaches the caller. The deferred [Close] runs when the handler
    returns. *)
Definition handleStreaming `{ChatCompletion} (flusher : bool)
    (provider : RoutedProvider.t) (openaiReq : ChatCompletionRequest)
  : ChatHandled.t :=
  match translateRequest (RoutedProvider.Name provider) openaiReq with
  | Err err =>
      ChatHandled.mk []
        (Replies (writeError 400 "invalid_request_error"
                    "Failed to translate request" (Some err)))
  | Ok providerReq =>
      match RoutedProvider.InvokeStreaming_ provider providerReq with
      | StreamProviderError e cause =>
          ChatHandled.mk [CallInvokeStreaming providerReq]
            (Replies (handleProviderError (inl (e, cause))))
      | StreamError msg =>
          ChatHandled.mk [CallInvokeStreaming providerReq]
            (Replies (handleProviderError (inr msg)))
      | StreamOpened stream =>
          if flusher then
            let '(written, ended) := copy_stream stream in
            ChatHandled.mk
              (CallInvokeStreaming providerReq
               :: if ended then [CallClose] else [])
              (Streams (StreamReply.mk 200 stream_headers
                          (StreamCopied written ended)))
          else
            ChatHandled.mk [CallInvokeStreaming providerReq; CallClose]
              (Streams
                 (StreamReply.mk 200 stream_headers
                    (StreamRefused
                       (ErrorResponse.mk
                          (ErrorDetail.mk "Streaming not supported"
                             "internal_error" EmptyString)))))
      end
  end.

(** [Handle]. *)
Definition Handle `{ChatCompletion} (flusher : bool) (r : Request.t)
    (now : Time.t) : ChatHandled.t :=
  match Decode r with
  | Err err =>
      ChatHandled.mk []
        (Replies (writeError 400 "invalid_request_error"
                    "Invalid JSON in request body" (Some err)))
  | Ok openaiReq =>
      if String.eqb (req_Model openaiReq) EmptyString then
        ChatHandled.mk []
          (Replies (writeError 400 "invalid_request_error"
                      "Model is required" None))
      else
        match RouteModel (req_Model openaiReq) with
        | Err err =>
            ChatHandled.mk []
              (Replies (writeError 400 "invalid_request_error"
                          ("Model not supported: " +:+ req_Model openaiReq)
                          (Some err)))
        | Ok provider =>
            if req_Stream openaiReq
            then handleStreaming flusher provider openaiReq
            else handleNonStreaming provider openaiReq now
        end
  end.

End ChatCompletionHandler.

(** The requests a run passes to a provider, each with [true] when it is
    passed to [InvokeStreaming] and [false] when it is passed to
    [Invoke]. *)
Definition requested (calls : list ChatCall)
  : list (bool * ProviderRequest.t) :=
  omap
    (fun call =>
       match call with
       | CallInvoke req => Some (false, req)
       | CallInvokeStreaming req => Some (true, req)
       | CallClose => None
       end)
    calls.

(** A stream of one event, and a provider whose [InvokeStreaming] opens
    it. *)
Definition sample_stream : Stream :=
  [(list_byte_of_string "data: [DONE]", None); ([], Some ReadEOF)].

Definition provider_named (name : string)
    (invoke : ProviderRequest.t -> ChatInvokeResult) : RoutedProvider.t :=
  RoutedProvider.mk name invoke (fun _ => StreamOpened sample_stream).

(** A stand-in for what the chat completion handler uses: the request is
    the text of the caller's body, read as the model name; models whose
    name starts with [gpt-] are routed to an OpenAI provider that answers
    with [upstream_ok], models whose name starts with [claude-] to a
    provider named [vertex]. *)
Definition sample_codes_distinct :
  NoDup ["invalid_request"; "authentication_failed"; "rate_limit_exceeded";
         "model_not_found"; "service_unavailable"]%string :=
  ltac:(repeat
          (apply NoDup_cons_2;
           [intros Hin;
            repeat (apply elem_of_cons in Hin as [Hin|Hin]; [discriminate|]);
            apply elem_of_nil in Hin; exact Hin|]);
        apply NoDup_nil_2).

Definition sample_decode (c : Request.t) : result string :=
  match Request.GetRawData c with
  | Some body => Ok (string_of_list_byte body)
  | None => Err "unexpected EOF"
  end.

Definition sample_route (model : string) : result RoutedProvider.t :=
  if HasPrefix model "gpt-" then
    Ok (provider_named "openai" (fun _ => ChatInvoked upstream_ok))
  else if HasPrefix model "claude-" then
    Ok (provider_named "vertex" (fun _ => ChatInvoked upstream_ok))
  else Err "no provider for model".

Definition sample_marshal (req : string) : result (list byte) :=
  Ok (list_byte_of_string req).

Definition sample_to_bedrock (req : string) : result ProviderRequest.t :=
  Ok (ProviderRequest.mk "POST" "/model/invoke" ∅
        (list_byte_of_string req) ∅).

Definition sample_from_bedrock (_ : list byte) (model id : string)
  : option ChatCompletionResponse.t :=
  Some (ChatCompletionResponse.mk id 0 model [] (Usage.mk 0 0 0)).

Definition sample_chat : @ChatCompletion sample_translator :=
  @Build_ChatCompletion sample_translator
    sample_decode (fun _ => false) sample_route sample_marshal
    sample_to_bedrock (list byte) (fun body => Ok body) sample_from_bedrock
    (fun _ => Ok sample_response)
    "invalid_request" "authentication_failed" "rate_limit_exceeded"
    "model_not_found" "service_unavailable" sample_codes_distinct.

(** The same, for callers that always ask for a stream. *)
Definition streaming_chat : @ChatCompletion sample_translator :=
  @Build_ChatCompletion sample_translator
    sample_decode (fun _ => true) sample_route sample_marshal
    sample_to_bedrock (list byte) (fun body => Ok body) sample_from_bedrock
    (fun _ => Ok sample_response)
    "invalid_request" "authentication_failed" "rate_limit_exceeded"
    "model_not_found" "service_unavailable" sample_codes_distinct.

Definition chat_request (body : string) : Request.t :=
  Request.mk "POST" "/v1/chat/completions" ∅ ∅
    (Some (list_byte_of_string body)).

(** ** [cmd/server/main.go]: providers and routes *)

(** The constructors of the provider packages, which are not among the
    sources: each takes the settings [main] reads from the environment and
    returns the provider or an error. *)
Class Constructors : Type := {
  NewBedrockProvider : string -> result Provider;
  NewAzureProvider : string -> string -> string -> result Provider;
  NewOpenAIProvider : string -> string -> result Provider;
  NewAnthropicProvider : string -> string -> result Provider;
  NewVertexProvider : string -> string -> string -> result Provider;
  NewIBMProvider : string -> string -> string -> result Provider;
  NewOracleProvider : string -> string -> string -> result Provider
}.

(** A provider is stored under its kind when its constructor succeeds; a
    failure is logged as a warning and leaves the registry as it is. *)
Definition register (kind : string) (made : result Provider)
    (registry : gmap string Provider) : gmap string Provider :=
  match made with
  | Ok provider => <[kind := provider]> registry
  | Err _ => registry
  end.

(** The initialisation of the providers in [main], in its order. *)
Definition initProviders `{Constructors} (env : gmap string string)
  : gmap string Provider :=
  let region := getEnv env "AWS_REGION" "us-east-1" in
  let registry : gmap string Provider := ∅ in
  let registry :=
    if negb (String.eqb region EmptyString)
    then register "bedrock" (NewBedrockProvider region) registry
    else registry in
  let registry :=
    let azureEndpoint := os.Getenv env "AZURE_OPENAI_ENDPOINT" in
    if negb (String.eqb azureEndpoint EmptyString) then
      let azureAPIKey := os.Getenv env "AZURE_OPENAI_API_KEY" in
      if negb (String.eqb azureAPIKey EmptyString)
      then register "azure"
             (NewAzureProvider azureEndpoint azureAPIKey
                (getEnv env "AZURE_API_VERSION" "2024-02-15-preview"))
             registry
      else registry
    else registry in
  let registry :=
    let openaiAPIKey := os.Getenv env "OPENAI_API_KEY" in
    if negb (String.eqb openaiAPIKey EmptyString)
    then register "openai"
           (NewOpenAIProvider openaiAPIKey
              (getEnv env "OPENAI_BASE_URL" "https://api.openai.com/v1"))
           registry
    else registry in
  let registry :=
    let anthropicAPIKey := os.Getenv env "ANTHROPIC_API_KEY" in
    if negb (String.eqb anthropicAPIKey EmptyString)
    then register "anthropic"
           (NewAnthropicProvider anthropicAPIKey
              (getEnv env "ANTHROPIC_BASE_URL"
                 "https://api.anthropic.com/v1"))
           registry
    else registry in
  let registry :=
    let gcpProjectID := os.Getenv env "GCP_PROJECT_ID" in
    if negb (String.eqb gcpProjectID EmptyString)
    then register "vertex"
           (NewVertexProvider gcpProjectID
              (getEnv env "GCP_LOCATION" "us-central1")
              (os.Getenv env "GCP_ACCESS_TOKEN"))
           registry
    else registry in
  let registry :=
    let ibmAPIKey := os.Getenv env "IBM_API_KEY" in
    if negb (String.eqb ibmAPIKey EmptyString) then
      let ibmProjectID := os.Getenv env "IBM_PROJECT_ID" in
      if negb (String.eqb ibmProjectID EmptyString)
      then register "ibm"
             (NewIBMProvider ibmAPIKey ibmProjectID
                (getEnv env "IBM_BASE_URL"
                   "https://us-south.ml.cloud.ibm.com"))
             registry
      else registry
    else registry in
  let oracleEndpoint := os.Getenv env "ORACLE_ENDPOINT" in
  if negb (String.eqb oracleEndpoint EmptyString) then
    let oracleAuthToken := os.Getenv env "ORACLE_AUTH_TOKEN" in
    let oracleCompartmentID := os.Getenv env "ORACLE_COMPARTMENT_ID" in
    if negb (String.eqb oracleAuthToken EmptyString)
       && negb (String.eqb oracleCompartmentID EmptyString)
    then register "oracle"
           (NewOracleProvider oracleEndpoint oracleAuthToken
              oracleCompartmentID)
           registry
    else registry
  else registry.

(** The handlers [main] registers. *)
Inductive RouteHandler : Type :=
| HealthRoute
| ReadyRoute
| MetricsRoute
| ChatCompletionsRoute
| ListModelsRoute
| GetModelRoute
| TransparentRoute
| ProtocolRoute
| NativeRoute (provider : string).

(** A registration: the base path of the group, whether the group uses the
    authentication middleware, the methods, the path relative to the
    group, and the handler. *)
Module Route.
Record t : Type := mk {
  Group : string;
  Auth : bool;
  Methods : list string;
  Path : string;
  Handler : RouteHandler
}.
End Route.

(** The methods [Any] registers. *)
Definition anyMethods : list string :=
  ["GET"; "POST"; "PUT"; "PATCH"; "HEAD"; "OPTIONS"; "DELETE"; "CONNECT";
   "TRACE"]%string.

(** The native route of a provider kind, when the registry holds it. *)
Definition native_route (authEnabled : bool)
    (registry : gmap string Provider) (kind : string) : list Route.t :=
  match registry !! kind with
  | Some _ =>
      [Route.mk "/providers" authEnabled anyMethods
         ("/" +:+ kind +:+ "/*path") (NativeRoute kind)]
  | None => []
  end.

(** The feature test that guards the routes of a mode: the configuration
    is loaded and the feature is enabled. *)
Definition mode_enabled (instanceConfig : option Config.t)
    (feature : string) : bool :=
  match instanceConfig with
  | Some c => Config.IsFeatureEnabled c feature
  | None => false
  end.

(** The routes [main] registers, in its order; [instanceConfig] is [None]
    when the instance configuration could not be loaded. The routes
    outside a group are registered on the engine itself, which is the group
    of base path [/]. [Auth] records that the group uses the handler
    [getAuthMiddleware] returns: that call ends the process when the mode
    has no credentials, and for an unknown mode it returns a handler that
    lets every request through. *)
Definition registerRoutes (authEnabled : bool)
    (registry : gmap string Provider) (instanceConfig : option Config.t)
  : list Route.t :=
  [Route.mk "/" false ["GET"%string] "/health" HealthRoute;
   Route.mk "/" false ["GET"%string] "/ready" ReadyRoute;
   Route.mk "/" false ["GET"%string] "/metrics" MetricsRoute]
  ++ [Route.mk "/v1" authEnabled ["POST"%string] "/chat/completions"
        ChatCompletionsRoute;
      Route.mk "/v1" authEnabled ["GET"%string] "/models" ListModelsRoute;
      Route.mk "/v1" authEnabled ["GET"%string] "/models/:model"
        GetModelRoute]
  ++ (if mode_enabled instanceConfig "transparent_mode"
      then [Route.mk "/transparent" authEnabled anyMethods "/*path"
              TransparentRoute]
      else [])
  ++ (if mode_enabled instanceConfig "protocol_mode"
      then [Route.mk "/" authEnabled ["POST"%string] "/openai/*path"
              ProtocolRoute;
            Route.mk "/" authEnabled ["POST"%string] "/anthropic/*path"
              ProtocolRoute]
      else [])
  ++ native_route authEnabled registry "bedrock"
  ++ native_route authEnabled registry "azure"
  ++ native_route authEnabled registry "openai"
  ++ native_route authEnabled registry "anthropic"
  ++ native_route authEnabled registry "vertex"
  ++ native_route authEnabled registry "ibm"
  ++ native_route authEnabled registry "oracle"
  ++ match registry !! "bedrock"%string with
     | Some _ =>
         [Route.mk "/" authEnabled anyMethods "/v1/bedrock/*path"
            (NativeRoute "bedrock");
          Route.mk "/" authEnabled anyMethods "/bedrock/*path"
            (NativeRoute "bedrock");
          Route.mk "/" authEnabled anyMethods "/model/*path"
            (NativeRoute "bedrock")]
     | None => []
     end.

(** The routes that need no authentication. *)
Definition operational (h : RouteHandler) : bool :=
  match h with
  | HealthRoute | ReadyRoute | MetricsRoute => true
  | _ => false
  end.

(** Constructors that always succeed, and an environment that configures
    Azure without its key. *)
Definition sample_constructors : Constructors := {|
  NewBedrockProvider := fun _ => Ok (answering upstream_ok);
  NewAzureProvider := fun _ _ _ => Ok (answering upstream_ok);
  NewOpenAIProvider := fun _ _ => Ok (answering upstream_ok);
  NewAnthropicProvider := fun _ _ => Ok (answering upstream_ok);
  NewVertexProvider := fun _ _ _ => Ok (answering upstream_ok);
  NewIBMProvider := fun _ _ _ => Ok (answering upstream_ok);
  NewOracleProvider := fun _ _ _ => Ok (answering upstream_ok)
|}.

Definition azure_without_key : gmap string string :=
  {[ "AZURE_OPENAI_ENDPOINT"%string := "https://example.openai.azure.com"%string ]}.

(** A configuration that enables the transparent mode only. *)
Definition transparent_only : Config.t :=
  Config.mk (GlobalConfig.mk true false false "")
    {[ "bedrock_transparent"%string := bedrock_transparent ]}
    (RoutingConfig.mk ∅ true false false)
    {[ "transparent_mode"%string := FeatureConfig.mk true "passthrough" ]}.




Definition sample_path : string := "/transparent/bedrock/model/invoke".

(** * Properties *)

(** ** Strings *)

Lemma append_nil_l (t : string) : EmptyString +:+ t = t.
Proof. reflexivity. Qed.

Lemma append_cons (a : ascii) (s t : string) :
  String a s +:+ t = String a (s +:+ t).
Proof. reflexivity. Qed.

Lemma append_nil_r (s : string) : s +:+ EmptyString = s.
Proof.
  induction s as [|a s IH]; [reflexivity|].
  rewrite append_cons, IH. reflexivity.
Qed.

Lemma append_assoc (s t u : string) : (s +:+ t) +:+ u = s +:+ (t +:+ u).
Proof.
  induction s as [|a s IH]; [reflexivity|].
  rewrite !append_cons, IH. reflexivity.
Qed.

Lemma length_append (s t : string) :
  String.length (s +:+ t) = (String.length s + String.length t)%nat.
Proof.
  induction s as [|a s IH]; [reflexivity|].
  rewrite append_cons. simpl. rewrite IH. reflexivity.
Qed.

Lemma substring_0_0 (s : string) : substring 0 0 s = EmptyString.
Proof. destruct s; reflexivity. Qed.

Lemma substring_all (s : string) : substring 0 (String.length s) s = s.
Proof.
  induction s as [|a s IH]; [reflexivity|].
  simpl. rewrite IH. reflexivity.
Qed.

Lemma substring_prefix_app (p t : string) :
  substring 0 (String.length p) (p +:+ t) = p.
Proof.
  induction p as [|a p IH].
  - apply substring_0_0.
  - rewrite append_cons. simpl. rewrite IH. reflexivity.
Qed.

Lemma substring_skip_app (p t : string) (n : nat) :
  substring (String.length p) n (p +:+ t) = substring 0 n t.
Proof.
  induction p as [|a p IH]; [reflexivity|].
  rewrite append_cons. simpl. apply IH.
Qed.

Lemma substring_split (s : string) (n : nat) :
  (n <= String.length s)%nat ->
  s = substring 0 n s +:+ substring n (String.length s - n) s.
Proof.
  revert n. induction s as [|a s IH]; intros n Hn.
  - simpl in Hn. assert (n = 0%nat) as -> by lia. reflexivity.
  - destruct n as [|n].
    + simpl. rewrite append_nil_l, substring_all. reflexivity.
    + simpl in *. rewrite append_cons. f_equal. apply IH. lia.
Qed.

Lemma slice_from_app (p t : string) :
  slice_from (p +:+ t) (String.length p) = t.
Proof.
  unfold slice_from. rewrite substring_skip_app, length_append.
  replace (String.length p + String.length t - String.length p)%nat
    with (String.length t) by lia.
  apply substring_all.
Qed.

Lemma HasPrefix_app (p t : string) : HasPrefix (p +:+ t) p = true.
Proof.
  unfold HasPrefix, slice_to.
  rewrite substring_prefix_app, String.eqb_refl, length_append.
  rewrite andb_true_r. apply Nat.leb_le. lia.
Qed.

Lemma HasPrefix_inv (s p : string) :
  HasPrefix s p = true -> s = p +:+ slice_from s (String.length p).
Proof.
  unfold HasPrefix, slice_to, slice_from. intros H.
  apply andb_true_iff in H as [Hlen Heq].
  apply Nat.leb_le in Hlen. apply String.eqb_eq in Heq.
  rewrite <- Heq at 1. apply substring_split. exact Hlen.
Qed.

Lemma strictly_extends_app (p t : string) :
  t <> EmptyString -> strictly_extends (p +:+ t) p = true.
Proof.
  intros Ht. unfold strictly_extends, slice_to.
  rewrite substring_prefix_app, String.eqb_refl, length_append.
  rewrite andb_true_r. apply Nat.ltb_lt.
  destruct t; [congruence | simpl; lia].
Qed.

Lemma strictly_extends_HasPrefix (s p : string) :
  strictly_extends s p = true -> HasPrefix s p = true.
Proof.
  unfold strictly_extends, HasPrefix. intros H.
  apply andb_true_iff in H as [Hlen Heq].
  apply Nat.ltb_lt in Hlen. rewrite Heq, andb_true_r.
  apply Nat.leb_le. lia.
Qed.

Lemma strictly_extends_irrefl (s : string) : strictly_extends s s = false.
Proof.
  unfold strictly_extends. rewrite Nat.ltb_irrefl. reflexivity.
Qed.

(** ** Instance lookup *)

Lemma matching_endpoint_Some (path : string) (eps : list EndpointConfig.t)
    (ep : EndpointConfig.t) :
  Config.matching_endpoint path eps = Some ep ->
  In ep eps /\ HasPrefix path (EndpointConfig.Path ep) = true.
Proof. apply find_some. Qed.

Lemma matching_endpoint_None (path : string) (eps : list EndpointConfig.t) :
  Config.matching_endpoint path eps = None <->
  forall ep, In ep eps -> HasPrefix path (EndpointConfig.Path ep) = false.
Proof.
  split.
  - intros H ep Hin. exact (find_none _ _ H ep Hin).
  - induction eps as [|e eps IH]; intros H; [reflexivity|].
    unfold Config.matching_endpoint in *. simpl.
    rewrite (H e (or_introl eq_refl)). apply IH.
    intros ep Hin. apply H. right. exact Hin.
Qed.

Lemma matching_endpoint_is_Some (path : string)
    (eps : list EndpointConfig.t) (ep : EndpointConfig.t) :
  In ep eps -> HasPrefix path (EndpointConfig.Path ep) = true ->
  is_Some (Config.matching_endpoint path eps).
Proof.
  intros Hin Hp.
  destruct (Config.matching_endpoint path eps) eqn:E; [eauto|].
  rewrite (proj1 (matching_endpoint_None path eps) E ep Hin) in Hp.
  discriminate.
Qed.

(** Among the endpoints that match, one has the longest path. *)
Lemma longest_matching_endpoint (path : string)
    (eps : list EndpointConfig.t) :
  is_Some (Config.matching_endpoint path eps) ->
  exists ep,
    In ep eps /\ HasPrefix path (EndpointConfig.Path ep) = true /\
    forall ep', In ep' eps ->
      HasPrefix path (EndpointConfig.Path ep') = true ->
      (String.length (EndpointConfig.Path ep')
       <= String.length (EndpointConfig.Path ep))%nat.
Proof.
  induction eps as [|e eps IH]; intros [m Hm].
  - discriminate.
  - destruct (Config.matching_endpoint path eps) as [m'|] eqn:E.
    + destruct (IH (ex_intro _ m' eq_refl)) as (ep & Hin & Hp & Hmax).
      destruct (HasPrefix path (EndpointConfig.Path e)) eqn:He.
      * destruct (le_lt_dec (String.length (EndpointConfig.Path e))
                    (String.length (EndpointConfig.Path ep))) as [Hle|Hlt].
        -- exists ep. split; [right; exact Hin|]. split; [exact Hp|].
           intros ep' [<-|Hin'] Hp'; [exact Hle | exact (Hmax ep' Hin' Hp')].
        -- exists e. split; [left; reflexivity|]. split; [exact He|].
           intros ep' [<-|Hin'] Hp'; [lia|].
           specialize (Hmax ep' Hin' Hp'). lia.
      * exists ep. split; [right; exact Hin|]. split; [exact Hp|].
        intros ep' [<-|Hin'] Hp'; [congruence | exact (Hmax ep' Hin' Hp')].
    + apply matching_endpoint_Some in Hm as [Hin Hp].
      assert (HasPrefix path (EndpointConfig.Path e) = true) as He.
      { destruct Hin as [->|Hin]; [exact Hp|].
        rewrite (proj1 (matching_endpoint_None path eps) E m Hin) in Hp.
        discriminate. }
      exists e. split; [left; reflexivity|]. split; [exact He|].
      intros ep' [<-|Hin'] Hp'; [lia|].
      rewrite (proj1 (matching_endpoint_None path eps) E ep' Hin') in Hp'.
      discriminate.
Qed.

(** A successful lookup returns the first entry of the order that has a
    matching endpoint. *)
Lemma GetInstanceByPath_in_Ok (order : list (string * InstanceConfig.t))
    (path name : string) (instance : InstanceConfig.t) :
  Config.GetInstanceByPath_in order path = Ok (instance, name) ->
  exists before after,
    order = before ++ (name, instance) :: after /\
    is_Some (Config.matching_endpoint path
               (InstanceConfig.Endpoints instance)) /\
    forall entry, In entry before ->
      Config.matching_endpoint path
        (InstanceConfig.Endpoints (snd entry)) = None.
Proof.
  induction order as [|[n i] order IH]; simpl; intros H; [discriminate|].
  destruct (Config.matching_endpoint path (InstanceConfig.Endpoints i))
    as [ep|] eqn:E.
  - injection H as <- <-. exists [], order.
    split; [reflexivity|]. split; [rewrite E; eauto|].
    intros entry [].
  - destruct (IH H) as (before & after & -> & Hm & Hb).
    exists ((n, i) :: before), after. split; [reflexivity|].
    split; [exact Hm|]. intros entry [<-|Hin]; [exact E | exact (Hb _ Hin)].
Qed.

Lemma GetInstanceByPath_in_Err (order : list (string * InstanceConfig.t))
    (path msg : string) :
  Config.GetInstanceByPath_in order path = Err msg ->
  forall entry, In entry order ->
    Config.matching_endpoint path
      (InstanceConfig.Endpoints (snd entry)) = None.
Proof.
  induction order as [|[n i] order IH]; simpl; intros H entry Hin; [tauto|].
  destruct (Config.matching_endpoint path (InstanceConfig.Endpoints i))
    as [ep|] eqn:E; [discriminate|].
  destruct Hin as [<-|Hin]; [exact E | exact (IH H entry Hin)].
Qed.

Lemma GetInstanceByPath_in_unmatched
    (order : list (string * InstanceConfig.t)) (path : string) :
  (forall entry, In entry order ->
     Config.matching_endpoint path
       (InstanceConfig.Endpoints (snd entry)) = None) ->
  Config.GetInstanceByPath_in order path
  = Err ("no instance found for path: " +:+ path).
Proof.
  induction order as [|[n i] order IH]; simpl; intros H; [reflexivity|].
  pose proof (H (n, i) (or_introl eq_refl)) as E. simpl in E.
  rewrite E. apply IH.
  intros entry Hin. apply H. right. exact Hin.
Qed.

(** The entries of an iteration order are the entries of the map. *)
Lemma range_order_In (c : Config.t)
    (order : list (string * InstanceConfig.t)) (name : string)
    (instance : InstanceConfig.t) :
  Config.range_order c order ->
  In (name, instance) order <-> Config.Instances c !! name = Some instance.
Proof.
  unfold Config.range_order. intros Hperm.
  rewrite <- elem_of_map_to_list, <- list_elem_of_In.
  split; intros H.
  - rewrite <- Hperm. exact H.
  - rewrite Hperm. exact H.
Qed.

Lemma GetInstanceByPath_total (c : Config.t) (path : string) :
  exists r, Config.GetInstanceByPath c path r.
Proof.
  exists (Config.GetInstanceByPath_in (map_to_list (Config.Instances c)) path).
  exists (map_to_list (Config.Instances c)).
  split; [unfold Config.range_order | ]; reflexivity.
Qed.

Lemma unowned_path_lookup (c : Config.t)
    (order : list (string * InstanceConfig.t)) (path : string) :
  Config.range_order c order ->
  (forall name, ~ owns_prefix c path name) ->
  Config.GetInstanceByPath_in order path
  = Err ("no instance found for path: " +:+ path).
Proof.
  intros Horder Hnone. apply GetInstanceByPath_in_unmatched.
  intros [name inst] Hin. simpl.
  apply matching_endpoint_None. intros ep Hep.
  destruct (HasPrefix path (EndpointConfig.Path ep)) eqn:Hp; [|reflexivity].
  exfalso. apply (Hnone name). exists inst, ep.
  split; [|auto]. apply (range_order_In c order name inst Horder). exact Hin.
Qed.

(** C1 (amended). Lookup always returns. For a path that has a configured
    endpoint path as a prefix it returns one instance of the
    configuration, and that instance owns a prefix of the path; it owns the
    longest matching prefix whenever no other instance owns a matching
    prefix. For a path that no configured prefix matches it returns the
    error. *)
Theorem GetInstanceByPath_owns_prefix (c : Config.t) (path : string) :
  (exists r, Config.GetInstanceByPath c path r) /\
  forall r, Config.GetInstanceByPath c path r ->
    ((exists name, owns_prefix c path name) ->
     exists instance name,
       r = Ok (instance, name) /\
       Config.Instances c !! name = Some instance /\
       owns_prefix c path name /\
       ((forall name', owns_prefix c path name' -> name' = name) ->
        owns_longest_prefix c path name))
    /\
    ((forall name, ~ owns_prefix c path name) ->
     r = Err ("no instance found for path: " +:+ path)).
Proof.
  split; [apply GetInstanceByPath_total|].
  intros r (order & Horder & <-). split.
  - intros (name0 & inst0 & ep0 & Hl0 & Hin0 & Hp0).
    destruct (Config.GetInstanceByPath_in order path) as [[inst name]|msg]
      eqn:E.
    + apply GetInstanceByPath_in_Ok in E as (before & after & -> & Hm & _).
      assert (Config.Instances c !! name = Some inst) as Hl.
      { apply (range_order_In c _ name inst Horder).
        apply in_or_app. right. left. reflexivity. }
      destruct (longest_matching_endpoint _ _ Hm) as (ep & Hin & Hp & Hmax).
      exists inst, name. split; [reflexivity|]. split; [exact Hl|].
      split; [exists inst, ep; auto|].
      intros Huniq. exists inst, ep. repeat split; try assumption.
      intros name' inst' ep' Hl' Hin' Hp'.
      assert (name' = name) as ->.
      { apply Huniq. exists inst', ep'. auto. }
      assert (inst' = inst) as -> by congruence.
      exact (Hmax ep' Hin' Hp').
    + exfalso.
      apply (range_order_In c order name0 inst0 Horder) in Hl0.
      pose proof (GetInstanceByPath_in_Err _ _ _ E _ Hl0) as Hnone.
      simpl in Hnone.
      rewrite (proj1 (matching_endpoint_None _ _) Hnone ep0 Hin0) in Hp0.
      discriminate.
  - intros Hnone. exact (unowned_path_lookup c order path Horder Hnone).
Qed.

(** The lookup on the configuration with the single instance. *)
Lemma GetInstanceByPath_owns_prefix_single :
  exists instance,
    Config.GetInstanceByPath_in (map_to_list (Config.Instances single))
      "/transparent/bedrock/model/invoke"
    = Ok (instance, "bedrock_transparent"%string) /\
    owns_longest_prefix single "/transparent/bedrock/model/invoke"
      "bedrock_transparent".
Proof.
  destruct (GetInstanceByPath_owns_prefix single
              "/transparent/bedrock/model/invoke") as [_ H].
  destruct (H (Config.GetInstanceByPath_in
                 (map_to_list (Config.Instances single))
                 "/transparent/bedrock/model/invoke")) as [Hsome _].
  { exists (map_to_list (Config.Instances single)).
    split; [unfold Config.range_order | ]; reflexivity. }
  destruct Hsome as (instance & name & Hr & Hl & Hown & Hlongest).
  { exists "bedrock_transparent"%string, bedrock_transparent,
      (EndpointConfig.mk "/transparent/bedrock" ["POST"%string]).
    split; [reflexivity|]. split; [left; reflexivity | reflexivity]. }
  assert (name = "bedrock_transparent"%string) as ->.
  { unfold single, sample_config in Hl. cbn [Config.Instances] in Hl.
    apply lookup_singleton_Some in Hl as [<- _]. reflexivity. }
  exists instance. split; [exact Hr|].
  apply Hlongest. intros name' (inst' & ep' & Hl' & _).
  unfold single, sample_config in Hl'. cbn [Config.Instances] in Hl'.
  apply lookup_singleton_Some in Hl' as [<- _]. reflexivity.
Defined.

(** C1 (as stated) fails: with two instances whose prefixes overlap, the
    lookup may return the owner of the shorter one. *)
Lemma GetInstanceByPath_returns_shorter_prefix :
  Config.GetInstanceByPath overlapping "/openai/bedrock_us1/chat/completions"
    (Ok (bedrock_openai, "bedrock_openai"%string)) /\
  ~ owns_longest_prefix overlapping "/openai/bedrock_us1/chat/completions"
      "bedrock_openai".
Proof.
  split.
  - exists [("bedrock_openai"%string, bedrock_openai);
            ("bedrock_us1_openai"%string, bedrock_us1_openai)].
    split; [|reflexivity].
    unfold Config.range_order. vm_compute. reflexivity.
  - intros (inst & ep & Hl & Hin & Hp & Hmax).
    assert (inst = bedrock_openai) as ->.
    { vm_compute in Hl. injection Hl as <-. reflexivity. }
    destruct Hin as [<-|[]].
    specialize (Hmax "bedrock_us1_openai"%string bedrock_us1_openai
                  (EndpointConfig.mk "/openai/bedrock_us1" ["POST"%string])).
    simpl in Hmax.
    assert (19 <= 15)%nat as Habs; [|lia].
    apply Hmax; [reflexivity | left; reflexivity | reflexivity].
Qed.

(** ** The transparent handler *)

(** A request that reaches a transparent instance with a registered
    provider and a readable body is passed to the provider, once. *)
Lemma transparent_forwarded (h : TransparentHandler.t)
    (order : list (string * InstanceConfig.t)) (c : Request.t)
    (inst : InstanceConfig.t) (name : string) (provider : Provider)
    (body : list byte) :
  Config.GetInstanceByPath_in order (Request.URLPath c) = Ok (inst, name) ->
  InstanceConfig.Mode inst = "transparent"%string ->
  TransparentHandler.providers h !! InstanceConfig.Type_ inst
  = Some provider ->
  Request.GetRawData c = Some body ->
  forwarded (TransparentHandler.HandleRequest h order c)
  = [TransparentHandler.provider_request inst c body].
Proof.
  intros Hlookup Hmode Hprov Hbody.
  unfold TransparentHandler.HandleRequest.
  rewrite Hlookup, Hmode, Hprov, Hbody. simpl.
  destruct (Invoke (TransparentHandler.provider_request inst c body));
    [|reflexivity|reflexivity].
  destruct (MetricsConfig.Enabled (InstanceConfig.Metrics inst)); reflexivity.
Qed.

(** *** What gin writes *)

Lemma WriteHeader_default (code : Z) :
  gin.WriteHeader gin.defaultStatus code = if 0 <? code then code else 200.
Proof.
  unfold gin.WriteHeader, gin.defaultStatus.
  destruct (0 <? code); [|reflexivity].
  destruct (200 =? code) eqn:E; [|reflexivity].
  apply Z.eqb_eq in E. simpl. exact E.
Qed.

Lemma bodyAllowedForStatus_final (code : Z) :
  code <= 0 \/ 200 <= code <= 999 ->
  gin.bodyAllowedForStatus code = negb ((code =? 204) || (code =? 304)).
Proof.
  intros Hcode. unfold gin.bodyAllowedForStatus.
  assert ((100 <=? code) && (code <=? 199) = false) as ->
    by (apply andb_false_iff; lia).
  destruct (code =? 204), (code =? 304); reflexivity.
Qed.

(** The status and the body that [c.Data] gives a response. *)
Lemma respond_Data (before : gmap string (list string))
    (range : list (string * string)) (code : Z)
    (calls : gmap string string) (contentType : string) (data : list byte) :
  code <= 0 \/ 200 <= code <= 999 ->
  gin.respond before range (Reply.mk code calls (BodyData contentType data))
  = gin.Response.mk (if 0 <? code then code else 200)
      (gin.writeContentType (gin.set_headers before range) contentType)
      (gin.Bytes (if (code =? 204) || (code =? 304) then [] else data)).
Proof.
  intros Hcode. unfold gin.respond, gin.Render. cbn [Reply.Body_ Reply.Status].
  rewrite WriteHeader_default, (bodyAllowedForStatus_final _ Hcode).
  destruct ((code =? 204) || (code =? 304)); reflexivity.
Qed.






(** The header copy keeps a key unless [isAuthHeader] holds of it, and
    stores the first value under its canonical form. *)
Lemma copy_headers_lookup (header : gmap string (list string))
    (key : string) :
  copy_headers header !! key
  = if isAuthHeader key then None
    else (fun _ => http.Header_Get header key) <$> header !! key.
Proof.
  unfold copy_headers. rewrite map_lookup_imap.
  destruct (header !! key) as [vs|]; simpl.
  - destruct (isAuthHeader key); reflexivity.
  - destruct (isAuthHeader key); reflexivity.
Qed.

(** The names [isAuthHeader] lists are not forwarded. *)
Lemma copy_headers_listed (header : gmap string (list string))
    (key : string) :
  In key authHeaders -> copy_headers header !! key = None.
Proof.
  intros Hin. rewrite copy_headers_lookup.
  assert (isAuthHeader key = true) as ->; [|reflexivity].
  unfold isAuthHeader. apply existsb_exists. exists key.
  split; [exact Hin | apply String.eqb_refl].
Qed.

(** X1. The header map passed to the provider has, for a key of the
    caller's header map, no entry when [isAuthHeader] holds of the key,
    that is when the key is, byte for byte, one of the five listed names,
    and otherwise the first value stored under the key's canonical form;
    it has no entry for any other key. *)
Theorem forwarded_headers (c : Request.t) (inst : InstanceConfig.t)
    (body : list byte) (key : string) :
  ProviderRequest.Headers (TransparentHandler.provider_request inst c body)
    !! key
  = match Request.Header c !! key with
    | Some _ =>
        if existsb (String.eqb key) authHeaders then None
        else Some (http.Header_Get (Request.Header c) key)
    | None => None
    end.
Proof.
  unfold TransparentHandler.provider_request.
  cbn [ProviderRequest.Headers].
  rewrite copy_headers_lookup.
  change (existsb (String.eqb key) authHeaders) with (isAuthHeader key).
  destruct (isAuthHeader key), (Request.Header c !! key); reflexivity.
Qed.

(** C3 fails on the code: the server stores the caller's [X-API-Key] field
    under the canonical key [X-Api-Key], which [isAuthHeader] does not
    list, and the handler passes it to the provider with its value. *)
Theorem transparent_forwards_api_key :
  isAuthHeader (http.CanonicalMIMEHeaderKey "X-API-Key") = false /\
  exists req,
    forwarded
      (TransparentHandler.HandleRequest bedrock_handler
         (map_to_list (Config.Instances single))
         (caller_request "POST" "/transparent/bedrock/model/invoke"
            [("X-API-Key", "caller-secret")%string]))
    = [req] /\
    ProviderRequest.Headers req !! "X-Api-Key"%string
    = Some "caller-secret"%string.
Proof.
  split; [reflexivity|].
  eexists. split; [vm_compute; reflexivity|]. vm_compute. reflexivity.
Qed.

(** ** The path passed to the provider *)

Lemma extractProviderPath_unfold (fullPath : string)
    (endpoint : EndpointConfig.t) (endpoints : list EndpointConfig.t) :
  extractProviderPath fullPath (endpoint :: endpoints)
  = if strictly_extends fullPath (EndpointConfig.Path endpoint)
    then slice_from fullPath (String.length (EndpointConfig.Path endpoint))
    else extractProviderPath fullPath endpoints.
Proof. reflexivity. Qed.

(** When the path extends the matched endpoint's path, that path is the
    one removed. *)
Lemma extractProviderPath_matching (path : string)
    (eps : list EndpointConfig.t) (ep : EndpointConfig.t) :
  Config.matching_endpoint path eps = Some ep ->
  strictly_extends path (EndpointConfig.Path ep) = true ->
  extractProviderPath path eps
  = slice_from path (String.length (EndpointConfig.Path ep)).
Proof.
  induction eps as [|e eps IH]; intros Hm Hs; [discriminate|].
  rewrite extractProviderPath_unfold.
  unfold Config.matching_endpoint in Hm. simpl in Hm.
  destruct (HasPrefix path (EndpointConfig.Path e)) eqn:He.
  - injection Hm as ->. rewrite Hs. reflexivity.
  - destruct (strictly_extends path (EndpointConfig.Path e)) eqn:Hse.
    + apply strictly_extends_HasPrefix in Hse. congruence.
    + apply IH; assumption.
Qed.

(** When no endpoint path is a proper prefix of the path, the path is
    passed as it is. *)
Lemma extractProviderPath_unchanged (path : string)
    (eps : list EndpointConfig.t) :
  (forall ep, In ep eps ->
     strictly_extends path (EndpointConfig.Path ep) = false) ->
  extractProviderPath path eps = path.
Proof.
  induction eps as [|e eps IH]; intros H; [reflexivity|].
  rewrite extractProviderPath_unfold, (H e (or_introl eq_refl)).
  apply IH. intros ep Hin. apply H. right. exact Hin.
Qed.

(** C9 (amended). In transparent mode, when the request path extends the
    matched endpoint's path by a non-empty rest, the path passed to the
    provider is that rest; when the request path equals the matched
    endpoint's path and no endpoint of the instance has a path that is a
    proper prefix of it, the request path is passed unchanged. *)
Theorem transparent_forwarded_path (h : TransparentHandler.t)
    (order : list (string * InstanceConfig.t)) (c : Request.t)
    (inst : InstanceConfig.t) (name : string) (ep : EndpointConfig.t)
    (provider : Provider) (body : list byte) :
  Config.GetInstanceByPath_in order (Request.URLPath c) = Ok (inst, name) ->
  Config.matching_endpoint (Request.URLPath c)
    (InstanceConfig.Endpoints inst) = Some ep ->
  InstanceConfig.Mode inst = "transparent"%string ->
  TransparentHandler.providers h !! InstanceConfig.Type_ inst
  = Some provider ->
  Request.GetRawData c = Some body ->
  exists req,
    forwarded (TransparentHandler.HandleRequest h order c) = [req] /\
    (forall rest, rest <> EmptyString ->
       Request.URLPath c = EndpointConfig.Path ep +:+ rest ->
       ProviderRequest.Path req = rest) /\
    (Request.URLPath c = EndpointConfig.Path ep ->
     (forall ep', In ep' (InstanceConfig.Endpoints inst) ->
        strictly_extends (Request.URLPath c) (EndpointConfig.Path ep')
        = false) ->
     ProviderRequest.Path req = Request.URLPath c).
Proof.
  intros Hlookup Hm Hmode Hprov Hbody.
  exists (TransparentHandler.provider_request inst c body).
  split; [exact (transparent_forwarded h order c inst name provider body
                   Hlookup Hmode Hprov Hbody)|].
  unfold TransparentHandler.provider_request. simpl. split.
  - intros rest Hrest Hpath.
    rewrite (extractProviderPath_matching _ _ ep Hm).
    + rewrite Hpath. apply slice_from_app.
    + rewrite Hpath. apply strictly_extends_app. exact Hrest.
  - intros _ Hnone. apply extractProviderPath_unchanged. exact Hnone.
Qed.

(** The path passed for a request below the sample instance's prefix. *)
Lemma transparent_forwarded_path_sample :
  exists req,
    forwarded
      (TransparentHandler.HandleRequest bedrock_handler
         (map_to_list (Config.Instances single))
         (caller_request "POST" "/transparent/bedrock/model/invoke" []))
    = [req] /\
    ProviderRequest.Path req = "/model/invoke"%string.
Proof.
  destruct (transparent_forwarded_path bedrock_handler
              (map_to_list (Config.Instances single))
              (caller_request "POST" "/transparent/bedrock/model/invoke" [])
              bedrock_transparent "bedrock_transparent"
              (EndpointConfig.mk "/transparent/bedrock" ["POST"%string])
              (answering upstream_ok) (list_byte_of_string "{}"))
    as (req & Hfw & Hrest & _); [reflexivity..|].
  exists req. split; [exact Hfw|].
  apply Hrest; [discriminate | reflexivity].
Defined.

(** C9 (as stated) fails: the request path equals the matched endpoint's
    path, and yet a later endpoint of the instance, whose path is a proper
    prefix of it, is removed from the path passed to the provider. *)
Lemma transparent_equal_path_stripped :
  Config.matching_endpoint "/transparent/openai/v1"
    (InstanceConfig.Endpoints openai_nested)
  = Some (EndpointConfig.mk "/transparent/openai/v1" ["POST"%string]) /\
  exists req,
    forwarded
      (TransparentHandler.HandleRequest nested_handler
         (map_to_list
            (Config.Instances (TransparentHandler.config nested_handler)))
         (caller_request "POST" "/transparent/openai/v1" []))
    = [req] /\
    ProviderRequest.Path req = "/v1"%string /\
    ProviderRequest.Path req <> "/transparent/openai/v1"%string.
Proof.
  split; [reflexivity|].
  eexists. split; [vm_compute; reflexivity|].
  split; [reflexivity | discriminate].
Qed.

(** ** Allowed methods *)








(** ** Paths that resolve to no instance *)

(** C7 (amended). For a request whose path resolves to no configured
    instance, the protocol handler replies with status 404 and the error
    object whose type is [invalid_request_error] and whose code is
    [instance_not_found]; the transparent handler replies with status 404
    and an object whose [error] member is a message string. Neither calls
    a provider. *)
Theorem unresolved_path_reply `{Translator}
    (providers : gmap string Provider) (c : Config.t)
    (order : list (string * InstanceConfig.t)) (startTime : Time.t)
    (u : list byte) (req : Request.t) :
  Config.range_order c order ->
  (forall name, ~ owns_prefix c (Request.URLPath req) name) ->
  ProtocolHandler.HandleRequest (ProtocolHandler.mk providers c) order
    startTime u req
  = Handled.mk []
      (Some (Reply.mk 404 ∅
         (BodyError (ErrorResponse.mk
            (ErrorDetail.mk "No provider instance configured for this path"
               "invalid_request_error" "instance_not_found"))))) /\
  TransparentHandler.HandleRequest (TransparentHandler.mk providers c) order
    req
  = Handled.mk []
      (Some (Reply.mk 404 ∅
         (BodyH [("error",
                  "No provider instance configured for this path")%string]))).
Proof.
  intros Horder Hnone.
  unfold ProtocolHandler.HandleRequest, TransparentHandler.HandleRequest.
  rewrite (unowned_path_lookup c order _ Horder Hnone).
  split; reflexivity.
Qed.

Lemma single_owns_no_openai_path (name : string) :
  ~ owns_prefix single "/openai/unknown/chat/completions" name.
Proof.
  intros (inst & ep & Hl & Hin & Hp).
  unfold single, sample_config in Hl. cbn [Config.Instances] in Hl.
  apply lookup_singleton_Some in Hl as [_ <-].
  destruct Hin as [<-|[]]. discriminate.
Qed.

(** The reply of the protocol handler to a path outside the sample
    configuration. *)
Lemma unresolved_path_reply_sample :
  @ProtocolHandler.HandleRequest sample_translator
    (ProtocolHandler.mk {[ "bedrock"%string := answering upstream_ok ]} single)
    (map_to_list (Config.Instances single)) (Time.mk 1762120723) sample_uuid
    (caller_request "POST" "/openai/unknown/chat/completions" [])
  = Handled.mk []
      (Some (Reply.mk 404 ∅
         (BodyError (ErrorResponse.mk
            (ErrorDetail.mk "No provider instance configured for this path"
               "invalid_request_error" "instance_not_found"))))).
Proof.
  apply (@unresolved_path_reply sample_translator
           {[ "bedrock"%string := answering upstream_ok ]} single
           (map_to_list (Config.Instances single)) (Time.mk 1762120723)
           sample_uuid
           (caller_request "POST" "/openai/unknown/chat/completions" [])).
  - unfold Config.range_order. reflexivity.
  - exact single_owns_no_openai_path.
Defined.

(** C7 (as stated) fails: the type of the error object is not
    [not_found]. *)
Lemma unresolved_path_type_is_not_not_found :
  exists e,
    Handled.reply
      (@ProtocolHandler.HandleRequest sample_translator
         (ProtocolHandler.mk {[ "bedrock"%string := answering upstream_ok ]}
            single)
         (map_to_list (Config.Instances single)) (Time.mk 1762120723)
         sample_uuid
         (caller_request "POST" "/openai/unknown/chat/completions" []))
    = Some (Reply.mk 404 ∅ (BodyError e)) /\
    ErrorDetail.Code (ErrorResponse.Error e) = "instance_not_found"%string /\
    ErrorDetail.Type_ (ErrorResponse.Error e)
    = "invalid_request_error"%string /\
    ErrorDetail.Type_ (ErrorResponse.Error e) <> "not_found"%string.
Proof.
  eexists. split; [vm_compute; reflexivity|].
  split; [reflexivity|]. split; [reflexivity | discriminate].
Qed.

(** ** Protocol tags other than [openai] *)

(** C10 (amended). For a request matched to a protocol-mode instance whose
    protocol tag is not [openai], no provider is called; the reply has
    status 501 and code [protocol_not_implemented] when the registry holds
    a provider for the instance's kind, and status 503 and code
    [provider_unavailable] when it holds none. *)
Theorem unsupported_protocol_reply `{Translator} (h : ProtocolHandler.t)
    (order : list (string * InstanceConfig.t)) (startTime : Time.t)
    (u : list byte) (c : Request.t) (inst : InstanceConfig.t)
    (name : string) :
  Config.GetInstanceByPath_in order (Request.URLPath c) = Ok (inst, name) ->
  InstanceConfig.Mode inst = "protocol"%string ->
  InstanceConfig.Protocol inst <> "openai"%string ->
  forwarded (ProtocolHandler.HandleRequest h order startTime u c) = [] /\
  (is_Some (ProtocolHandler.providers h !! InstanceConfig.Type_ inst) ->
   Handled.reply (ProtocolHandler.HandleRequest h order startTime u c)
   = Some (Reply.mk 501 ∅
       (BodyError (ErrorResponse.mk
          (ErrorDetail.mk
             ("Protocol " +:+ InstanceConfig.Protocol inst
              +:+ " not yet implemented")
             "not_implemented_error" "protocol_not_implemented"))))) /\
  (ProtocolHandler.providers h !! InstanceConfig.Type_ inst = None ->
   Handled.reply (ProtocolHandler.HandleRequest h order startTime u c)
   = Some (Reply.mk 503 ∅
       (BodyError (ErrorResponse.mk
          (ErrorDetail.mk
             ("Provider " +:+ InstanceConfig.Type_ inst +:+ " not available")
             "service_error" "provider_unavailable"))))).
Proof.
  intros Hlookup Hmode Hproto.
  unfold ProtocolHandler.HandleRequest.
  rewrite Hlookup, Hmode. simpl.
  apply String.eqb_neq in Hproto. rewrite Hproto.
  destruct (ProtocolHandler.providers h !! InstanceConfig.Type_ inst)
    as [provider|].
  - split; [reflexivity|]. split; [reflexivity|]. discriminate.
  - split; [reflexivity|]. split; [|reflexivity].
    intros [x Hx]. discriminate.
Qed.

(** The reply for the sample instance with the tag [anthropic], the
    registry holding an Anthropic provider. *)
Lemma unsupported_protocol_reply_sample :
  forwarded
    (@ProtocolHandler.HandleRequest sample_translator
       (ProtocolHandler.mk {[ "anthropic"%string := answering upstream_ok ]}
          protocol_config)
       (map_to_list (Config.Instances protocol_config))
       (Time.mk 1762120723) sample_uuid
       (caller_request "POST" "/anthropic/claude/v1/messages" []))
  = [] /\
  Handled.reply
    (@ProtocolHandler.HandleRequest sample_translator
       (ProtocolHandler.mk {[ "anthropic"%string := answering upstream_ok ]}
          protocol_config)
       (map_to_list (Config.Instances protocol_config))
       (Time.mk 1762120723) sample_uuid
       (caller_request "POST" "/anthropic/claude/v1/messages" []))
  = Some (Reply.mk 501 ∅
      (BodyError (ErrorResponse.mk
         (ErrorDetail.mk "Protocol anthropic not yet implemented"
            "not_implemented_error" "protocol_not_implemented")))).
Proof.
  destruct (@unsupported_protocol_reply sample_translator
              (ProtocolHandler.mk
                 {[ "anthropic"%string := answering upstream_ok ]}
                 protocol_config)
              (map_to_list (Config.Instances protocol_config))
              (Time.mk 1762120723) sample_uuid
              (caller_request "POST" "/anthropic/claude/v1/messages" [])
              anthropic_native "anthropic_native")
    as (Hfw & Hsome & _).
  - vm_compute. reflexivity.
  - reflexivity.
  - discriminate.
  - split; [exact Hfw|]. apply Hsome. vm_compute. eauto.
Defined.

(** C10 (as stated) fails: the registry holds no provider for the
    instance's kind, and the reply has status 503, not 501. *)
Lemma protocol_tag_unavailable_provider :
  Config.GetInstanceByPath_in
    (map_to_list (Config.Instances protocol_config))
    "/anthropic/claude/v1/messages"
  = Ok (anthropic_native, "anthropic_native"%string) /\
  InstanceConfig.Mode anthropic_native = "protocol"%string /\
  InstanceConfig.Protocol anthropic_native <> "openai"%string /\
  Handled.reply
    (@ProtocolHandler.HandleRequest sample_translator openai_handler
       (map_to_list (Config.Instances protocol_config))
       (Time.mk 1762120723) sample_uuid
       (caller_request "POST" "/anthropic/claude/v1/messages" []))
  = Some (Reply.mk 503 ∅
      (BodyError (ErrorResponse.mk
         (ErrorDetail.mk "Provider anthropic not available"
            "service_error" "provider_unavailable")))).
Proof.
  split; [vm_compute; reflexivity|]. split; [reflexivity|].
  split; [discriminate|]. vm_compute. reflexivity.
Qed.

(** ** The identifier and the timestamp of a protocol response *)

Lemma hexdigit_high (b : byte) :
  is_lower_hex (uuid.hexdigit (N.shiftr (Byte.to_N b) 4)) = true.
Proof. destruct b; reflexivity. Qed.

Lemma hexdigit_low (b : byte) :
  is_lower_hex (uuid.hexdigit (N.land (Byte.to_N b) 15)) = true.
Proof. destruct b; reflexivity. Qed.

Lemma encodeHex_length (src : list byte) :
  String.length (uuid.encodeHex src) = (2 * length src)%nat.
Proof.
  induction src as [|v src IH]; [reflexivity|].
  simpl. rewrite IH. lia.
Qed.

Lemma encodeHex_lower_hex (src : list byte) :
  forallb is_lower_hex (list_ascii_of_string (uuid.encodeHex src)) = true.
Proof.
  induction src as [|v src IH]; [reflexivity|].
  cbn [uuid.encodeHex list_ascii_of_string forallb].
  rewrite hexdigit_high, hexdigit_low, IH. reflexivity.
Qed.

(** The first eight characters of the textual form are the digits of the
    first four bytes. *)
Lemma requestID_digits (u : list byte) :
  length u = 16%nat ->
  ProtocolHandler.requestID u = "chatcmpl-" +:+ uuid.encodeHex (take 4 u).
Proof.
  intros Hu. unfold ProtocolHandler.requestID, uuid.String_, slice_to.
  f_equal.
  assert (String.length (uuid.encodeHex (take 4 u)) = 8%nat) as Hlen.
  { rewrite encodeHex_length, length_take. lia. }
  rewrite ?append_assoc, <- Hlen. apply substring_prefix_app.
Qed.

Lemma requestID_shape (u : list byte) :
  length u = 16%nat -> matches_chatcmpl_id (ProtocolHandler.requestID u) = true.
Proof.
  intros Hu. rewrite (requestID_digits u Hu). unfold matches_chatcmpl_id.
  rewrite HasPrefix_app.
  change 9%nat with (String.length "chatcmpl-").
  rewrite slice_from_app, encodeHex_length, length_take, encodeHex_lower_hex.
  replace (4 `min` length u)%nat with 4%nat by lia. reflexivity.
Qed.

(** C6. Every protocol-mode reply that carries a chat completion has
    status 200; the identifier of the completion is the one generated from
    the random source, whatever identifier the upstream body had, and has
    the shape [chatcmpl-] followed by eight lower-case hexadecimal digits;
    its timestamp is the epoch seconds of the request's start. *)
Theorem protocol_response_identity `{Translator} (h : ProtocolHandler.t)
    (order : list (string * InstanceConfig.t)) (startTime : Time.t)
    (u : list byte) (c : Request.t) (rep : Reply.t)
    (resp : ChatCompletionResponse.t) :
  length u = 16%nat ->
  Handled.reply (ProtocolHandler.HandleRequest h order startTime u c)
  = Some rep ->
  Reply.Body_ rep = BodyChat resp ->
  Reply.Status rep = 200 /\
  ChatCompletionResponse.ID resp = ProtocolHandler.requestID u /\
  matches_chatcmpl_id (ChatCompletionResponse.ID resp) = true /\
  ChatCompletionResponse.Created resp = Time.Unix startTime.
Proof.
  intros Hu Hreply Hbody.
  assert (Reply.Status rep = 200 /\
          ChatCompletionResponse.ID resp = ProtocolHandler.requestID u /\
          ChatCompletionResponse.Created resp = Time.Unix startTime)
    as (Hs & Hid & Hc).
  { unfold ProtocolHandler.HandleRequest, ProtocolHandler.handleOpenAIProtocol,
      ProtocolHandler.handleProviderError, ProtocolHandler.transform_request,
      ProtocolHandler.parse_response, ProtocolHandler.marshal_failed,
      ProtocolHandler.response_parse_error, error_reply, JSON in Hreply.
    repeat case_match; simplify_eq/=; simplify_eq; auto. }
  repeat split; try assumption.
  rewrite Hid. exact (requestID_shape u Hu).
Qed.

(** The run of the sample request through the OpenAI instance. *)
Lemma protocol_response_identity_sample :
  Reply.Status (JSON 200 (BodyChat sample_completion)) = 200 /\
  ChatCompletionResponse.ID sample_completion
  = ProtocolHandler.requestID sample_uuid /\
  matches_chatcmpl_id (ChatCompletionResponse.ID sample_completion) = true /\
  ChatCompletionResponse.Created sample_completion
  = Time.Unix (Time.mk 1762120723).
Proof.
  apply (@protocol_response_identity sample_translator openai_handler
           (map_to_list (Config.Instances protocol_config))
           (Time.mk 1762120723) sample_uuid
           (caller_request "POST" "/openai/openai/chat/completions" [])
           (JSON 200 (BodyChat sample_completion)) sample_completion).
  - reflexivity.
  - vm_compute. reflexivity.
  - reflexivity.
Defined.

(** ** Configuration loading *)

Lemma expand_from_skip (mapping : string -> string) (a b : string) :
  os.expand_from mapping (String.length a) (a +:+ b)
  = os.expand_from mapping 0 b.
Proof.
  induction a as [|c a IH]; [reflexivity|].
  rewrite append_cons. simpl. exact IH.
Qed.

Lemma expand_from_plain (mapping : string -> string) (pre rest : string) :
  without_char "$" pre = true ->
  os.expand_from mapping 0 (pre +:+ rest)
  = pre +:+ os.expand_from mapping 0 rest.
Proof.
  induction pre as [|c pre IH]; intros Hpre; [reflexivity|].
  unfold without_char in Hpre. simpl in Hpre.
  apply andb_true_iff in Hpre as [Hc Hpre].
  apply negb_true_iff in Hc.
  rewrite !append_cons. simpl. rewrite Hc. simpl.
  f_equal. apply IH. exact Hpre.
Qed.

Lemma closing_brace_app (name post : string) (i : nat) :
  without_char "}" name = true ->
  os.closing_brace (name +:+ String "}" post) i
  = Some (i + String.length name)%nat.
Proof.
  revert i. induction name as [|c name IH]; intros i Hname.
  - simpl. f_equal. lia.
  - unfold without_char in Hname. simpl in Hname.
    apply andb_true_iff in Hname as [Hc Hname].
    apply negb_true_iff in Hc.
    rewrite append_cons. simpl. rewrite Hc, (IH (S i) Hname).
    f_equal. lia.
Qed.

Lemma scan_braces_name (name post : string) :
  name <> EmptyString -> without_char "}" name = true ->
  os.scan_braces (String "{" (name +:+ String "}" post))
    (name +:+ String "}" post)
  = (name, (String.length name + 2)%nat).
Proof.
  intros Hne Hname. unfold os.scan_braces.
  rewrite (closing_brace_app name post 1 Hname).
  destruct name as [|c name]; [congruence|].
  simpl String.length.
  replace (1 + S (String.length name) =? 1)%nat with false
    by (symmetry; apply Nat.eqb_neq; lia).
  f_equal; [|lia].
  replace (1 + S (String.length name) - 1)%nat
    with (String.length (String c name)) by (simpl; lia).
  change (substring 1 ?n (String ?a ?s)) with (substring 0 n s).
  apply substring_prefix_app.
Qed.

(** A braced reference is read whole, name and braces. *)
Lemma getShellName_braced (name post : string) :
  name <> EmptyString -> without_char "}" name = true ->
  os.getShellName (String "{" (name +:+ String "}" post))
  = (name, (String.length name + 2)%nat).
Proof.
  intros Hne Hname.
  pose proof (scan_braces_name name post Hne Hname) as Hscan.
  unfold os.getShellName.
  change (Ascii.eqb "{" "{") with true. cbv iota.
  destruct name as [|c1 [|c2 name]]; [congruence| |].
  - rewrite append_cons, append_nil_l.
    change (Ascii.eqb "}" "}") with true. rewrite andb_true_r.
    destruct (os.isShellSpecialVar c1); [reflexivity|].
    rewrite append_cons, append_nil_l in Hscan. exact Hscan.
  - unfold without_char in Hname. simpl in Hname.
    apply andb_true_iff in Hname as [_ Hname].
    apply andb_true_iff in Hname as [Hc2 _].
    apply negb_true_iff in Hc2.
    rewrite !append_cons in *. rewrite Hc2, andb_false_r. exact Hscan.
Qed.

Lemma expand_from_dollar (mapping : string -> string) (c : ascii)
    (rest : string) :
  os.expand_from mapping 0 (String "$" (String c rest))
  = (if String.eqb (fst (os.getShellName (String c rest))) EmptyString
     then if (0 <? snd (os.getShellName (String c rest)))%nat
          then EmptyString else "$"
     else mapping (fst (os.getShellName (String c rest))))
    +:+ os.expand_from mapping (snd (os.getShellName (String c rest)))
          (String c rest).
Proof.
  cbn [os.expand_from]. change (Ascii.eqb "$" "$") with true.
  change (String.eqb (String c rest) EmptyString) with false.
  cbn [andb negb].
  destruct (os.getShellName (String c rest)) as [name w]. reflexivity.
Qed.

(** The expansion of a text with a braced reference: the text before it,
    when it has no dollar sign, is kept; the reference is replaced by the
    value of the variable, which is the empty string when it is not set. *)
Lemma ExpandEnv_reference (env : gmap string string)
    (pre name post : string) :
  without_char "$" pre = true ->
  name <> EmptyString -> without_char "}" name = true ->
  os.ExpandEnv env (pre +:+ "${" +:+ name +:+ "}" +:+ post)
  = pre +:+ os.Getenv env name +:+ os.ExpandEnv env post.
Proof.
  intros Hpre Hne Hname. unfold os.ExpandEnv, os.Expand.
  rewrite (expand_from_plain _ pre _ Hpre). f_equal.
  change ("${" +:+ name +:+ "}" +:+ post)
    with (String "$" (String "{" (name +:+ String "}" post))).
  rewrite expand_from_dollar.
  rewrite (getShellName_braced name post Hne Hname).
  cbn [fst snd].
  apply String.eqb_neq in Hne. rewrite Hne. f_equal.
  assert (String "{" (name +:+ String "}" post)
          = String "{" (name +:+ "}") +:+ post) as ->.
  { rewrite append_cons, append_assoc. reflexivity. }
  replace (String.length name + 2)%nat
    with (String.length (String "{" (name +:+ "}"))).
  - apply expand_from_skip.
  - simpl. rewrite length_append. simpl. lia.
Qed.

Lemma isAlphaNum_without_brace (name : string) :
  forallb os.isAlphaNum (list_ascii_of_string name) = true ->
  without_char "}" name = true.
Proof.
  unfold without_char.
  induction name as [|c name IH]; intros H; [reflexivity|].
  simpl in *. apply andb_true_iff in H as [Hc H].
  rewrite (IH H), andb_true_r.
  destruct (Ascii.eqb c "}") eqn:E; [|reflexivity].
  apply Ascii.eqb_eq in E. subst c. discriminate.
Qed.

Lemma LoadConfig_decodes_expansion (Unmarshal : string -> result Config.t)
    (env : gmap string string) (data : string) :
  Config.LoadConfig Unmarshal env (Ok data)
  = match Unmarshal (os.ExpandEnv env data) with
    | Ok config => Ok config
    | Err err => Err ("failed to parse config: " +:+ err)
    end.
Proof. reflexivity. Qed.

(** C4 (amended). Loading expands the references of the form [${NAME}]
    from the environment before it decodes the text: the reference is
    replaced by the value of the variable; when the variable is not set
    the reference is replaced by nothing, and loading goes on as it does
    for the text without the reference. *)
Theorem LoadConfig_expands_references
    (Unmarshal : string -> result Config.t) (env : gmap string string)
    (pre name post : string) :
  without_char "$" pre = true ->
  name <> EmptyString ->
  forallb os.isAlphaNum (list_ascii_of_string name) = true ->
  Config.LoadConfig Unmarshal env
    (Ok (pre +:+ "${" +:+ name +:+ "}" +:+ post))
  = match Unmarshal (pre +:+ os.Getenv env name +:+ os.ExpandEnv env post)
    with
    | Ok config => Ok config
    | Err err => Err ("failed to parse config: " +:+ err)
    end /\
  (env !! name = None ->
   Config.LoadConfig Unmarshal env
     (Ok (pre +:+ "${" +:+ name +:+ "}" +:+ post))
   = Config.LoadConfig Unmarshal env (Ok (pre +:+ post))).
Proof.
  intros Hpre Hne Halnum.
  pose proof (ExpandEnv_reference env pre name post Hpre Hne
                (isAlphaNum_without_brace name Halnum)) as Hexp.
  rewrite !LoadConfig_decodes_expansion, Hexp.
  split; [reflexivity|].
  intros Hunset. unfold os.Getenv at 1. rewrite Hunset. simpl.
  unfold os.ExpandEnv, os.Expand.
  rewrite (expand_from_plain _ pre post Hpre). reflexivity.
Qed.

(** Loading a text whose reference names a variable that is not set. *)
Lemma LoadConfig_expands_references_sample :
  Config.LoadConfig (decoding "token: " empty_config) ∅
    (Ok ("token: " +:+ "${" +:+ "OPENAI_API_KEY" +:+ "}" +:+ ""))
  = Config.LoadConfig (decoding "token: " empty_config) ∅
      (Ok ("token: " +:+ "")).
Proof.
  apply (LoadConfig_expands_references (decoding "token: " empty_config) ∅
           "token: " "OPENAI_API_KEY" "").
  - reflexivity.
  - discriminate.
  - reflexivity.
  - reflexivity.
Defined.

(** C4 (as stated) fails: the variable is not set, the reference is
    replaced by nothing, and loading succeeds on the text that is left. *)
Lemma LoadConfig_unresolved_reference_loads :
  (∅ : gmap string string) !! "OPENAI_API_KEY"%string = None /\
  os.ExpandEnv ∅ "token: ${OPENAI_API_KEY}" = "token: "%string /\
  Config.LoadConfig (decoding "token: " empty_config) ∅
    (Ok "token: ${OPENAI_API_KEY}"%string)
  = Ok empty_config.
Proof.
  split; [reflexivity|]. split; vm_compute; reflexivity.
Qed.

(** The form with a default is read as the name of a variable, default
    and all: unless a variable of that name is set, the reference is
    replaced by nothing, whether the variable before the colon is set or
    not. *)
Lemma ExpandEnv_default_form (env : gmap string string) :
  env !! "OPENAI_BASE_URL:-https://api.openai.com/v1"%string = None ->
  os.ExpandEnv env "base_url: ${OPENAI_BASE_URL:-https://api.openai.com/v1}"
  = "base_url: "%string.
Proof.
  intros Hunset.
  change "base_url: ${OPENAI_BASE_URL:-https://api.openai.com/v1}"%string
    with ("base_url: " +:+ "${"
          +:+ "OPENAI_BASE_URL:-https://api.openai.com/v1" +:+ "}" +:+ "").
  rewrite ExpandEnv_reference; [|reflexivity|discriminate|reflexivity].
  unfold os.Getenv. rewrite Hunset. reflexivity.
Qed.

(** C5 (amended). Loading checks no invariant of the instances: it
    succeeds exactly when the file is read and its expanded text is
    decoded, and it returns the decoded configuration as it is. *)
Theorem LoadConfig_validates_nothing (Unmarshal : string -> result Config.t)
    (env : gmap string string) (file : result string) (config : Config.t) :
  Config.LoadConfig Unmarshal env file = Ok config <->
  exists data,
    file = Ok data /\ Unmarshal (os.ExpandEnv env data) = Ok config.
Proof.
  unfold Config.LoadConfig. split.
  - destruct file as [data|err]; [|discriminate].
    destruct (Unmarshal (os.ExpandEnv env data)) as [c|err] eqn:E;
      [|discriminate].
    intros [= <-]. exists data. split; [reflexivity | exact E].
  - intros (data & -> & ->). reflexivity.
Qed.

(** C5 (as stated) fails: the document declares a protocol instance
    without a translation pair, and loading returns its configuration. *)
Lemma LoadConfig_accepts_pairless_protocol :
  Config.LoadConfig (decoding pairless_document pairless_config) ∅
    (Ok pairless_document)
  = Ok pairless_config /\
  ~ config_invariants pairless_config.
Proof.
  split; [vm_compute; reflexivity|].
  intros Hinv.
  specialize (Hinv "bedrock_openai"%string pairless_instance).
  assert (instance_invariants pairless_instance = false) as Hfalse
    by reflexivity.
  rewrite Hinv in Hfalse; [discriminate|]. reflexivity.
Qed.

(** A protocol instance without a translation pair is served: the
    caller's request is marshalled and passed to the provider as a chat
    completion request. *)
Lemma protocol_without_pair_passes `{Translator} (h : ProtocolHandler.t)
    (order : list (string * InstanceConfig.t)) (startTime : Time.t)
    (u : list byte) (c : Request.t) (inst : InstanceConfig.t)
    (name : string) (provider : Provider) (req : ChatCompletionRequest)
    (reqBody : list byte) :
  Config.GetInstanceByPath_in order (Request.URLPath c) = Ok (inst, name) ->
  InstanceConfig.Mode inst = "protocol"%string ->
  InstanceConfig.Protocol inst = "openai"%string ->
  InstanceConfig.Transformation inst = None ->
  ProtocolHandler.providers h !! InstanceConfig.Type_ inst = Some provider ->
  ShouldBindJSON c = Some req ->
  Marshal req = Some reqBody ->
  forwarded (ProtocolHandler.HandleRequest h order startTime u c)
  = [ProtocolHandler.passthrough_request reqBody].
Proof.
  intros Hlookup Hmode Hproto Htrans Hprov Hbind Hmarshal.
  unfold ProtocolHandler.HandleRequest, ProtocolHandler.handleOpenAIProtocol,
    ProtocolHandler.transform_request, ProtocolHandler.parse_response.
  rewrite Hlookup, Hmode, Hproto, Hprov, Hbind, Htrans, Hmarshal. simpl.
  repeat case_match; reflexivity.
Qed.

(** * Further properties of the registry and the handlers *)

(** ** Listings of the registry *)

Lemma ListInstances_in_names (order : list (string * InstanceConfig.t))
    (names : list string) :
  fold_left (fun names entry => names ++ [fst entry]) order names
  = names ++ order.*1.
Proof.
  revert names. induction order as [|e order IH]; intros names; simpl.
  - rewrite app_nil_r. reflexivity.
  - rewrite IH, <- app_assoc. reflexivity.
Qed.

Lemma range_order_names (c : Config.t)
    (order : list (string * InstanceConfig.t)) :
  Config.range_order c order ->
  NoDup order.*1 /\
  forall name, name ∈ order.*1 <-> is_Some (Config.Instances c !! name).
Proof.
  unfold Config.range_order. intros Hperm. split.
  - rewrite Hperm. apply NoDup_fst_map_to_list.
  - intros name. rewrite Hperm, list_elem_of_fmap. split.
    + intros [[n i] [-> Hin]]. apply elem_of_map_to_list in Hin. eauto.
    + intros [i Hi]. exists (name, i). split; [reflexivity|].
      apply elem_of_map_to_list. exact Hi.
Qed.

(** X2. Whatever the order in which the instance map is visited,
    [ListInstances] returns every instance name exactly once and nothing
    else: the list has no duplicate, a name is in it if and only if the
    map has an instance of that name, and its length is the size of the
    map. *)
Theorem ListInstances_names (c : Config.t)
    (order : list (string * InstanceConfig.t)) :
  Config.range_order c order ->
  NoDup (Config.ListInstances_in order) /\
  (forall name,
     name ∈ Config.ListInstances_in order <->
     is_Some (Config.Instances c !! name)) /\
  length (Config.ListInstances_in order) = size (Config.Instances c).
Proof.
  intros Horder. unfold Config.ListInstances_in.
  rewrite ListInstances_in_names. simpl.
  destruct (range_order_names c order Horder) as [Hnodup Hin].
  split; [exact Hnodup|]. split; [exact Hin|].
  rewrite length_fmap. unfold Config.range_order in Horder.
  rewrite Horder. apply length_map_to_list.
Qed.

(** The names of the configuration with the two protocol instances. *)
Lemma ListInstances_names_sample :
  NoDup (Config.ListInstances_in
           (map_to_list (Config.Instances protocol_config))) /\
  (forall name,
     name ∈ Config.ListInstances_in
              (map_to_list (Config.Instances protocol_config)) <->
     is_Some (Config.Instances protocol_config !! name)) /\
  length (Config.ListInstances_in
            (map_to_list (Config.Instances protocol_config)))
  = size (Config.Instances protocol_config).
Proof.
  apply (ListInstances_names protocol_config
           (map_to_list (Config.Instances protocol_config))).
  unfold Config.range_order. reflexivity.
Defined.

Lemma collect_in_fold (test : InstanceConfig.t -> bool)
    (l : list (string * InstanceConfig.t))
    (acc : gmap string InstanceConfig.t) :
  NoDup l.*1 ->
  (forall k, k ∈ l.*1 -> acc !! k = None) ->
  forall k v,
    fold_left
      (fun instances entry =>
         if test (snd entry) then <[fst entry := snd entry]> instances
         else instances)
      l acc !! k = Some v <->
    acc !! k = Some v \/ ((k, v) ∈ l /\ test v = true).
Proof.
  revert acc. induction l as [|[k0 v0] l IH]; intros acc Hnodup Hfresh k v.
  - simpl. split; [auto|]. intros [H|[H _]]; [exact H|].
    apply elem_of_nil in H. contradiction.
  - simpl in Hnodup. apply NoDup_cons in Hnodup as [Hk0 Hnodup].
    assert (acc !! k0 = None) as Hacc0.
    { apply Hfresh. simpl. apply list_elem_of_here. }
    simpl. rewrite IH; [|exact Hnodup|].
    + destruct (test v0) eqn:Ht.
      * rewrite lookup_insert_Some. split.
        -- intros [[[<- <-]|[Hne H]]|[Hin Hv]].
           ++ right. split; [apply list_elem_of_here | exact Ht].
           ++ left. exact H.
           ++ right. split; [apply list_elem_of_further; exact Hin | exact Hv].
        -- intros [H|[Hin Hv]].
           ++ left. right. split; [|exact H]. intros <-. congruence.
           ++ apply elem_of_cons in Hin as [[= -> ->]|Hin].
              ** left. left. auto.
              ** right. auto.
      * split.
        -- intros [H|[Hin Hv]]; [left; exact H|].
           right. split; [apply list_elem_of_further; exact Hin | exact Hv].
        -- intros [H|[Hin Hv]]; [left; exact H|].
           apply elem_of_cons in Hin as [[= -> ->]|Hin]; [congruence|].
           right. auto.
    + intros k' Hk'.
      assert (acc !! k' = None) as Hacc'.
      { apply Hfresh. simpl. apply list_elem_of_further. exact Hk'. }
      destruct (test v0); [|exact Hacc'].
      rewrite lookup_insert_ne; [exact Hacc'|].
      intros <-. contradiction.
Qed.

Lemma collect_in_lookup (test : InstanceConfig.t -> bool) (c : Config.t)
    (order : list (string * InstanceConfig.t)) (name : string)
    (instance : InstanceConfig.t) :
  Config.range_order c order ->
  Config.collect_in test order !! name = Some instance <->
  Config.Instances c !! name = Some instance /\ test instance = true.
Proof.
  intros Horder. unfold Config.collect_in.
  rewrite collect_in_fold.
  - rewrite lookup_empty, list_elem_of_In, (range_order_In c order _ _ Horder).
    split; [intros [H|H]; [discriminate | exact H] | auto].
  - exact (proj1 (range_order_names c order Horder)).
  - intros k _. apply lookup_empty.
Qed.

(** X3. Whatever the order in which the instance map is visited, the map
    returned by [ListInstancesByMode] holds exactly the instances of the
    configuration whose mode is the given one, under their names, and the
    map returned by [ListInstancesByType] exactly those whose provider
    type is the given one. *)
Theorem ListInstancesBy_lookup (c : Config.t)
    (order : list (string * InstanceConfig.t)) (key name : string)
    (instance : InstanceConfig.t) :
  Config.range_order c order ->
  (Config.ListInstancesByMode_in order key !! name = Some instance <->
   Config.Instances c !! name = Some instance /\
   InstanceConfig.Mode instance = key) /\
  (Config.ListInstancesByType_in order key !! name = Some instance <->
   Config.Instances c !! name = Some instance /\
   InstanceConfig.Type_ instance = key).
Proof.
  intros Horder.
  unfold Config.ListInstancesByMode_in, Config.ListInstancesByType_in.
  rewrite !(collect_in_lookup _ c order name instance Horder).
  rewrite !String.eqb_eq. split; reflexivity.
Qed.

(** The listing of the protocol instances of the sample configuration
    holds the OpenAI instance. *)
Lemma ListInstancesBy_lookup_sample :
  Config.ListInstancesByMode_in
    (map_to_list (Config.Instances protocol_config)) "protocol"
    !! "openai_openai"%string
  = Some openai_openai.
Proof.
  destruct (ListInstancesBy_lookup protocol_config
              (map_to_list (Config.Instances protocol_config))
              "protocol" "openai_openai" openai_openai) as [[_ H] _].
  - unfold Config.range_order. reflexivity.
  - apply H. split; reflexivity.
Defined.

(** X4. [GetDefaultInstance] succeeds exactly when the routing defaults
    name an instance for the provider type and the instance map holds an
    instance of that name; it then returns that instance with its name.
    The provider type of the instance itself is not compared. *)
Theorem GetDefaultInstance_Ok (c : Config.t) (providerType name : string)
    (instance : InstanceConfig.t) :
  Config.GetDefaultInstance c providerType = Ok (instance, name) <->
  RoutingConfig.Defaults (Config.Routing c) !! providerType = Some name /\
  Config.Instances c !! name = Some instance.
Proof.
  unfold Config.GetDefaultInstance, Config.GetInstanceByName.
  destruct (RoutingConfig.Defaults (Config.Routing c) !! providerType)
    as [defaultName|].
  - destruct (Config.Instances c !! defaultName) as [i|] eqn:E.
    + split.
      * intros [= <- <-]. auto.
      * intros [[= ->] H]. congruence.
    + split; [discriminate|]. intros [[= ->] H]. congruence.
  - split; [discriminate | intros [H _]; discriminate].
Qed.

(** ** The mode gate and the provider calls *)

(** X5. A request that resolves to an instance whose mode is not
    [transparent] is refused by the transparent handler with status 400,
    and one that resolves to an instance whose mode is not [protocol] is
    refused by the protocol handler with status 400 and code
    [invalid_mode]; in both cases no provider is called and no metric is
    recorded. *)
Theorem mode_gate `{Translator} (providers : gmap string Provider)
    (c : Config.t) (order : list (string * InstanceConfig.t))
    (startTime : Time.t) (u : list byte) (req : Request.t)
    (inst : InstanceConfig.t) (name : string) :
  Config.GetInstanceByPath_in order (Request.URLPath req) = Ok (inst, name) ->
  (InstanceConfig.Mode inst <> "transparent"%string ->
   TransparentHandler.HandleRequest (TransparentHandler.mk providers c)
     order req
   = Handled.mk []
       (Some (Reply.mk 400 ∅
          (BodyH [("error",
                   "This endpoint requires transparent mode")%string])))) /\
  (InstanceConfig.Mode inst <> "protocol"%string ->
   ProtocolHandler.HandleRequest (ProtocolHandler.mk providers c) order
     startTime u req
   = Handled.mk []
       (Some (Reply.mk 400 ∅
          (BodyError (ErrorResponse.mk
             (ErrorDetail.mk "This endpoint requires protocol mode"
                "invalid_request_error" "invalid_mode")))))).
Proof.
  intros Hlookup. split; intros Hmode; apply String.eqb_neq in Hmode.
  - unfold TransparentHandler.HandleRequest. rewrite Hlookup, Hmode.
    reflexivity.
  - unfold ProtocolHandler.HandleRequest. rewrite Hlookup, Hmode.
    reflexivity.
Qed.

(** The protocol handler refuses the sample transparent instance. *)
Lemma mode_gate_sample :
  @ProtocolHandler.HandleRequest sample_translator
    (ProtocolHandler.mk {[ "bedrock"%string := answering upstream_ok ]} single)
    (map_to_list (Config.Instances single)) (Time.mk 1762120723) sample_uuid
    (caller_request "POST" "/transparent/bedrock/model/invoke" [])
  = Handled.mk []
      (Some (Reply.mk 400 ∅
         (BodyError (ErrorResponse.mk
            (ErrorDetail.mk "This endpoint requires protocol mode"
               "invalid_request_error" "invalid_mode"))))).
Proof.
  destruct (@mode_gate sample_translator
              {[ "bedrock"%string := answering upstream_ok ]} single
              (map_to_list (Config.Instances single)) (Time.mk 1762120723)
              sample_uuid
              (caller_request "POST" "/transparent/bedrock/model/invoke" [])
              bedrock_transparent "bedrock_transparent") as [_ H].
  - reflexivity.
  - apply H. discriminate.
Defined.

(** When one instance only owns a prefix of the path, every iteration
    order resolves the path to it. *)
Lemma unique_owner_lookup (c : Config.t)
    (order : list (string * InstanceConfig.t)) (path name : string)
    (inst : InstanceConfig.t) :
  Config.range_order c order ->
  (forall n n', owns_prefix c path n -> owns_prefix c path n' -> n = n') ->
  Config.GetInstanceByPath_in order path = Ok (inst, name) ->
  forall order',
    Config.range_order c order' ->
    Config.GetInstanceByPath_in order' path = Ok (inst, name).
Proof.
  intros Horder Huniq Hlookup order' Horder'.
  apply GetInstanceByPath_in_Ok in Hlookup
    as (before & after & -> & [ep Hm] & _).
  apply matching_endpoint_Some in Hm as [Hin Hp].
  assert (Config.Instances c !! name = Some inst) as Hl.
  { apply (range_order_In c _ name inst Horder).
    apply in_or_app. right. left. reflexivity. }
  assert (owns_prefix c path name) as Hown by (exists inst, ep; auto).
  destruct (Config.GetInstanceByPath_in order' path) as [[inst' name']|msg]
    eqn:E.
  - apply GetInstanceByPath_in_Ok in E
      as (before' & after' & -> & [ep' Hm'] & _).
    apply matching_endpoint_Some in Hm' as [Hin' Hp'].
    assert (Config.Instances c !! name' = Some inst') as Hl'.
    { apply (range_order_In c _ name' inst' Horder').
      apply in_or_app. right. left. reflexivity. }
    assert (name' = name) as ->.
    { apply Huniq; [exists inst', ep'; auto | exact Hown]. }
    congruence.
  - apply (range_order_In c order' name inst Horder') in Hl.
    pose proof (GetInstanceByPath_in_Err _ _ _ E _ Hl) as Hnone.
    simpl in Hnone.
    rewrite (proj1 (matching_endpoint_None _ _) Hnone ep Hin) in Hp.
    discriminate.
Qed.

(** X6. When at most one instance owns a prefix of the request path, the
    two handlers never both pass the request to a provider, whatever the
    orders in which their lookups visit the instance map: an instance is
    served by the handler of its mode only. *)
Theorem handlers_exclusive `{Translator} (providers : gmap string Provider)
    (c : Config.t) (order1 order2 : list (string * InstanceConfig.t))
    (startTime : Time.t) (u : list byte) (req : Request.t) :
  Config.range_order c order1 ->
  Config.range_order c order2 ->
  (forall n n',
     owns_prefix c (Request.URLPath req) n ->
     owns_prefix c (Request.URLPath req) n' -> n = n') ->
  forwarded
    (TransparentHandler.HandleRequest (TransparentHandler.mk providers c)
       order1 req) = [] \/
  forwarded
    (ProtocolHandler.HandleRequest (ProtocolHandler.mk providers c) order2
       startTime u req) = [].
Proof.
  intros H1 H2 Huniq.
  destruct (Config.GetInstanceByPath_in order1 (Request.URLPath req))
    as [[inst name]|msg] eqn:E.
  - pose proof (unique_owner_lookup c order1 _ name inst H1 Huniq E
                  order2 H2) as E2.
    destruct (String.eqb (InstanceConfig.Mode inst) "transparent") eqn:Hm.
    + right. apply String.eqb_eq in Hm.
      unfold ProtocolHandler.HandleRequest. rewrite E2, Hm. reflexivity.
    + left. unfold TransparentHandler.HandleRequest. rewrite E, Hm.
      reflexivity.
  - left. unfold TransparentHandler.HandleRequest. rewrite E. reflexivity.
Qed.

(** On the configuration with the single transparent instance the protocol
    handler calls no provider. *)
Lemma handlers_exclusive_sample :
  forwarded
    (TransparentHandler.HandleRequest bedrock_handler
       (map_to_list (Config.Instances single))
       (caller_request "POST" "/transparent/bedrock/model/invoke" [])) = [] \/
  forwarded
    (@ProtocolHandler.HandleRequest sample_translator
       (ProtocolHandler.mk {[ "bedrock"%string := answering upstream_ok ]}
          single)
       (map_to_list (Config.Instances single)) (Time.mk 1762120723)
       sample_uuid
       (caller_request "POST" "/transparent/bedrock/model/invoke" [])) = [].
Proof.
  apply (@handlers_exclusive sample_translator
           {[ "bedrock"%string := answering upstream_ok ]} single
           (map_to_list (Config.Instances single))
           (map_to_list (Config.Instances single)) (Time.mk 1762120723)
           sample_uuid
           (caller_request "POST" "/transparent/bedrock/model/invoke" [])).
  - unfold Config.range_order. reflexivity.
  - unfold Config.range_order. reflexivity.
  - intros n n' (i & _ & Hl & _) (i' & _ & Hl' & _).
    unfold single, sample_config in Hl, Hl'.
    cbn [Config.Instances] in Hl, Hl'.
    apply lookup_singleton_Some in Hl as [<- _].
    apply lookup_singleton_Some in Hl' as [<- _]. reflexivity.
Defined.

(** X7. Neither handler calls a provider more than once for a request:
    there is no retry and no fallback to another provider. *)
Theorem at_most_one_invocation `{Translator} (ht : TransparentHandler.t)
    (hp : ProtocolHandler.t) (order : list (string * InstanceConfig.t))
    (startTime : Time.t) (u : list byte) (req : Request.t) :
  (length (forwarded (TransparentHandler.HandleRequest ht order req))
   <= 1)%nat /\
  (length (forwarded
             (ProtocolHandler.HandleRequest hp order startTime u req))
   <= 1)%nat.
Proof.
  split.
  - unfold TransparentHandler.HandleRequest.
    repeat case_match; simpl; lia.
  - unfold ProtocolHandler.HandleRequest,
      ProtocolHandler.handleOpenAIProtocol.
    repeat case_match; simpl; lia.
Qed.

(** ** What the transparent handler passes on *)

Lemma copy_query_lookup (query : gmap string (list string)) (key : string) :
  copy_query query !! key
  = (fun _ => http.Values_Get query key) <$> query !! key.
Proof.
  unfold copy_query. rewrite map_lookup_imap.
  destruct (query !! key); reflexivity.
Qed.

(** The transparent handler calls no provider, or calls one with the
    request it builds from the resolved instance and the body read. *)
Lemma transparent_forwarded_cases (h : TransparentHandler.t)
    (order : list (string * InstanceConfig.t)) (c : Request.t) :
  forwarded (TransparentHandler.HandleRequest h order c) = [] \/
  exists inst name body,
    Config.GetInstanceByPath_in order (Request.URLPath c) = Ok (inst, name) /\
    Request.GetRawData c = Some body /\
    forwarded (TransparentHandler.HandleRequest h order c)
    = [TransparentHandler.provider_request inst c body].
Proof.
  unfold TransparentHandler.HandleRequest.
  destruct (Config.GetInstanceByPath_in order (Request.URLPath c))
    as [[inst name]|msg]; [|left; reflexivity].
  destruct (negb (String.eqb (InstanceConfig.Mode inst) "transparent"));
    [left; reflexivity|].
  destruct (TransparentHandler.providers h !! InstanceConfig.Type_ inst)
    as [provider|]; [|left; reflexivity].
  destruct (Request.GetRawData c) as [body|]; [|left; reflexivity].
  right. exists inst, name, body. split; [reflexivity|].
  split; [reflexivity|].
  destruct (Invoke (TransparentHandler.provider_request inst c body));
    [|reflexivity|reflexivity].
  simpl. destruct (MetricsConfig.Enabled (InstanceConfig.Metrics inst));
    reflexivity.
Qed.

(** X8. Every request the transparent handler passes to a provider has
    the caller's method, the caller's body byte for byte, and, for each
    key of the caller's query, the first value of that key; it has no
    query parameter the caller did not send. *)
Theorem transparent_forwards_verbatim (h : TransparentHandler.t)
    (order : list (string * InstanceConfig.t)) (c : Request.t)
    (req : ProviderRequest.t) :
  In req (forwarded (TransparentHandler.HandleRequest h order c)) ->
  ProviderRequest.Method req = Request.Method c /\
  Request.GetRawData c = Some (ProviderRequest.Body req) /\
  forall key,
    ProviderRequest.QueryParams req !! key
    = (fun _ => http.Values_Get (Request.Query c) key)
      <$> Request.Query c !! key.
Proof.
  intros Hin.
  destruct (transparent_forwarded_cases h order c)
    as [Hnil|(inst & name & body & _ & Hbody & Hfw)].
  - rewrite Hnil in Hin. destruct Hin.
  - rewrite Hfw in Hin. destruct Hin as [<-|[]].
    split; [reflexivity|]. split; [exact Hbody|].
    intros key. apply copy_query_lookup.
Qed.

(** The request passed for the sample request. *)
Lemma transparent_forwards_verbatim_sample :
  ProviderRequest.Method
    (TransparentHandler.provider_request bedrock_transparent
       (caller_request "POST" "/transparent/bedrock/model/invoke" [])
       (list_byte_of_string "{}"))
  = "POST"%string /\
  Request.GetRawData
    (caller_request "POST" "/transparent/bedrock/model/invoke" [])
  = Some (list_byte_of_string "{}").
Proof.
  destruct (transparent_forwards_verbatim bedrock_handler
              (map_to_list (Config.Instances single))
              (caller_request "POST" "/transparent/bedrock/model/invoke" [])
              (TransparentHandler.provider_request bedrock_transparent
                 (caller_request "POST" "/transparent/bedrock/model/invoke"
                    [])
                 (list_byte_of_string "{}")))
    as (Hm & Hb & _).
  - rewrite (transparent_forwarded bedrock_handler
               (map_to_list (Config.Instances single))
               (caller_request "POST" "/transparent/bedrock/model/invoke" [])
               bedrock_transparent "bedrock_transparent"
               (answering upstream_ok) (list_byte_of_string "{}"));
      [left; reflexivity | reflexivity..].
  - split; [exact Hm | exact Hb].
Defined.

(** X9. When the provider of a transparent instance fails with a provider
    error, the handler calls the provider once, records no metric, and the
    response has the error's status when that is between 200 and 999, and
    status 200 when it is zero or less: the handler has no guard for an
    error without a status, unlike the protocol handler. The body is the
    bytes of the error's message, not written for 204 and 304, and the
    content type is [application/json] unless the header map already has
    one. When the provider fails with any other error the response is the
    JSON object of the message [Provider request failed], with status
    500. *)
Theorem transparent_provider_failure (h : TransparentHandler.t)
    (order : list (string * InstanceConfig.t)) (c : Request.t)
    (inst : InstanceConfig.t) (name : string) (provider : Provider)
    (body : list byte) (before : gmap string (list string)) :
  Config.GetInstanceByPath_in order (Request.URLPath c) = Ok (inst, name) ->
  InstanceConfig.Mode inst = "transparent"%string ->
  TransparentHandler.providers h !! InstanceConfig.Type_ inst
  = Some provider ->
  Request.GetRawData c = Some body ->
  (forall e,
     @Invoke provider (TransparentHandler.provider_request inst c body)
     = InvokeProviderError e ->
     ProviderError.StatusCode e <= 0 \/
     200 <= ProviderError.StatusCode e <= 999 ->
     exists rep,
       TransparentHandler.HandleRequest h order c
       = Handled.mk
           [EvInvoke (InstanceConfig.Type_ inst)
              (TransparentHandler.provider_request inst c body)]
           (Some rep) /\
       Reply.HeaderCalls rep = ∅ /\
       gin.respond before [] rep
       = gin.Response.mk
           (if 0 <? ProviderError.StatusCode e
            then ProviderError.StatusCode e
            else 200)
           (gin.writeContentType before "application/json")
           (gin.Bytes
              (if (ProviderError.StatusCode e =? 204)
                  || (ProviderError.StatusCode e =? 304)
               then []
               else list_byte_of_string (ProviderError.Message e)))) /\
  (forall msg,
     @Invoke provider (TransparentHandler.provider_request inst c body)
     = InvokeError msg ->
     exists rep,
       TransparentHandler.HandleRequest h order c
       = Handled.mk
           [EvInvoke (InstanceConfig.Type_ inst)
              (TransparentHandler.provider_request inst c body)]
           (Some rep) /\
       Reply.HeaderCalls rep = ∅ /\
       gin.respond before [] rep
       = gin.Response.mk 500
           (gin.writeContentType before "application/json; charset=utf-8")
           (gin.Encoded
              (BodyH [("error", "Provider request failed")%string]))).
Proof.
  intros Hlookup Hmode Hprov Hbody.
  unfold TransparentHandler.HandleRequest.
  rewrite Hlookup, Hmode, Hprov, Hbody. simpl.
  split.
  - intros e He Hstatus. rewrite He.
    eexists. split; [reflexivity|]. split; [reflexivity|].
    apply respond_Data. exact Hstatus.
  - intros msg He. rewrite He.
    eexists. split; [reflexivity|]. split; reflexivity.
Qed.

(** The response to the sample request when the provider fails without a
    status: the caller receives status 200. *)
Lemma transparent_provider_failure_sample :
  exists rep,
    Handled.reply
      (TransparentHandler.HandleRequest
         (TransparentHandler.mk
            {[ "bedrock"%string := failing unclassified ]} single)
         (map_to_list (Config.Instances single))
         (caller_request "POST" sample_path []))
    = Some rep /\
    gin.respond ∅ [] rep
    = gin.Response.mk 200
        {[ "Content-Type"%string := ["application/json"%string] ]}
        (gin.Bytes (list_byte_of_string "connection reset")).
Proof.
  destruct (transparent_provider_failure
              (TransparentHandler.mk
                 {[ "bedrock"%string := failing unclassified ]} single)
              (map_to_list (Config.Instances single))
              (caller_request "POST" sample_path [])
              bedrock_transparent "bedrock_transparent"
              (failing unclassified) (list_byte_of_string "{}") ∅)
    as [H _]; [reflexivity..|].
  destruct (H unclassified eq_refl) as (rep & Hrun & _ & Hresp).
  - left. vm_compute. discriminate.
  - exists rep. split; [rewrite Hrun; reflexivity|].
    rewrite Hresp. reflexivity.
Defined.

(** ** What the protocol handler replies and passes on *)

(** X10. Every reply of the protocol handler carries either the error
    object or a chat completion, and a chat completion only with status
    200: no other body is written. *)
Theorem protocol_reply_bodies `{Translator} (h : ProtocolHandler.t)
    (order : list (string * InstanceConfig.t)) (startTime : Time.t)
    (u : list byte) (c : Request.t) (rep : Reply.t) :
  Handled.reply (ProtocolHandler.HandleRequest h order startTime u c)
  = Some rep ->
  (exists e, Reply.Body_ rep = BodyError e) \/
  (exists r, Reply.Body_ rep = BodyChat r /\ Reply.Status rep = 200).
Proof.
  unfold ProtocolHandler.HandleRequest, ProtocolHandler.handleOpenAIProtocol,
    ProtocolHandler.handleProviderError, ProtocolHandler.transform_request,
    ProtocolHandler.parse_response, ProtocolHandler.marshal_failed,
    ProtocolHandler.response_parse_error, error_reply, JSON.
  intros Hreply.
  repeat case_match; simplify_eq/=; simplify_eq; eauto.
Qed.

(** The reply to a path outside the sample configuration is the error
    object. *)
Lemma protocol_reply_bodies_sample :
  (exists e,
     Reply.Body_
       (Reply.mk 404 ∅
          (BodyError (ErrorResponse.mk
             (ErrorDetail.mk "No provider instance configured for this path"
                "invalid_request_error" "instance_not_found"))))
     = BodyError e) \/
  (exists r,
     Reply.Body_
       (Reply.mk 404 ∅
          (BodyError (ErrorResponse.mk
             (ErrorDetail.mk "No provider instance configured for this path"
                "invalid_request_error" "instance_not_found"))))
     = BodyChat r /\
     Reply.Status
       (Reply.mk 404 ∅
          (BodyError (ErrorResponse.mk
             (ErrorDetail.mk "No provider instance configured for this path"
                "invalid_request_error" "instance_not_found"))))
     = 200).
Proof.
  apply (@protocol_reply_bodies sample_translator
           (ProtocolHandler.mk {[ "bedrock"%string := answering upstream_ok ]}
              single)
           (map_to_list (Config.Instances single)) (Time.mk 1762120723)
           sample_uuid
           (caller_request "POST" "/openai/unknown/chat/completions" [])).
  vm_compute. reflexivity.
Defined.

(** The protocol handler calls no provider, or calls one with the request
    of the transformation step. *)
Lemma protocol_forwarded_cases `{Translator} (h : ProtocolHandler.t)
    (order : list (string * InstanceConfig.t)) (startTime : Time.t)
    (u : list byte) (c : Request.t) :
  forwarded (ProtocolHandler.HandleRequest h order startTime u c) = [] \/
  exists inst name r providerReq,
    Config.GetInstanceByPath_in order (Request.URLPath c) = Ok (inst, name) /\
    ShouldBindJSON c = Some r /\
    ProtocolHandler.transform_request inst r = inr providerReq /\
    forwarded (ProtocolHandler.HandleRequest h order startTime u c)
    = [providerReq].
Proof.
  unfold ProtocolHandler.HandleRequest.
  destruct (Config.GetInstanceByPath_in order (Request.URLPath c))
    as [[inst name]|msg]; [|left; reflexivity].
  destruct (negb (String.eqb (InstanceConfig.Mode inst) "protocol"));
    [left; reflexivity|].
  destruct (ProtocolHandler.providers h !! InstanceConfig.Type_ inst)
    as [provider|]; [|left; reflexivity].
  destruct (String.eqb (InstanceConfig.Protocol inst) "openai");
    [|left; reflexivity].
  unfold ProtocolHandler.handleOpenAIProtocol.
  destruct (ShouldBindJSON c) as [r|]; [|left; reflexivity].
  destruct (ProtocolHandler.transform_request inst r) as [failure|providerReq]
    eqn:Ht; [left; reflexivity|].
  right. exists inst, name, r, providerReq.
  split; [reflexivity|]. split; [reflexivity|]. split; [exact Ht|].
  repeat case_match; reflexivity.
Qed.

(** X11. Unless the instance's transformation targets [bedrock_converse],
    every request the protocol handler passes to a provider is a POST of
    [/chat/completions] whose only header is the JSON content type, with
    no query parameter, and whose body is the marshalled form of the
    request bound from the caller's body: the caller's path, headers and
    query do not reach the provider. *)
Theorem protocol_passthrough_request `{Translator} (h : ProtocolHandler.t)
    (order : list (string * InstanceConfig.t)) (startTime : Time.t)
    (u : list byte) (c : Request.t) (inst : InstanceConfig.t)
    (name : string) (req : ProviderRequest.t) :
  Config.GetInstanceByPath_in order (Request.URLPath c) = Ok (inst, name) ->
  (forall t,
     InstanceConfig.Transformation inst = Some t ->
     TransformationConfig.RequestTo t <> "bedrock_converse"%string) ->
  In req (forwarded (ProtocolHandler.HandleRequest h order startTime u c)) ->
  ProviderRequest.Method req = "POST"%string /\
  ProviderRequest.Path req = "/chat/completions"%string /\
  ProviderRequest.Headers req
  = {[ "Content-Type"%string := "application/json"%string ]} /\
  ProviderRequest.QueryParams req = ∅ /\
  exists r,
    ShouldBindJSON c = Some r /\ Marshal r = Some (ProviderRequest.Body req).
Proof.
  intros Hlookup Hto Hin.
  destruct (protocol_forwarded_cases h order startTime u c)
    as [Hnil|(inst' & name' & r & providerReq & Hl & Hbind & Ht & Hfw)].
  { rewrite Hnil in Hin. destruct Hin. }
  rewrite Hfw in Hin. destruct Hin as [<-|[]].
  rewrite Hlookup in Hl. injection Hl as <- <-.
  assert (exists reqBody,
            Marshal r = Some reqBody /\
            providerReq = ProtocolHandler.passthrough_request reqBody)
    as (reqBody & Hm & ->).
  { unfold ProtocolHandler.transform_request in Ht.
    destruct (InstanceConfig.Transformation inst) as [t|] eqn:Etrans.
    - specialize (Hto t eq_refl). apply String.eqb_neq in Hto.
      rewrite Hto in Ht.
      destruct (Marshal r) as [reqBody|]; [|discriminate].
      injection Ht as <-. eauto.
    - destruct (Marshal r) as [reqBody|]; [|discriminate].
      injection Ht as <-. eauto. }
  repeat split; try reflexivity. exists r. auto.
Qed.

(** The request passed for the sample request to the OpenAI instance. *)
Lemma protocol_passthrough_request_sample :
  ProviderRequest.Method
    (ProtocolHandler.passthrough_request (list_byte_of_string "{}"))
  = "POST"%string /\
  ProviderRequest.Path
    (ProtocolHandler.passthrough_request (list_byte_of_string "{}"))
  = "/chat/completions"%string.
Proof.
  destruct (@protocol_passthrough_request sample_translator openai_handler
              (map_to_list (Config.Instances protocol_config))
              (Time.mk 1762120723) sample_uuid
              (caller_request "POST" "/openai/openai/chat/completions"
                 [("Authorization", "Bearer caller")%string])
              openai_openai "openai_openai"
              (ProtocolHandler.passthrough_request (list_byte_of_string "{}")))
    as (Hm & Hp & _).
  - vm_compute. reflexivity.
  - intros t [= <-]. discriminate.
  - vm_compute. left. reflexivity.
  - split; [exact Hm | exact Hp].
Defined.

(** X12. When the provider of a protocol instance fails with a provider
    error, the reply is the error object with type [provider_error], the
    error's message and the error's code; its status is the error's
    status code, or 500 when that code is zero, and so is never zero. When
    the provider fails with another error the reply has status 500 and code
    [unknown_error]. No metric is recorded. *)
Theorem protocol_provider_failure `{Translator} (h : ProtocolHandler.t)
    (order : list (string * InstanceConfig.t)) (startTime : Time.t)
    (u : list byte) (c : Request.t) (inst : InstanceConfig.t)
    (name : string) (provider : Provider) (r : ChatCompletionRequest)
    (providerReq : ProviderRequest.t) :
  Config.GetInstanceByPath_in order (Request.URLPath c) = Ok (inst, name) ->
  InstanceConfig.Mode inst = "protocol"%string ->
  InstanceConfig.Protocol inst = "openai"%string ->
  ProtocolHandler.providers h !! InstanceConfig.Type_ inst = Some provider ->
  ShouldBindJSON c = Some r ->
  ProtocolHandler.transform_request inst r = inr providerReq ->
  (forall e,
     @Invoke provider providerReq = InvokeProviderError e ->
     exists status,
       ProtocolHandler.HandleRequest h order startTime u c
       = Handled.mk [EvInvoke (InstanceConfig.Type_ inst) providerReq]
           (Some (Reply.mk status ∅
              (BodyError (ErrorResponse.mk
                 (ErrorDetail.mk (ProviderError.Message e) "provider_error"
                    (ProviderError.Code e)))))) /\
       status <> 0 /\
       (ProviderError.StatusCode e <> 0 ->
        status = ProviderError.StatusCode e) /\
       (ProviderError.StatusCode e = 0 -> status = 500)) /\
  (forall msg,
     @Invoke provider providerReq = InvokeError msg ->
     ProtocolHandler.HandleRequest h order startTime u c
     = Handled.mk [EvInvoke (InstanceConfig.Type_ inst) providerReq]
         (Some (Reply.mk 500 ∅
            (BodyError (ErrorResponse.mk
               (ErrorDetail.mk "Internal server error" "internal_error"
                  "unknown_error")))))).
Proof.
  intros Hlookup Hmode Hproto Hprov Hbind Ht.
  unfold ProtocolHandler.HandleRequest, ProtocolHandler.handleOpenAIProtocol.
  rewrite Hlookup, Hmode, Hproto, Hprov, Hbind, Ht. simpl.
  split.
  - intros e He. rewrite He.
    exists (if ProviderError.StatusCode e =? 0 then 500
            else ProviderError.StatusCode e).
    split; [reflexivity|].
    destruct (ProviderError.StatusCode e =? 0) eqn:Ez.
    + apply Z.eqb_eq in Ez.
      split; [discriminate|]. split; [lia | reflexivity].
    + apply Z.eqb_neq in Ez.
      split; [exact Ez|]. split; [reflexivity | lia].
  - intros msg He. rewrite He. reflexivity.
Qed.

(** The reply to the sample request when the provider's error carries no
    status code. *)
Lemma protocol_provider_failure_sample :
  exists status,
    @ProtocolHandler.HandleRequest sample_translator
      (ProtocolHandler.mk {[ "openai"%string := failing unclassified ]}
         protocol_config)
      (map_to_list (Config.Instances protocol_config))
      (Time.mk 1762120723) sample_uuid
      (caller_request "POST" "/openai/openai/chat/completions" [])
    = Handled.mk
        [EvInvoke (InstanceConfig.Type_ openai_openai)
           (ProtocolHandler.passthrough_request (list_byte_of_string "{}"))]
        (Some (Reply.mk status ∅
           (BodyError (ErrorResponse.mk
              (ErrorDetail.mk (ProviderError.Message unclassified)
                 "provider_error" (ProviderError.Code unclassified)))))) /\
    status = 500.
Proof.
  destruct (@protocol_provider_failure sample_translator
              (ProtocolHandler.mk {[ "openai"%string := failing unclassified ]}
                 protocol_config)
              (map_to_list (Config.Instances protocol_config))
              (Time.mk 1762120723) sample_uuid
              (caller_request "POST" "/openai/openai/chat/completions" [])
              openai_openai "openai_openai" (failing unclassified)
              ("{}"%string : @ChatCompletionRequest sample_translator)
              (ProtocolHandler.passthrough_request (list_byte_of_string "{}")))
    as [H _].
  - vm_compute. reflexivity.
  - reflexivity.
  - reflexivity.
  - reflexivity.
  - reflexivity.
  - reflexivity.
  - destruct (H unclassified eq_refl) as (status & Heq & _ & _ & Hzero).
    exists status. split; [exact Heq | apply Hzero; reflexivity].
Defined.

(** ** Metrics *)

(** X13. The transparent handler records a metric only for a request that
    its provider answers with a response, in a transparent instance that
    enables metrics: the handler then replies with that response, and
    labels the metric with the caller's method and the status code of the
    response. A provider failure leaves no metric. The protocol handler
    records a metric only together with a chat completion reply of status
    200, and labels it POST and 200. *)
Theorem metrics_follow_reply `{Translator} (ht : TransparentHandler.t)
    (hp : ProtocolHandler.t) (order : list (string * InstanceConfig.t))
    (startTime : Time.t) (u : list byte) (c : Request.t) (method : string)
    (status : Z) :
  (In (EvMetrics method status)
     (Handled.events (TransparentHandler.HandleRequest ht order c)) ->
   method = Request.Method c /\
   exists inst name provider body resp,
     Config.GetInstanceByPath_in order (Request.URLPath c)
     = Ok (inst, name) /\
     InstanceConfig.Mode inst = "transparent"%string /\
     MetricsConfig.Enabled (InstanceConfig.Metrics inst) = true /\
     TransparentHandler.providers ht !! InstanceConfig.Type_ inst
     = Some provider /\
     Request.GetRawData c = Some body /\
     @Invoke provider (TransparentHandler.provider_request inst c body)
     = Invoked resp /\
     status = ProviderResponse.StatusCode resp /\
     Handled.reply (TransparentHandler.HandleRequest ht order c)
     = Some (Reply.mk (ProviderResponse.StatusCode resp)
               (ProviderResponse.Headers resp)
               (BodyData (getContentType (ProviderResponse.Headers resp))
                  (ProviderResponse.Body resp)))) /\
  (In (EvMetrics method status)
     (Handled.events (ProtocolHandler.HandleRequest hp order startTime u c)) ->
   method = "POST"%string /\ status = 200 /\
   exists rep r,
     Handled.reply (ProtocolHandler.HandleRequest hp order startTime u c)
     = Some rep /\
     Reply.Status rep = 200 /\
     Reply.Body_ rep = BodyChat r).
Proof.
  split.
  - unfold TransparentHandler.HandleRequest.
    destruct (Config.GetInstanceByPath_in order (Request.URLPath c))
      as [[inst name]|err] eqn:Hlookup; [|intros []].
    destruct (String.eqb (InstanceConfig.Mode inst) "transparent") eqn:Hmode;
      [|intros []].
    apply String.eqb_eq in Hmode. cbn [negb].
    destruct (TransparentHandler.providers ht !! InstanceConfig.Type_ inst)
      as [provider|] eqn:Hprov; [|intros []].
    destruct (Request.GetRawData c) as [body|] eqn:Hbody; [|intros []].
    destruct (Invoke (TransparentHandler.provider_request inst c body))
      as [resp|e|msg] eqn:Hinvoke.
    + destruct (MetricsConfig.Enabled (InstanceConfig.Metrics inst))
        eqn:Henabled; simpl.
      * intros [Hin|[Hin|[]]]; [discriminate|].
        injection Hin as <- <-. split; [reflexivity|].
        exists inst, name, provider, body, resp.
        repeat (split; [first [reflexivity | assumption]|]).
        reflexivity.
      * intros [Hin|[]]. discriminate.
    + simpl. intros [Hin|[]]. discriminate.
    + simpl. intros [Hin|[]]. discriminate.
  - unfold ProtocolHandler.HandleRequest,
      ProtocolHandler.handleOpenAIProtocol.
    repeat case_match; simpl; intros Hin;
      repeat (destruct Hin as [Hin|Hin]; try discriminate); try contradiction.
    injection Hin as <- <-. split; [reflexivity|]. split; [reflexivity|].
    do 2 eexists. split; [reflexivity|]. split; reflexivity.
Qed.

(** The metric recorded for the sample request. *)
Lemma metrics_follow_reply_sample :
  "POST"%string = Request.Method (caller_request "POST" sample_path []) /\
  exists inst name provider body resp,
    Config.GetInstanceByPath_in (map_to_list (Config.Instances single))
      (Request.URLPath (caller_request "POST" sample_path []))
    = Ok (inst, name) /\
    InstanceConfig.Mode inst = "transparent"%string /\
    MetricsConfig.Enabled (InstanceConfig.Metrics inst) = true /\
    TransparentHandler.providers bedrock_handler !! InstanceConfig.Type_ inst
    = Some provider /\
    Request.GetRawData (caller_request "POST" sample_path []) = Some body /\
    @Invoke provider
      (TransparentHandler.provider_request inst
         (caller_request "POST" sample_path []) body)
    = Invoked resp /\
    200 = ProviderResponse.StatusCode resp /\
    Handled.reply
      (TransparentHandler.HandleRequest bedrock_handler
         (map_to_list (Config.Instances single))
         (caller_request "POST" sample_path []))
    = Some (Reply.mk (ProviderResponse.StatusCode resp)
              (ProviderResponse.Headers resp)
              (BodyData (getContentType (ProviderResponse.Headers resp))
                 (ProviderResponse.Body resp))).
Proof.
  apply (@metrics_follow_reply sample_translator bedrock_handler
           openai_handler (map_to_list (Config.Instances single))
           (Time.mk 1762120723) sample_uuid
           (caller_request "POST" sample_path []) "POST" 200).
  vm_compute. right. left. reflexivity.
Defined.

(** ** The path passed to the provider, continued *)

Lemma strictly_extends_rest (s p : string) :
  strictly_extends s p = true ->
  s = p +:+ slice_from s (String.length p) /\
  slice_from s (String.length p) <> EmptyString.
Proof.
  intros H. pose proof (HasPrefix_inv s p (strictly_extends_HasPrefix s p H))
    as Heq.
  split; [exact Heq|]. intros Hempty.
  unfold strictly_extends in H. apply andb_true_iff in H as [Hlen _].
  apply Nat.ltb_lt in Hlen.
  rewrite Hempty, append_nil_r in Heq. rewrite <- Heq in Hlen. lia.
Qed.

(** X14. The path [extractProviderPath] returns is always an end of the
    request path, and it is empty only when the request path is: a
    provider is never handed an empty path for a non-empty one, nor text
    that is not in the request path. *)
Theorem extractProviderPath_suffix (fullPath : string)
    (endpoints : list EndpointConfig.t) :
  (exists removed,
     fullPath = removed +:+ extractProviderPath fullPath endpoints) /\
  (extractProviderPath fullPath endpoints = EmptyString <->
   fullPath = EmptyString).
Proof.
  induction endpoints as [|endpoint endpoints [[removed IH1] IH2]].
  - simpl. split; [exists EmptyString; reflexivity | reflexivity].
  - rewrite extractProviderPath_unfold.
    destruct (strictly_extends fullPath (EndpointConfig.Path endpoint))
      eqn:Hs.
    + destruct (strictly_extends_rest _ _ Hs) as [Heq Hne].
      split; [exists (EndpointConfig.Path endpoint); exact Heq|].
      split; [contradiction|].
      intros ->. unfold strictly_extends in Hs. simpl in Hs. discriminate.
    + split; [exists removed; exact IH1 | exact IH2].
Qed.

(** ** The native provider routes *)

Lemma copy_all_headers_lookup (header : gmap string (list string))
    (key : string) :
  copy_all_headers header !! key
  = (fun _ => http.Header_Get header key) <$> header !! key.
Proof.
  unfold copy_all_headers. rewrite map_lookup_imap.
  destruct (header !! key); reflexivity.
Qed.

(** X15. The native handler calls the provider exactly once, with the
    caller's method, the path parameter, the body read and, for every key
    of the caller's header map, the first value stored under the key's
    canonical form: no header is withheld, the authentication headers that
    the transparent handler drops included. It then leaves exactly one
    record with the health checker, a success if and only if the provider
    returned a response. *)
Theorem native_handler_call (provider : Provider) (path : string)
    (body : list byte) (c : Request.t) :
  exists req record,
    NativeHandled.events (createProviderHandler provider path body c)
    = [NvInvoke req; record] /\
    ProviderRequest.Method req = Request.Method c /\
    ProviderRequest.Path req = path /\
    ProviderRequest.Body req = body /\
    (forall key,
       ProviderRequest.Headers req !! key
       = (fun _ => http.Header_Get (Request.Header c) key)
         <$> Request.Header c !! key) /\
    (record = NvRecordSuccess \/ record = NvRecordError) /\
    (record = NvRecordSuccess <->
     exists resp, @Invoke provider req = Invoked resp).
Proof.
  unfold createProviderHandler.
  set (req := ProviderRequest.mk (Request.Method c) path
                (copy_all_headers (Request.Header c)) body
                (copy_query (Request.Query c))).
  destruct (Invoke req) as [resp|e|msg] eqn:E.
  - exists req, NvRecordSuccess. split; [reflexivity|].
    repeat (split; [reflexivity|]).
    split; [intros key; apply copy_all_headers_lookup|].
    split; [left; reflexivity|]. split; [eauto | reflexivity].
  - exists req, NvRecordError. split; [reflexivity|].
    repeat (split; [reflexivity|]).
    split; [intros key; apply copy_all_headers_lookup|].
    split; [right; reflexivity|].
    split; [discriminate | intros [resp Hr]; congruence].
  - exists req, NvRecordError. split; [reflexivity|].
    repeat (split; [reflexivity|]).
    split; [intros key; apply copy_all_headers_lookup|].
    split; [right; reflexivity|].
    split; [discriminate | intros [resp Hr]; congruence].
Qed.


(** ** The access check of the storage tests *)

(** X17. [CheckStorageAccess] grants access exactly when the bucket is one
    of the allowed buckets and no denied prefix is a prefix of the key
    preceded by a slash. So an empty list of allowed buckets denies
    everything, and so does a denied prefix that is empty or is the
    slash. *)
Theorem CheckStorageAccess_granted (bucket key : string)
    (allowedBuckets deniedPrefixes : list string) :
  (CheckStorageAccess bucket key allowedBuckets deniedPrefixes = true <->
   In bucket allowedBuckets /\
   forall denied, In denied deniedPrefixes ->
     HasPrefix ("/" +:+ key) denied = false) /\
  CheckStorageAccess bucket key [] deniedPrefixes = false /\
  (In EmptyString deniedPrefixes \/ In "/"%string deniedPrefixes ->
   CheckStorageAccess bucket key allowedBuckets deniedPrefixes = false).
Proof.
  assert (CheckStorageAccess bucket key allowedBuckets deniedPrefixes = true
          <-> In bucket allowedBuckets /\
              forall denied, In denied deniedPrefixes ->
                HasPrefix ("/" +:+ key) denied = false) as Hiff.
  { unfold CheckStorageAccess.
    destruct (existsb (fun allowed => String.eqb bucket allowed)
                allowedBuckets) eqn:Ea; simpl.
    - apply existsb_exists in Ea as (a & Hin & Heq).
      apply String.eqb_eq in Heq. subst a.
      rewrite negb_true_iff. split.
      + intros Hd. split; [exact Hin|]. intros denied Hdin.
        destruct (HasPrefix ("/" +:+ key) denied) eqn:Hp; [|reflexivity].
        assert (existsb (fun denied => HasPrefix ("/" +:+ key) denied)
                  deniedPrefixes = true) as Hex.
        { apply existsb_exists. exists denied. auto. }
        congruence.
      + intros [_ Hall].
        destruct (existsb (fun denied => HasPrefix ("/" +:+ key) denied)
                    deniedPrefixes) eqn:Ed; [|reflexivity].
        apply existsb_exists in Ed as (d & Hdin & Hp).
        rewrite (Hall d Hdin) in Hp. discriminate.
    - split; [discriminate|]. intros [Hin _].
      assert (existsb (fun allowed => String.eqb bucket allowed)
                allowedBuckets = true) as Hex.
      { apply existsb_exists. exists bucket.
        split; [exact Hin | apply String.eqb_refl]. }
      congruence. }
  split; [exact Hiff|]. split; [reflexivity|].
  intros Hbad.
  apply not_true_is_false. intros E.
  apply Hiff in E as [_ Hall].
  destruct Hbad as [Hin|Hin]; specialize (Hall _ Hin).
  - unfold HasPrefix, slice_to in Hall. simpl in Hall. discriminate.
  - change ("/" +:+ key) with (String "/" key) in Hall.
    unfold HasPrefix, slice_to in Hall. simpl in Hall.
    rewrite ?substring_0_0 in Hall. discriminate.
Qed.


(** ** The basic-auth credentials *)

Lemma Split_nonempty (s : string) (sep : ascii) : Split s sep <> [].
Proof.
  destruct s as [|c s]; simpl; [discriminate|].
  destruct (Ascii.eqb c sep); [discriminate|].
  destruct (Split s sep); discriminate.
Qed.

Lemma Split_piece (a : string) (sep : ascii) :
  without_char sep a = true -> Split a sep = [a].
Proof.
  unfold without_char. induction a as [|c a IH]; intros H; [reflexivity|].
  simpl in H. apply andb_true_iff in H as [Hc H].
  apply negb_true_iff in Hc. simpl. rewrite Hc, (IH H). reflexivity.
Qed.

Lemma Split_app (a rest : string) (sep : ascii) :
  without_char sep a = true ->
  Split (a +:+ String sep rest) sep = a :: Split rest sep.
Proof.
  unfold without_char. induction a as [|c a IH]; intros H.
  - rewrite append_nil_l. simpl. rewrite Ascii.eqb_refl. reflexivity.
  - simpl in H. apply andb_true_iff in H as [Hc H].
    apply negb_true_iff in Hc.
    rewrite append_cons. simpl. rewrite Hc, (IH H). reflexivity.
Qed.

Lemma SplitN2_cut (user pass : string) (sep : ascii) :
  without_char sep user = true ->
  SplitN2 (user +:+ String sep pass) sep = [user; pass].
Proof.
  unfold without_char. induction user as [|c user IH]; intros H.
  - rewrite append_nil_l. simpl. rewrite Ascii.eqb_refl. reflexivity.
  - simpl in H. apply andb_true_iff in H as [Hc H].
    apply negb_true_iff in Hc.
    rewrite append_cons. simpl. rewrite Hc, (IH H). reflexivity.
Qed.

Lemma without_char_app (x : ascii) (a b : string) :
  without_char x (a +:+ b) = without_char x a && without_char x b.
Proof.
  unfold without_char. induction a as [|c a IH]; [reflexivity|].
  rewrite append_cons. simpl. rewrite IH, andb_assoc. reflexivity.
Qed.

(** The pieces of the credentials text are its entries. *)
Lemma Split_credentials_text (l : list (string * string)) :
  l <> [] ->
  Forall (fun entry => readable_credential entry = true) l ->
  Split (credentials_text l) ","
  = map (fun entry => fst entry +:+ ":" +:+ snd entry) l.
Proof.
  induction l as [|[user pass] l IH]; intros Hne Hall; [congruence|].
  apply Forall_cons in Hall as [Hentry Hall].
  unfold readable_credential in Hentry. simpl in Hentry.
  apply andb_true_iff in Hentry as [Hentry Hpass].
  apply andb_true_iff in Hentry as [Huser _].
  assert (without_char "," (user +:+ ":" +:+ pass) = true) as Hpiece.
  { rewrite !without_char_app, Huser, Hpass. reflexivity. }
  destruct l as [|entry l].
  - simpl. rewrite (Split_piece _ _ Hpiece). reflexivity.
  - change (credentials_text ((user, pass) :: entry :: l))
      with (user +:+ ":" +:+ pass +:+ ","
            +:+ credentials_text (entry :: l)).
    assert (user +:+ ":" +:+ pass +:+ "," +:+ credentials_text (entry :: l)
            = (user +:+ ":" +:+ pass)
              +:+ String "," (credentials_text (entry :: l))) as ->.
    { rewrite !append_assoc. reflexivity. }
    rewrite (Split_app _ _ _ Hpiece), IH;
      [reflexivity | discriminate | exact Hall].
Qed.

Lemma credentials_fold (l : list (string * string))
    (creds : gmap string string) :
  Forall (fun entry => readable_credential entry = true) l ->
  fold_left
    (fun creds pair =>
       match SplitN2 pair ":" with
       | [user; pass] => <[user := pass]> creds
       | _ => creds
       end)
    (map (fun entry => fst entry +:+ ":" +:+ snd entry) l) creds
  = list_to_map (reverse l) ∪ creds.
Proof.
  revert creds. induction l as [|[user pass] l IH]; intros creds Hall.
  - simpl. rewrite (left_id_L ∅ (∪)). reflexivity.
  - apply Forall_cons in Hall as [Hentry Hall].
    unfold readable_credential in Hentry. simpl in Hentry.
    apply andb_true_iff in Hentry as [Hentry _].
    apply andb_true_iff in Hentry as [_ Huser].
    simpl.
    change (user +:+ ":" +:+ pass) with (user +:+ String ":" pass).
    rewrite (SplitN2_cut user pass ":" Huser), (IH _ Hall).
    rewrite reverse_cons, list_to_map_app. simpl.
    rewrite insert_empty, <- (assoc_L (∪)), <- insert_union_singleton_l.
    reflexivity.
Qed.

(** X18. Reading back the credentials text: when the variable
    [BASIC_AUTH_CREDENTIALS] holds the entries [user:password] of a list,
    separated by commas, where no user name has a comma or a colon and no
    password has a comma, [loadBasicAuthCredentials] returns the map of
    those entries, a later entry replacing an earlier one for the same
    user; a password may contain colons. *)
Theorem loadBasicAuthCredentials_reads_back (env : gmap string string)
    (l : list (string * string)) :
  Forall (fun entry => readable_credential entry = true) l ->
  env !! "BASIC_AUTH_CREDENTIALS"%string = Some (credentials_text l) ->
  loadBasicAuthCredentials env = list_to_map (reverse l).
Proof.
  intros Hall Henv. unfold loadBasicAuthCredentials, os.Getenv.
  rewrite Henv. simpl.
  destruct l as [|entry l]; [reflexivity|].
  assert (String.eqb (credentials_text (entry :: l)) EmptyString = false)
    as ->.
  { apply String.eqb_neq. intros Hempty.
    pose proof (Split_credentials_text (entry :: l)) as Hs.
    rewrite Hempty in Hs. simpl in Hs.
    specialize (Hs ltac:(discriminate) Hall).
    injection Hs as Hs _. destruct entry as [user pass]. simpl in Hs.
    destruct user; discriminate. }
  simpl negb. cbv iota.
  rewrite (Split_credentials_text (entry :: l)); [|discriminate|exact Hall].
  rewrite (credentials_fold _ _ Hall), (right_id_L ∅ (∪)). reflexivity.
Qed.

(** Reading back two entries for the same user and one for another. *)
Lemma loadBasicAuthCredentials_reads_back_sample :
  loadBasicAuthCredentials
    {[ "BASIC_AUTH_CREDENTIALS"%string
       := "alice:first,bob:pa:ss,alice:second"%string ]}
  = list_to_map
      (reverse [("alice", "first"); ("bob", "pa:ss");
                ("alice", "second")]%string).
Proof.
  apply (loadBasicAuthCredentials_reads_back
           {[ "BASIC_AUTH_CREDENTIALS"%string
              := "alice:first,bob:pa:ss,alice:second"%string ]}
           [("alice", "first"); ("bob", "pa:ss");
            ("alice", "second")]%string).
  - repeat constructor.
  - reflexivity.
Defined.

(** ** Configuration loading, continued *)

(** X19. A configuration text without a dollar sign is decoded exactly as
    it is written, whatever the environment holds. *)
Theorem LoadConfig_plain_text (Unmarshal : string -> result Config.t)
    (env : gmap string string) (data : string) :
  without_char "$" data = true ->
  Config.LoadConfig Unmarshal env (Ok data)
  = match Unmarshal data with
    | Ok config => Ok config
    | Err err => Err ("failed to parse config: " +:+ err)
    end.
Proof.
  intros Hplain. unfold Config.LoadConfig, os.ExpandEnv, os.Expand.
  pose proof (expand_from_plain (os.Getenv env) data EmptyString Hplain)
    as Hexp.
  rewrite !append_nil_r in Hexp. rewrite Hexp. reflexivity.
Qed.

(** Loading the document without references. *)
Lemma LoadConfig_plain_text_sample :
  Config.LoadConfig (decoding pairless_document pairless_config)
    {[ "HOME"%string := "/root"%string ]} (Ok pairless_document)
  = match decoding pairless_document pairless_config pairless_document with
    | Ok config => Ok config
    | Err err => Err ("failed to parse config: " +:+ err)
    end.
Proof.
  apply (LoadConfig_plain_text (decoding pairless_document pairless_config)
           {[ "HOME"%string := "/root"%string ]} pairless_document).
  reflexivity.
Defined.

Lemma scan_alnum_name (name post : string) :
  forallb os.isAlphaNum (list_ascii_of_string name) = true ->
  ends_name post = true ->
  os.scan_alnum (name +:+ post) = String.length name.
Proof.
  intros Hname Hpost. induction name as [|c name IH].
  - rewrite append_nil_l. destruct post as [|c post]; [reflexivity|].
    simpl in *. apply negb_true_iff in Hpost. rewrite Hpost. reflexivity.
  - simpl in Hname. apply andb_true_iff in Hname as [Hc Hname].
    rewrite append_cons. simpl. rewrite Hc, (IH Hname). reflexivity.
Qed.

Lemma getShellName_plain (name post : string) :
  plain_name name = true -> ends_name post = true ->
  os.getShellName (name +:+ post) = (name, String.length name).
Proof.
  intros Hname Hpost. destruct name as [|c name]; [discriminate|].
  unfold plain_name in Hname.
  apply andb_true_iff in Hname as [Hspecial Halnum].
  apply negb_true_iff in Hspecial.
  pose proof (scan_alnum_name (String c name) post Halnum Hpost) as Hscan.
  rewrite append_cons in *. unfold os.getShellName.
  assert (Ascii.eqb c "{" = false) as ->.
  { destruct (Ascii.eqb c "{") eqn:E; [|reflexivity].
    apply Ascii.eqb_eq in E. subst c. simpl in Halnum. discriminate. }
  rewrite Hspecial, Hscan. f_equal.
  rewrite <- append_cons. apply substring_prefix_app.
Qed.

(** X20. Loading also expands the unbraced form [$NAME]: when the name is
    alphanumeric, does not start with a digit, and is followed by the end
    of the text or by a byte that is not alphanumeric, the reference is
    replaced by the value of the variable, or by nothing when the variable
    is not set, before the text is decoded. *)
Theorem LoadConfig_expands_unbraced (Unmarshal : string -> result Config.t)
    (env : gmap string string) (pre name post : string) :
  without_char "$" pre = true ->
  plain_name name = true ->
  ends_name post = true ->
  Config.LoadConfig Unmarshal env (Ok (pre +:+ "$" +:+ name +:+ post))
  = match Unmarshal (pre +:+ os.Getenv env name +:+ os.ExpandEnv env post)
    with
    | Ok config => Ok config
    | Err err => Err ("failed to parse config: " +:+ err)
    end.
Proof.
  intros Hpre Hname Hpost.
  assert (os.ExpandEnv env (pre +:+ "$" +:+ name +:+ post)
          = pre +:+ os.Getenv env name +:+ os.ExpandEnv env post) as Hexp.
  { unfold os.ExpandEnv, os.Expand.
    rewrite (expand_from_plain _ pre _ Hpre). f_equal.
    pose proof (getShellName_plain name post Hname Hpost) as Hshell.
    destruct name as [|c name]; [discriminate|].
    change ("$" +:+ String c name +:+ post)
      with (String "$" (String c (name +:+ post))).
    rewrite append_cons in Hshell.
    rewrite expand_from_dollar, Hshell. cbn [fst snd].
    change (String.eqb (String c name) EmptyString) with false. cbv iota.
    f_equal. rewrite <- append_cons. apply expand_from_skip. }
  unfold Config.LoadConfig. rewrite Hexp. reflexivity.
Qed.

(** Loading a text with an unbraced reference to a variable that is
    set. *)
Lemma LoadConfig_expands_unbraced_sample :
  Config.LoadConfig (decoding "region: eu-west-1 " empty_config)
    {[ "AWS_REGION"%string := "eu-west-1"%string ]}
    (Ok ("region: " +:+ "$" +:+ "AWS_REGION" +:+ " "))
  = match decoding "region: eu-west-1 " empty_config
            ("region: "
             +:+ os.Getenv {[ "AWS_REGION"%string := "eu-west-1"%string ]}
                   "AWS_REGION"
             +:+ os.ExpandEnv {[ "AWS_REGION"%string := "eu-west-1"%string ]}
                   " ")
    with
    | Ok config => Ok config
    | Err err => Err ("failed to parse config: " +:+ err)
    end.
Proof.
  apply (LoadConfig_expands_unbraced
           (decoding "region: eu-west-1 " empty_config)
           {[ "AWS_REGION"%string := "eu-west-1"%string ]}
           "region: " "AWS_REGION" " ").
  - reflexivity.
  - reflexivity.
  - reflexivity.
Defined.

(** ** The model-routed chat completion handler *)

Lemma translateRequest_supported `{ChatCompletion} (name : string)
    (openaiReq : ChatCompletionRequest) (req : ProviderRequest.t) :
  ChatCompletionHandler.translateRequest name openaiReq = Ok req ->
  In name ["bedrock"; "openai"; "anthropic"; "azure"]%string.
Proof.
  unfold ChatCompletionHandler.translateRequest. intros Ht.
  destruct (String.eqb name "bedrock") eqn:E1;
    [apply String.eqb_eq in E1; subst; simpl; auto|].
  destruct (String.eqb name "openai") eqn:E2;
    [apply String.eqb_eq in E2; subst; simpl; auto|].
  destruct (String.eqb name "anthropic") eqn:E3;
    [apply String.eqb_eq in E3; subst; simpl; auto|].
  destruct (String.eqb name "azure") eqn:E4;
    [apply String.eqb_eq in E4; subst; simpl; auto 6|].
  discriminate.
Qed.

Lemma handleNonStreaming_calls `{ChatCompletion}
    (provider : RoutedProvider.t) (openaiReq : ChatCompletionRequest)
    (now : Time.t) :
  requested
    (ChatHandled.calls
       (ChatCompletionHandler.handleNonStreaming provider openaiReq now))
  = match ChatCompletionHandler.translateRequest
            (RoutedProvider.Name provider) openaiReq with
    | Ok req => [(false, req)]
    | Err _ => []
    end.
Proof.
  unfold ChatCompletionHandler.handleNonStreaming.
  destruct (ChatCompletionHandler.translateRequest
              (RoutedProvider.Name provider) openaiReq) as [req|err];
    [|reflexivity].
  destruct (RoutedProvider.Invoke_ provider req) as [resp|e cause|msg];
    [|reflexivity|reflexivity].
  destruct (ChatCompletionHandler.translateResponse _ _ _ _); reflexivity.
Qed.

Lemma handleStreaming_calls `{ChatCompletion} (flusher : bool)
    (provider : RoutedProvider.t) (openaiReq : ChatCompletionRequest) :
  requested
    (ChatHandled.calls
       (ChatCompletionHandler.handleStreaming flusher provider openaiReq))
  = match ChatCompletionHandler.translateRequest
            (RoutedProvider.Name provider) openaiReq with
    | Ok req => [(true, req)]
    | Err _ => []
    end.
Proof.
  unfold ChatCompletionHandler.handleStreaming.
  destruct (ChatCompletionHandler.translateRequest
              (RoutedProvider.Name provider) openaiReq) as [req|err];
    [|reflexivity].
  destruct (RoutedProvider.InvokeStreaming_ provider req)
    as [stream|e cause|msg]; [|reflexivity|reflexivity].
  destruct flusher; [|reflexivity].
  destruct (ChatCompletionHandler.copy_stream stream) as [written [|]];
    reflexivity.
Qed.

(** X21. The chat completion handler passes a request to a provider only
    when the caller's body decodes, its model is not empty, the router maps
    the model to a provider, and the provider is named [bedrock],
    [openai], [anthropic] or [azure]: a provider of any other name is
    never called. The request is the one [translateRequest] builds, it is
    the only one of the run, and it goes to [InvokeStreaming] when the
    caller asks for a stream and to [Invoke] otherwise. *)
Theorem chat_calls_supported_provider `{ChatCompletion} (flusher : bool)
    (r : Request.t) (now : Time.t) (streaming : bool)
    (req : ProviderRequest.t) :
  In (streaming, req)
    (requested
       (ChatHandled.calls (ChatCompletionHandler.Handle flusher r now))) ->
  exists openaiReq provider,
    Decode r = Ok openaiReq /\
    req_Model openaiReq <> EmptyString /\
    RouteModel (req_Model openaiReq) = Ok provider /\
    req_Stream openaiReq = streaming /\
    In (RoutedProvider.Name provider)
      ["bedrock"; "openai"; "anthropic"; "azure"]%string /\
    ChatCompletionHandler.translateRequest (RoutedProvider.Name provider)
      openaiReq = Ok req /\
    requested
      (ChatHandled.calls (ChatCompletionHandler.Handle flusher r now))
    = [(streaming, req)].
Proof.
  unfold ChatCompletionHandler.Handle.
  destruct (Decode r) as [openaiReq|err] eqn:Ed; [|intros []].
  destruct (String.eqb (req_Model openaiReq) EmptyString) eqn:Em;
    [intros []|].
  destruct (RouteModel (req_Model openaiReq)) as [provider|err] eqn:Er;
    [|intros []].
  destruct (req_Stream openaiReq) eqn:Es.
  - rewrite handleStreaming_calls.
    destruct (ChatCompletionHandler.translateRequest
                (RoutedProvider.Name provider) openaiReq)
      as [req'|err] eqn:Et; [|intros []].
    intros [[= <- <-]|[]].
    exists openaiReq, provider. split; [reflexivity|].
    split; [apply String.eqb_neq; exact Em|].
    split; [exact Er|]. split; [exact Es|].
    split; [exact (translateRequest_supported _ _ _ Et)|].
    split; [exact Et | reflexivity].
  - rewrite handleNonStreaming_calls.
    destruct (ChatCompletionHandler.translateRequest
                (RoutedProvider.Name provider) openaiReq)
      as [req'|err] eqn:Et; [|intros []].
    intros [[= <- <-]|[]].
    exists openaiReq, provider. split; [reflexivity|].
    split; [apply String.eqb_neq; exact Em|].
    split; [exact Er|]. split; [exact Es|].
    split; [exact (translateRequest_supported _ _ _ Et)|].
    split; [exact Et | reflexivity].
Qed.

(** The call made for a caller that asks for a stream of a model routed to
    the OpenAI provider. *)
Lemma chat_calls_supported_provider_sample :
  exists openaiReq provider,
    @Decode _ streaming_chat (chat_request "gpt-4") = Ok openaiReq /\
    @req_Model sample_translator openaiReq <> EmptyString /\
    @RouteModel _ streaming_chat (@req_Model sample_translator openaiReq)
    = Ok provider /\
    @req_Stream _ streaming_chat openaiReq = true /\
    In (RoutedProvider.Name provider)
      ["bedrock"; "openai"; "anthropic"; "azure"]%string /\
    @ChatCompletionHandler.translateRequest _ streaming_chat
      (RoutedProvider.Name provider) openaiReq
    = Ok (ChatCompletionHandler.openai_format "/chat/completions"
            (list_byte_of_string "gpt-4") ∅) /\
    requested
      (ChatHandled.calls
         (@ChatCompletionHandler.Handle _ streaming_chat true
            (chat_request "gpt-4") (Time.mk 1762120723)))
    = [(true,
        ChatCompletionHandler.openai_format "/chat/completions"
          (list_byte_of_string "gpt-4") ∅)].
Proof.
  apply (@chat_calls_supported_provider _ streaming_chat true
           (chat_request "gpt-4") (Time.mk 1762120723)).
  vm_compute. left. reflexivity.
Defined.

(** X22. When the provider returns a response whose body decodes, the
    handler replies with status 200, whatever the status and the headers of
    that response. For a provider named [openai], [azure] or [anthropic]
    the completion written is the upstream body as it decodes, its
    identifier and timestamp included; for the provider named [bedrock] it
    is the translation of the upstream body, made with the identifier
    [chatcmpl-] followed by the epoch seconds of the moment, in decimal.
    When the body does not decode, the reply is the error object of type
    [internal_error] with status 500, whose message names the failure. *)
Theorem chat_completion_reply `{ChatCompletion} (provider : RoutedProvider.t)
    (openaiReq : ChatCompletionRequest) (now : Time.t)
    (req : ProviderRequest.t) (resp : ProviderResponse.t) :
  ChatCompletionHandler.translateRequest (RoutedProvider.Name provider)
    openaiReq = Ok req ->
  RoutedProvider.Invoke_ provider req = ChatInvoked resp ->
  (forall completion,
     In (RoutedProvider.Name provider)
       ["openai"; "azure"; "anthropic"]%string ->
     Unmarshal_Response (ProviderResponse.Body resp) = Ok completion ->
     ChatHandled.outcome
       (ChatCompletionHandler.handleNonStreaming provider openaiReq now)
     = Replies
         (ChatReply.mk 200 "application/json"
            (ChatCompletionBody (Some completion)))) /\
  (forall bedrockResp,
     RoutedProvider.Name provider = "bedrock"%string ->
     Unmarshal_BedrockResponse (ProviderResponse.Body resp)
     = Ok bedrockResp ->
     ChatHandled.outcome
       (ChatCompletionHandler.handleNonStreaming provider openaiReq now)
     = Replies
         (ChatReply.mk 200 "application/json"
            (ChatCompletionBody
               (TranslateBedrockToOpenAI bedrockResp (req_Model openaiReq)
                  ("chatcmpl-"
                   +:+ NilZero.string_of_int (Z.to_int (Time.Unix now))))))) /\
  (forall err,
     (In (RoutedProvider.Name provider) ["openai"; "azure"]%string \/
      RoutedProvider.Name provider = "anthropic"%string) ->
     Unmarshal_Response (ProviderResponse.Body resp) = Err err ->
     ChatHandled.outcome
       (ChatCompletionHandler.handleNonStreaming provider openaiReq now)
     = Replies
         (ChatReply.mk 500 "application/json"
            (ChatErrorBody
               (ErrorResponse.mk
                  (ErrorDetail.mk
                     ("Failed to translate response: "
                      +:+ (if String.eqb (RoutedProvider.Name provider)
                                "anthropic"
                           then "failed to parse anthropic response: "
                                +:+ err
                           else err))
                     "internal_error" EmptyString))))) /\
  (forall err,
     RoutedProvider.Name provider = "bedrock"%string ->
     Unmarshal_BedrockResponse (ProviderResponse.Body resp) = Err err ->
     ChatHandled.outcome
       (ChatCompletionHandler.handleNonStreaming provider openaiReq now)
     = Replies
         (ChatReply.mk 500 "application/json"
            (ChatErrorBody
               (ErrorResponse.mk
                  (ErrorDetail.mk
                     ("Failed to translate response: "
                      +:+ "failed to parse bedrock response: " +:+ err)
                     "internal_error" EmptyString))))).
Proof.
  intros Ht Hinvoke.
  unfold ChatCompletionHandler.handleNonStreaming,
    ChatCompletionHandler.translateResponse,
    ChatCompletionHandler.writeError.
  rewrite Ht, Hinvoke. split; [|split; [|split]].
  - intros completion Hname Hdecode. rewrite Hdecode.
    destruct Hname as [<-|[<-|[<-|[]]]]; reflexivity.
  - intros bedrockResp -> Hdecode. simpl. rewrite Hdecode. reflexivity.
  - intros err Hname Hdecode. rewrite Hdecode.
    destruct Hname as [[<-|[<-|[]]]| ->]; reflexivity.
  - intros err -> Hdecode. simpl. rewrite Hdecode. reflexivity.
Qed.

(** The reply for a model routed to the OpenAI provider keeps the
    identifier of the upstream completion. *)
Lemma chat_completion_reply_sample :
  ChatHandled.outcome
    (@ChatCompletionHandler.handleNonStreaming _ sample_chat
       (provider_named "openai" (fun _ => ChatInvoked upstream_ok))
       ("gpt-4"%string : @ChatCompletionRequest sample_translator)
       (Time.mk 1762120723))
  = Replies
      (ChatReply.mk 200 "application/json"
         (ChatCompletionBody (Some sample_response))).
Proof.
  destruct (@chat_completion_reply _ sample_chat
              (provider_named "openai" (fun _ => ChatInvoked upstream_ok))
              ("gpt-4"%string : @ChatCompletionRequest sample_translator)
              (Time.mk 1762120723)
              (ChatCompletionHandler.openai_format "/chat/completions"
                 (list_byte_of_string "gpt-4") ∅)
              upstream_ok) as [H _].
  - reflexivity.
  - reflexivity.
  - apply (H sample_response); [left; reflexivity | reflexivity].
Defined.

Lemma ErrCodes_apart `{ChatCompletion} :
  ErrCodeInvalidRequest <> ErrCodeAuthenticationFail /\
  ErrCodeInvalidRequest <> ErrCodeRateLimitExceeded /\
  ErrCodeInvalidRequest <> ErrCodeModelNotFound /\
  ErrCodeInvalidRequest <> ErrCodeServiceUnavailable /\
  ErrCodeAuthenticationFail <> ErrCodeRateLimitExceeded /\
  ErrCodeAuthenticationFail <> ErrCodeModelNotFound /\
  ErrCodeAuthenticationFail <> ErrCodeServiceUnavailable /\
  ErrCodeRateLimitExceeded <> ErrCodeModelNotFound /\
  ErrCodeRateLimitExceeded <> ErrCodeServiceUnavailable /\
  ErrCodeModelNotFound <> ErrCodeServiceUnavailable.
Proof.
  pose proof ErrCodes_distinct as Hd.
  apply NoDup_cons in Hd as [H1 Hd]. apply NoDup_cons in Hd as [H2 Hd].
  apply NoDup_cons in Hd as [H3 Hd]. apply NoDup_cons in Hd as [H4 _].
  repeat match goal with
         | Hout : _ ∉ _ :: _ |- _ =>
             apply not_elem_of_cons in Hout as [? Hout]
         end.
  repeat split; assumption.
Qed.

(** X23. The switch of [handleProviderError] classifies the five error
    codes of the providers as invalid request with 400, authentication
    error with 401, rate limit error with 429, invalid request with 404
    for a model that is not found, and service unavailable with 503; every
    other code is an internal error with 500. *)
Theorem error_class_table `{ChatCompletion} :
  ChatCompletionHandler.error_class ErrCodeInvalidRequest
  = ("invalid_request_error"%string, 400) /\
  ChatCompletionHandler.error_class ErrCodeAuthenticationFail
  = ("authentication_error"%string, 401) /\
  ChatCompletionHandler.error_class ErrCodeRateLimitExceeded
  = ("rate_limit_error"%string, 429) /\
  ChatCompletionHandler.error_class ErrCodeModelNotFound
  = ("invalid_request_error"%string, 404) /\
  ChatCompletionHandler.error_class ErrCodeServiceUnavailable
  = ("service_unavailable"%string, 503) /\
  forall code,
    ~ In code [ErrCodeInvalidRequest; ErrCodeAuthenticationFail;
               ErrCodeRateLimitExceeded; ErrCodeModelNotFound;
               ErrCodeServiceUnavailable] ->
    ChatCompletionHandler.error_class code = ("internal_error"%string, 500).
Proof.
  destruct ErrCodes_apart
    as (H12 & H13 & H14 & H15 & H23 & H24 & H25 & H34 & H35 & H45).
  unfold ChatCompletionHandler.error_class.
  repeat split.
  - rewrite String.eqb_refl. reflexivity.
  - apply not_eq_sym, String.eqb_neq in H12. rewrite H12, String.eqb_refl.
    reflexivity.
  - apply not_eq_sym, String.eqb_neq in H13.
    apply not_eq_sym, String.eqb_neq in H23.
    rewrite H13, H23, String.eqb_refl. reflexivity.
  - apply not_eq_sym, String.eqb_neq in H14.
    apply not_eq_sym, String.eqb_neq in H24.
    apply not_eq_sym, String.eqb_neq in H34.
    rewrite H14, H24, H34, String.eqb_refl. reflexivity.
  - apply not_eq_sym, String.eqb_neq in H15.
    apply not_eq_sym, String.eqb_neq in H25.
    apply not_eq_sym, String.eqb_neq in H35.
    apply not_eq_sym, String.eqb_neq in H45.
    rewrite H15, H25, H35, H45, String.eqb_refl. reflexivity.
  - intros code Hout. simpl in Hout.
    repeat match goal with
           | |- context [String.eqb code ?x] =>
               let E := fresh "E" in
               destruct (String.eqb code x) eqn:E;
               [apply String.eqb_eq in E; subst; exfalso; apply Hout; auto 8|]
           end.
    reflexivity.
Qed.

Lemma error_class_status `{ChatCompletion} (code : string) :
  snd (ChatCompletionHandler.error_class code) <> 0.
Proof.
  unfold ChatCompletionHandler.error_class.
  repeat case_match; simpl; discriminate.
Qed.

(** X24. When the provider fails with a provider error, the handler
    replies with the error object whose type is the class of the error's
    code and whose message is the error's message, followed by a colon and
    the wrapped cause when there is one. The status is the error's status
    code when that is not zero and the status of the class otherwise, so
    it is never zero. The provider is not called again. *)
Theorem chat_provider_error_reply `{ChatCompletion}
    (provider : RoutedProvider.t) (openaiReq : ChatCompletionRequest)
    (now : Time.t) (req : ProviderRequest.t) (e : ProviderError.t)
    (cause : option string) :
  ChatCompletionHandler.translateRequest (RoutedProvider.Name provider)
    openaiReq = Ok req ->
  RoutedProvider.Invoke_ provider req = ChatProviderError e cause ->
  exists status,
    ChatCompletionHandler.handleNonStreaming provider openaiReq now
    = ChatHandled.mk [CallInvoke req]
        (Replies
           (ChatReply.mk status "application/json"
              (ChatErrorBody
                 (ErrorResponse.mk
                    (ErrorDetail.mk
                       match cause with
                       | Some c => ProviderError.Message e +:+ ": " +:+ c
                       | None => ProviderError.Message e
                       end
                       (fst (ChatCompletionHandler.error_class
                               (ProviderError.Code e)))
                       EmptyString))))) /\
    status <> 0 /\
    (ProviderError.StatusCode e <> 0 -> status = ProviderError.StatusCode e) /\
    (ProviderError.StatusCode e = 0 ->
     status = snd (ChatCompletionHandler.error_class (ProviderError.Code e))).
Proof.
  intros Ht Hinvoke.
  unfold ChatCompletionHandler.handleNonStreaming,
    ChatCompletionHandler.handleProviderError,
    ChatCompletionHandler.writeError.
  rewrite Ht, Hinvoke.
  pose proof (error_class_status (ProviderError.Code e)) as Hclass.
  destruct (ChatCompletionHandler.error_class (ProviderError.Code e))
    as [errorType mapped].
  simpl in *.
  destruct (ProviderError.StatusCode e =? 0) eqn:Ez; simpl.
  - apply Z.eqb_eq in Ez. exists mapped.
    split; [reflexivity|]. split; [exact Hclass|].
    split; [lia | reflexivity].
  - apply Z.eqb_neq in Ez. exists (ProviderError.StatusCode e).
    split; [reflexivity|]. split; [exact Ez|].
    split; [reflexivity | lia].
Qed.

(** The reply for a model routed to a provider that is throttled. *)
Lemma chat_provider_error_reply_sample :
  exists status,
    @ChatCompletionHandler.handleNonStreaming _ sample_chat
      (provider_named "openai"
         (fun _ => ChatProviderError throttled (Some "retry later"%string)))
      ("gpt-4"%string : @ChatCompletionRequest sample_translator)
      (Time.mk 1762120723)
    = ChatHandled.mk
        [CallInvoke
           (ChatCompletionHandler.openai_format "/chat/completions"
              (list_byte_of_string "gpt-4") ∅)]
        (Replies
           (ChatReply.mk status "application/json"
              (ChatErrorBody
                 (ErrorResponse.mk
                    (ErrorDetail.mk "Too many requests: retry later"
                       "rate_limit_error" EmptyString))))) /\
    status = 429.
Proof.
  destruct (@chat_provider_error_reply _ sample_chat
              (provider_named "openai"
                 (fun _ =>
                    ChatProviderError throttled (Some "retry later"%string)))
              ("gpt-4"%string : @ChatCompletionRequest sample_translator)
              (Time.mk 1762120723)
              (ChatCompletionHandler.openai_format "/chat/completions"
                 (list_byte_of_string "gpt-4") ∅)
              throttled (Some "retry later"%string))
    as (status & Heq & _ & Hs & _).
  - reflexivity.
  - reflexivity.
  - exists status. split; [exact Heq | apply Hs; discriminate].
Defined.

(** X25. For every provider name other than [bedrock], a request that
    [translateRequest] builds is a POST whose only header is the JSON
    content type and whose body is the marshalled request of the caller;
    its path is [/chat/completions] for [openai], [/messages] for
    [anthropic], and for [azure] the deployment path that carries the
    model name, with the API version as its only query parameter. *)
Theorem translateRequest_openai_format `{ChatCompletion} (name : string)
    (openaiReq : ChatCompletionRequest) (req : ProviderRequest.t) :
  name <> "bedrock"%string ->
  ChatCompletionHandler.translateRequest name openaiReq = Ok req ->
  ProviderRequest.Method req = "POST"%string /\
  ProviderRequest.Headers req
  = {[ "Content-Type"%string := "application/json"%string ]} /\
  json_Marshal openaiReq = Ok (ProviderRequest.Body req) /\
  ((name = "openai"%string /\
    ProviderRequest.Path req = "/chat/completions"%string /\
    ProviderRequest.QueryParams req = ∅) \/
   (name = "anthropic"%string /\
    ProviderRequest.Path req = "/messages"%string /\
    ProviderRequest.QueryParams req = ∅) \/
   (name = "azure"%string /\
    ProviderRequest.Path req
    = "/deployments/" +:+ req_Model openaiReq +:+ "/chat/completions" /\
    ProviderRequest.QueryParams req
    = {[ "api-version"%string := "2024-02-15-preview"%string ]})).
Proof.
  intros Hname Ht. unfold ChatCompletionHandler.translateRequest in Ht.
  apply String.eqb_neq in Hname. rewrite Hname in Ht.
  destruct (String.eqb name "openai") eqn:E2.
  { apply String.eqb_eq in E2.
    destruct (json_Marshal openaiReq) as [body|err]; [|discriminate].
    injection Ht as <-. repeat (split; [reflexivity|]). left. auto. }
  destruct (String.eqb name "anthropic") eqn:E3.
  { apply String.eqb_eq in E3.
    destruct (json_Marshal openaiReq) as [body|err]; [|discriminate].
    injection Ht as <-. repeat (split; [reflexivity|]). right. left. auto. }
  destruct (String.eqb name "azure") eqn:E4; [|discriminate].
  apply String.eqb_eq in E4.
  destruct (json_Marshal openaiReq) as [body|err]; [|discriminate].
  injection Ht as <-. repeat (split; [reflexivity|]). right. right. auto.
Qed.

(** The request built for the Azure provider. *)
Lemma translateRequest_openai_format_sample :
  ProviderRequest.Method
    (ChatCompletionHandler.openai_format
       "/deployments/gpt-4/chat/completions" (list_byte_of_string "gpt-4")
       {[ "api-version"%string := "2024-02-15-preview"%string ]})
  = "POST"%string.
Proof.
  apply (@translateRequest_openai_format _ sample_chat "azure"
           ("gpt-4"%string : @ChatCompletionRequest sample_translator)
           (ChatCompletionHandler.openai_format
              "/deployments/gpt-4/chat/completions"
              (list_byte_of_string "gpt-4")
              {[ "api-version"%string := "2024-02-15-preview"%string ]})).
  - discriminate.
  - reflexivity.
Defined.

(** ** The providers and the routes of [main] *)

Lemma register_other kind made registry k :
  k <> kind -> register kind made registry !! k = registry !! k.
Proof.
  intros Hk. unfold register. destruct made as [provider|err]; [|reflexivity].
  apply lookup_insert_ne. congruence.
Qed.

Lemma register_same kind made registry :
  register kind made registry !! kind =
  match made with Ok provider => Some provider | Err _ => registry !! kind end.
Proof.
  unfold register. destruct made as [provider|err]; [|reflexivity].
  apply lookup_insert_eq.
Qed.

Lemma getEnv_nonempty env key defaultValue :
  defaultValue <> EmptyString -> getEnv env key defaultValue <> EmptyString.
Proof.
  intros Hd. unfold getEnv.
  destruct (String.eqb (os.Getenv env key) EmptyString) eqn:E; simpl.
  - exact Hd.
  - apply String.eqb_neq. exact E.
Qed.

Lemma native_route_In authEnabled registry kind r :
  In r (native_route authEnabled registry kind) <->
  is_Some (registry !! kind) /\
  r = Route.mk "/providers" authEnabled anyMethods
        ("/" +:+ kind +:+ "/*path") (NativeRoute kind).
Proof.
  unfold native_route. destruct (registry !! kind) as [provider|] eqn:E.
  - simpl. split.
    + intros [<-|[]]. split; [eauto|reflexivity].
    + intros [_ ->]. left. reflexivity.
  - simpl. split; [intros []|]. intros [[x Hx] _]. discriminate.
Qed.

Lemma mode_enabled_true instanceConfig feature :
  mode_enabled instanceConfig feature = true <->
  exists c, instanceConfig = Some c /\
            Config.IsFeatureEnabled c feature = true.
Proof.
  unfold mode_enabled. destruct instanceConfig as [c|].
  - split; [eauto|]. intros (c' & [= <-] & E). exact E.
  - split; [discriminate|]. intros (c' & [=] & _).
Qed.

(** X26. Of the routes [main] registers, the three
    operational ones (health, readiness, metrics) never get the
    authentication middleware, and every other route gets it exactly when
    authentication is enabled. *)
Theorem routes_authentication authEnabled registry instanceConfig :
  Forall
    (fun r => Route.Auth r =
              if operational (Route.Handler r) then false else authEnabled)
    (registerRoutes authEnabled registry instanceConfig).
Proof.
  unfold registerRoutes, native_route.
  repeat (apply Forall_app; split).
  all: repeat match goal with
              | |- context [mode_enabled ?c ?f] => destruct (mode_enabled c f)
              | |- context [lookup ?k ?m] => destruct (lookup k m)
              end.
  all: repeat constructor.
Qed.

(** X27. The transparent route is registered exactly when the
    instance configuration was loaded and enables the feature
    transparent_mode, and it accepts every method under /transparent; the
    protocol routes are registered exactly when the configuration enables
    protocol_mode, and they accept POST only, under /openai and
    /anthropic. *)
Theorem mode_routes authEnabled registry instanceConfig :
  ((exists r, In r (registerRoutes authEnabled registry instanceConfig) /\
              Route.Handler r = TransparentRoute) <->
   (exists c, instanceConfig = Some c /\
              Config.IsFeatureEnabled c "transparent_mode" = true))
  /\ ((exists r, In r (registerRoutes authEnabled registry instanceConfig) /\
                 Route.Handler r = ProtocolRoute) <->
      (exists c, instanceConfig = Some c /\
                 Config.IsFeatureEnabled c "protocol_mode" = true))
  /\ Forall
       (fun r =>
          (Route.Handler r = TransparentRoute ->
           Route.Group r = "/transparent"%string /\
           Route.Path r = "/*path"%string /\
           Route.Methods r = anyMethods)
          /\ (Route.Handler r = ProtocolRoute ->
              Route.Group r = "/"%string /\
              (Route.Path r = "/openai/*path"%string \/
               Route.Path r = "/anthropic/*path"%string) /\
              Route.Methods r = ["POST"%string]))
       (registerRoutes authEnabled registry instanceConfig).
Proof.
  rewrite <- !mode_enabled_true.
  split; [|split].
  - split.
    + intros (r & Hin & Hr). unfold registerRoutes in Hin.
      rewrite !in_app_iff, !native_route_In in Hin.
      destruct (mode_enabled instanceConfig "transparent_mode");
        [reflexivity|].
      destruct (mode_enabled instanceConfig "protocol_mode"),
        (registry !! "bedrock"%string); simpl in Hin;
        repeat match goal with
               | Hd : _ \/ _ |- _ => destruct Hd as [Hd|Hd]
               | Hd : _ /\ _ |- _ => destruct Hd as [_ Hd]
               | Hd : False |- _ => destruct Hd
               end; subst r; discriminate.
    + intros E. unfold registerRoutes. rewrite E.
      exists (Route.mk "/transparent" authEnabled anyMethods "/*path"
                TransparentRoute).
      split; [|reflexivity].
      rewrite !in_app_iff. right. right. left. left. reflexivity.
  - split.
    + intros (r & Hin & Hr). unfold registerRoutes in Hin.
      rewrite !in_app_iff, !native_route_In in Hin.
      destruct (mode_enabled instanceConfig "protocol_mode");
        [reflexivity|].
      destruct (mode_enabled instanceConfig "transparent_mode"),
        (registry !! "bedrock"%string); simpl in Hin;
        repeat match goal with
               | Hd : _ \/ _ |- _ => destruct Hd as [Hd|Hd]
               | Hd : _ /\ _ |- _ => destruct Hd as [_ Hd]
               | Hd : False |- _ => destruct Hd
               end; subst r; discriminate.
    + intros E. unfold registerRoutes. rewrite E.
      exists (Route.mk "/" authEnabled ["POST"%string] "/openai/*path"
                ProtocolRoute).
      split; [|reflexivity].
      rewrite !in_app_iff. right. right. right. left. left. reflexivity.
  - unfold registerRoutes, native_route.
    repeat (apply Forall_app; split).
    all: repeat match goal with
                | |- context [mode_enabled ?c ?f] =>
                    destruct (mode_enabled c f)
                | |- context [lookup ?k ?m] => destruct (lookup k m)
                end.
    all: repeat match goal with
                | |- Forall _ (_ :: _) =>
                    constructor; [split; intros Hh; try discriminate Hh|]
                | |- Forall _ [] => constructor
                end.
    all: simpl; auto.
Qed.

(** X28. A native route to a provider is registered exactly
    for the seven provider kinds that the registry holds, whatever else the
    registry holds; each such route accepts every method, and outside the
    group /providers only the legacy routes of bedrock exist. *)
Theorem native_routes authEnabled registry instanceConfig kind :
  ((exists r, In r (registerRoutes authEnabled registry instanceConfig) /\
              Route.Handler r = NativeRoute kind) <->
   In kind known_kinds /\ is_Some (registry !! kind))
  /\ Forall
       (fun r =>
          Route.Handler r = NativeRoute kind ->
          Route.Methods r = anyMethods /\
          (Route.Group r = "/providers"%string \/ kind = "bedrock"%string))
       (registerRoutes authEnabled registry instanceConfig).
Proof.
  split.
  - split.
    + intros (r & Hin & Hr). unfold registerRoutes in Hin.
      rewrite !in_app_iff, !native_route_In in Hin.
      assert (forall k, In k known_kinds ->
                is_Some (registry !! k) /\
                r = Route.mk "/providers" authEnabled anyMethods
                      ("/" +:+ k +:+ "/*path") (NativeRoute k) ->
                In kind known_kinds /\ is_Some (registry !! kind))
        as Hnative.
      { intros k Hk [Hs ->]. injection Hr as <-. split; assumption. }
      destruct Hin
        as [Hin|[Hin|[Hin|[Hin|[Hin|[Hin|[Hin|[Hin|[Hin|[Hin|[Hin|Hin]]]]]]]]]]].
      * simpl in Hin. destruct Hin as [<-|[<-|[<-|[]]]]; discriminate.
      * simpl in Hin. destruct Hin as [<-|[<-|[<-|[]]]]; discriminate.
      * destruct (mode_enabled instanceConfig "transparent_mode");
          simpl in Hin; [destruct Hin as [<-|[]]; discriminate|destruct Hin].
      * destruct (mode_enabled instanceConfig "protocol_mode");
          simpl in Hin;
          [destruct Hin as [<-|[<-|[]]]; discriminate|destruct Hin].
      * apply (Hnative "bedrock"%string); [simpl; tauto|exact Hin].
      * apply (Hnative "azure"%string); [simpl; tauto|exact Hin].
      * apply (Hnative "openai"%string); [simpl; tauto|exact Hin].
      * apply (Hnative "anthropic"%string); [simpl; tauto|exact Hin].
      * apply (Hnative "vertex"%string); [simpl; tauto|exact Hin].
      * apply (Hnative "ibm"%string); [simpl; tauto|exact Hin].
      * apply (Hnative "oracle"%string); [simpl; tauto|exact Hin].
      * destruct (registry !! "bedrock"%string) as [provider|] eqn:Eb;
          simpl in Hin; [|destruct Hin].
        destruct Hin as [<-|[<-|[<-|[]]]]; injection Hr as <-;
          (split; [simpl; tauto|rewrite Eb; eauto]).
    + intros [Hk Hs]. unfold known_kinds in Hk. simpl in Hk.
      exists (Route.mk "/providers" authEnabled anyMethods
                ("/" +:+ kind +:+ "/*path") (NativeRoute kind)).
      split; [|reflexivity].
      unfold registerRoutes. rewrite !in_app_iff, !native_route_In.
      right. right. right. right.
      destruct Hk as [<-|[<-|[<-|[<-|[<-|[<-|[<-|[]]]]]]]]; auto 12.
  - unfold registerRoutes, native_route.
    repeat (apply Forall_app; split).
    all: repeat match goal with
                | |- context [mode_enabled ?c ?f] =>
                    destruct (mode_enabled c f)
                | |- context [lookup ?k ?m] => destruct (lookup k m)
                end.
    all: repeat match goal with
                | |- Forall _ (_ :: _) =>
                    constructor; [intros Hh; try discriminate Hh|]
                | |- Forall _ [] => constructor
                end.
    all: simpl; try (injection Hh as <-); auto.
Qed.

(** X29. The Bedrock provider is constructed
    whatever the environment holds: an unset or empty AWS_REGION is replaced
    by us-east-1, so the test for an empty region never fails, and the
    registry holds bedrock exactly when the constructor succeeds; no later
    provider replaces it. *)
Theorem initProviders_bedrock `{Constructors} (env : gmap string string) :
  getEnv env "AWS_REGION" "us-east-1" <> EmptyString
  /\ initProviders env !! "bedrock"%string =
     match NewBedrockProvider (getEnv env "AWS_REGION" "us-east-1") with
     | Ok provider => Some provider
     | Err _ => None
     end.
Proof.
  assert (getEnv env "AWS_REGION" "us-east-1" <> EmptyString) as Hregion
    by (apply getEnv_nonempty; discriminate).
  split; [exact Hregion|].
  apply String.eqb_neq in Hregion.
  unfold initProviders. cbv zeta. rewrite Hregion. cbn [negb].
  repeat match goal with
         | |- context [if ?b then _ else _] => destruct b
         end;
    rewrite ?register_other by discriminate;
    rewrite register_same;
    destruct (NewBedrockProvider _); reflexivity.
Qed.

(** X30. A provider whose required settings are
    incomplete is not registered: azure needs its endpoint and its key,
    openai and anthropic their key, vertex its project, ibm its key and its
    project, oracle its endpoint, its token and its compartment; and the
    registry never holds a kind other than the seven. *)
Theorem initProviders_incomplete `{Constructors} (env : gmap string string) :
  (os.Getenv env "AZURE_OPENAI_ENDPOINT" = EmptyString \/
   os.Getenv env "AZURE_OPENAI_API_KEY" = EmptyString ->
   initProviders env !! "azure"%string = None)
  /\ (os.Getenv env "OPENAI_API_KEY" = EmptyString ->
      initProviders env !! "openai"%string = None)
  /\ (os.Getenv env "ANTHROPIC_API_KEY" = EmptyString ->
      initProviders env !! "anthropic"%string = None)
  /\ (os.Getenv env "GCP_PROJECT_ID" = EmptyString ->
      initProviders env !! "vertex"%string = None)
  /\ (os.Getenv env "IBM_API_KEY" = EmptyString \/
      os.Getenv env "IBM_PROJECT_ID" = EmptyString ->
      initProviders env !! "ibm"%string = None)
  /\ (os.Getenv env "ORACLE_ENDPOINT" = EmptyString \/
      os.Getenv env "ORACLE_AUTH_TOKEN" = EmptyString \/
      os.Getenv env "ORACLE_COMPARTMENT_ID" = EmptyString ->
      initProviders env !! "oracle"%string = None)
  /\ (forall kind, ~ In kind known_kinds ->
      initProviders env !! kind = None).
Proof.
  repeat split.
  1-6: intros Hempty; unfold initProviders; cbv zeta;
    repeat match type of Hempty with
           | _ \/ _ => destruct Hempty as [Hempty|Hempty]
           end;
    rewrite Hempty; cbn [String.eqb negb andb];
    rewrite ?andb_false_r;
    repeat match goal with
           | |- context [if ?b then _ else _] => destruct b
           end;
    rewrite ?register_other by discriminate;
    apply lookup_empty.
  intros kind Hkind. unfold initProviders. cbv zeta.
  assert (forall k, In k known_kinds -> kind <> k) as Hother
    by (intros k Hk ->; exact (Hkind Hk)).
  repeat match goal with
         | |- context [if ?b then _ else _] => destruct b
         end;
    rewrite ?register_other by (apply Hother; simpl; tauto);
    apply lookup_empty.
Qed.

(** With the Azure endpoint set and the key unset, the registry holds no
    Azure provider. *)
Lemma initProviders_incomplete_sample :
  @initProviders sample_constructors azure_without_key !! "azure"%string
  = None.
Proof.
  destruct (@initProviders_incomplete sample_constructors azure_without_key)
    as [Hazure _].
  apply Hazure. right. reflexivity.
Defined.
